(** * Smart Meal Planner: the client's decision logic, embedded and verified

    The repository is the Next.js client of a meal-planning service.  Three
    pages carry logic: [calorie-calculator/page.tsx] (Mifflin-St Jeor
    formula), [planner/page.tsx] (request payloads, single-meal replacement
    with local recomputation of totals and of the shopping list) and
    [meal-plan/page.tsx] (an earlier results page with its own replacement
    handler).  The planning engine itself (validation, filter, scorer,
    composer) is served over HTTP and is not part of the sources; where a
    property is about it, the engine is modelled from the specification and
    marked so.

    Conventions of the embedding:
    - a JavaScript number is an IEEE 754 binary64 value.  The modules
      [Calculator], [Planner] and [MealPlan] read a number as the rational
      [Q] it stands for; they serve the properties of structure (which meal
      is replaced, what a handler keeps, what is sent).  The modules
      [Double], [Calculator64], [Planner64] and [MealPlan64] compute in
      binary64 with the primitive floats of Rocq; they serve the properties
      of the numbers shown;
    - a JavaScript string is a [string] of 8-bit characters read as the code
      points U+0000..U+00FF;
    - [meals_per_day], [days], day numbers, meal numbers and recipe
      identifiers, which the HTTP contract types as integers, are in [Z];
    - an object field that the code reads defensively ([x ?? d], [x?.f],
      [x || 0]) is an [option]: [None] stands for [undefined] and for
      [null], which the code tells apart in one place only, the comparison
      [===] of two slot keys that are both missing;
    - [fetch] is the environment: a handler receives the outcome of its
      request as an argument and the request it would send is a function of
      the state; the modules [PlannerAsync] and [MealPlanAsync] take a
      replace handler apart into what runs at the click and what runs when
      the reply arrives. *)

From Stdlib Require Import ZArith QArith Qabs Qround Lia Lqa Bool List.
From Stdlib Require Import Ascii String.
From Stdlib Require Import Sorting.Sorted Sorting.Permutation.
From Stdlib Require Import Floats.
From Stdlib Require Uint63.
Import ListNotations.

Local Open Scope string_scope.
Local Open Scope Z_scope.

(* ===================================================================== *)
(** * JavaScript primitives used by the pages *)
(* ===================================================================== *)

Module JS.

(** [Math.round(x)] on the rational [x]: the integer nearest to [x], ties
    towards +infinity. *)
Definition mathRound (x : Q) : Z := Qfloor (x + (1 # 2))%Q.

(** [Number(x.toFixed(1))] on the rational [x]: [toFixed] takes the
    integer [n] for which [n / 10] is closest to [|x|], the larger one on a
    tie, and restores the sign; from 10^21 on it prints the number itself.
    [Double.toFixed1] is the function on doubles. *)
Definition toFixed1 (x : Q) : Q :=
  if Qle_bool (inject_Z (10 ^ 21)) (Qabs x) then x
  else
    let n := Qfloor (Qabs x * 10 + (1 # 2))%Q in
    if Qle_bool 0 x then (n # 10)%Q else ((- n) # 10)%Q.

(** [Number(v || 0)] on a numeric field that may be missing. *)
Definition numOr0 (v : option Q) : Q :=
  match v with Some q => q | None => 0%Q end.

(** [a ?? b]. *)
Definition nullish {A : Type} (a : option A) (b : A) : A :=
  match a with Some x => x | None => b end.

Definition codeOf (c : ascii) : N := N_of_ascii c.

(** White space and line terminators that [String.prototype.trim]
    strips, among the code points below 256: TAB, LF, VT, FF, CR, SP and
    NBSP. *)
Definition isWhite (c : ascii) : bool :=
  let n := codeOf c in
  (((9 <=? n) && (n <=? 13)) || (n =? 32) || (n =? 160))%N.

Fixpoint trimStart (s : string) : string :=
  match s with
  | EmptyString => EmptyString
  | String c s' => if isWhite c then trimStart s' else s
  end.

Fixpoint trimEnd (s : string) : string :=
  match s with
  | EmptyString => EmptyString
  | String c s' =>
      match trimEnd s' with
      | EmptyString => if isWhite c then EmptyString else String c EmptyString
      | t => String c t
      end
  end.

(** [s.trim()]. *)
Definition trim (s : string) : string := trimEnd (trimStart s).

(** [toLowerCase] on one code point below 256: A-Z and the Latin-1
    capitals U+00C0..U+00DE (without the multiplication sign U+00D7) move
    up by 32. *)
Definition lowerChar (c : ascii) : ascii :=
  let n := codeOf c in
  if (((65 <=? n) && (n <=? 90))
      || ((192 <=? n) && (n <=? 222) && negb (n =? 215)))%N
  then ascii_of_N (n + 32) else c.

Fixpoint toLowerCase (s : string) : string :=
  match s with
  | EmptyString => EmptyString
  | String c s' => String (lowerChar c) (toLowerCase s')
  end.

(** [s.split(",")]: never empty, [""] splits into [[""]]. *)
Fixpoint splitComma (s : string) : list string :=
  match s with
  | EmptyString => [EmptyString]
  | String c s' =>
      let r := splitComma s' in
      if Ascii.eqb c "," then EmptyString :: r
      else match r with
           | h :: t => String c h :: t
           | [] => [String c EmptyString]
           end
  end.

(** [Boolean(s)] on a string: only the empty string is falsy. *)
Definition truthy (s : string) : bool :=
  match s with EmptyString => false | _ => true end.

(** [arr.sort(cmp)]: the specification requires a stable sort; [x] goes
    before [y] when [cmp x y < 0], after it when [cmp x y > 0], and elements
    that compare equal keep their order.  Insertion from the right end
    realises it: [x] stood before every element of [l]. *)
Section Sort.
Context {A : Type} (cmp : A -> A -> Z).

Fixpoint insertSorted (x : A) (l : list A) : list A :=
  match l with
  | [] => [x]
  | y :: l' => if 0 <? cmp x y then y :: insertSorted x l' else x :: l
  end.

Definition sort (l : list A) : list A := fold_right insertSorted [] l.
End Sort.

End JS.

(* ===================================================================== *)
(** * calorie-calculator/page.tsx *)
(* ===================================================================== *)

Module Calculator.
Import JS.
Local Open Scope Q_scope.

Inductive Sex := female | male.
Inductive Goal := maintain | deficit | surplus.
Inductive Activity := sedentary | light | moderate | very | extra.

Definition activityMultiplier (a : Activity) : Q :=
  match a with
  | sedentary => 12 # 10
  | light => 1375 # 1000
  | moderate => 155 # 100
  | very => 1725 # 1000
  | extra => 19 # 10
  end.

Definition bmr (sex : Sex) (w h age : Q) : Q :=
  let base := 10 * w + (625 # 100) * h - 5 * age in
  match sex with male => base + 5 | female => base - 161 end.

Record Result := { r_bmr : Z; r_tdee : Z; r_recommended : Z }.

(** The [useMemo] body of [CalorieCalculator], each operation carried out
    exactly; [Calculator64.result] carries it out in binary64. *)
Definition result (sex : Sex) (age height weight : Q)
           (activity : Activity) (goal : Goal) : Result :=
  let base := bmr sex weight height age in
  let tdee := base * activityMultiplier activity in
  let calories := tdee in
  let calories := match goal with deficit => tdee * (85 # 100) | _ => calories end in
  let calories := match goal with surplus => tdee * (11 # 10) | _ => calories end in
  {| r_bmr := mathRound base;
     r_tdee := mathRound tdee;
     r_recommended := mathRound calories |}.

End Calculator.

(* ===================================================================== *)
(** * The HTTP contract as the pages see it *)
(* ===================================================================== *)

Module Api.

Inductive DietType := vegetarian | non_vegetarian.
Inductive Goal := lose_weight | maintain | gain_muscle.

(** The JSON body of a reply of [/replace-meal], with every key either
    page reads.  [M] is the shape of a meal of the planner page and [R]
    the shape of a replacement of the meal-plan page. *)
Record ReplaceBody (M R : Type) := {
  status : option string;
  meal : option M;
  replacement : option R;
  detail : option string;
  message : option string
}.
Arguments status {M R} _.
Arguments meal {M R} _.
Arguments replacement {M R} _.
Arguments detail {M R} _.
Arguments message {M R} _.

(** What [await fetch(...)] followed by [res.json()] can do: [fetch]
    rejects with an error carrying [e.message]; or a response arrives with
    [res.ok], [res.status] (printed in decimal) and a body that parses
    ([inr]) or makes [res.json()] reject ([inl], with the message); or the
    body is the JSON value [null], on which [j?.key] reads [undefined] and
    [j.key] throws.  A body that is a number, a string, a boolean or an
    array has none of the keys and reads like an object without them. *)
Inductive Outcome (B : Type) :=
| Rejected (e_message : option string)
| Responded (ok : bool) (http_status : string) (json : option string + B)
| RespondedNull (ok : bool) (http_status : string).
Arguments Rejected {B} _.
Arguments Responded {B} _ _ _.
Arguments RespondedNull {B} _ _.

(** [x === "ok"] on a value that may be missing. *)
Definition isOk (st : option string) : bool :=
  match st with Some s => String.eqb s "ok" | None => false end.

(** [a === b] on strings that may be missing.  Two missing values compare
    equal here; in the code [null === undefined] is false, so that of two
    keys that are both missing the code may find unequal what this function
    finds equal. *)
Definition strictEq (a b : option string) : bool :=
  match a, b with
  | Some x, Some y => String.eqb x y
  | None, None => true
  | _, _ => false
  end.

End Api.

(* ===================================================================== *)
(** * planner/page.tsx *)
(* ===================================================================== *)

Module Planner.
Import JS Api.

(** Each record lives in a module of its own so that its fields keep the
    names of the JSON keys. *)

Module Form.
Record t := mk {
  calories : Q;
  meals_per_day : Z;
  days : Z;
  diet_type : DietType;
  goal : Goal;
  allergies : string;
  exclude_ultra_processed : bool;
  variety : bool
}.
End Form.

Module Explain.
Record t := mk {
  calorie_delta : Q;
  protein_g : Q;
  sugar_g : Q;
  sodium_mg : Q;
  sat_fat_g : Q;
  variety_penalty : Q
}.
End Explain.

Module Meal.
Record t := mk {
  slot : option string;
  meal_type : option string;
  recipe_id : Z;
  name : string;
  calories : option Q;
  protein_g : option Q;
  carbs_g : option Q;
  fat_g : option Q;
  ingredients : option (list string);
  target_calories : Q;
  explain : option Explain.t
}.
End Meal.

Module Totals.
Record t := mk { calories : Q; protein_g : Q; carbs_g : Q; fat_g : Q }.
End Totals.

Module Day.
Record t := mk {
  day : Z;
  meals : option (list Meal.t);
  totals : option Totals.t
}.
End Day.

Module ShoppingItem.
Record t := mk { ingredient : string; count : nat }.
End ShoppingItem.

Module ShoppingList.
Record t := mk { total_unique : nat; items : list ShoppingItem.t }.
End ShoppingList.

Module Plan.
Record t := mk {
  days : option (list Day.t);
  overall_totals : option Totals.t;
  shopping_list : option ShoppingList.t
}.
End Plan.

(** [PlanAPIResponse], the value of the [result] state. *)
Module Result.
Record t := mk { status : string; plan : option Plan.t }.
End Result.

(** The component state the two handlers read and write. *)
Module State.
Record t := mk {
  form : Form.t;
  result : option Result.t;
  activeDay : Z;
  error : option string
}.
End State.

(** ** Request payloads *)

(** [form.allergies.split(",").map((a) => a.trim()).filter(Boolean)] *)
Definition allergyList (text : string) : list string :=
  filter truthy (map trim (splitComma text)).

Module GeneratePayload.
Record t := mk {
  calories : Q;
  meals_per_day : Z;
  days : Z;
  diet_type : DietType;
  goal : Goal;
  allergies : list string;
  exclude_ultra_processed : bool;
  variety : bool
}.
End GeneratePayload.

Module ReplacePayload.
Record t := mk {
  calories : Q;
  meals_per_day : Z;
  diet_type : DietType;
  goal : Goal;
  allergies : list string;
  exclude_ultra_processed : bool;
  variety : bool;
  day : Z;
  slot : option string;
  target_meal_calories : Q;
  exclude_recipe_ids : list Z
}.
End ReplacePayload.

(** The [payload] of [handleGenerate]: the form as it stands, nothing is
    range-checked. *)
Definition generatePayload (form : Form.t) : GeneratePayload.t :=
  {| GeneratePayload.calories := Form.calories form;
     GeneratePayload.meals_per_day := Form.meals_per_day form;
     GeneratePayload.days := Form.days form;
     GeneratePayload.diet_type := Form.diet_type form;
     GeneratePayload.goal := Form.goal form;
     GeneratePayload.allergies := allergyList (Form.allergies form);
     GeneratePayload.exclude_ultra_processed := Form.exclude_ultra_processed form;
     GeneratePayload.variety := Form.variety form |}.

(** The [payload] of [handleReplace]. *)
Definition replacePayload (st : State.t) (slot : option string) (target : Q)
           (excludeIds : list Z) : ReplacePayload.t :=
  let form := State.form st in
  {| ReplacePayload.calories := Form.calories form;
     ReplacePayload.meals_per_day := Form.meals_per_day form;
     ReplacePayload.diet_type := Form.diet_type form;
     ReplacePayload.goal := Form.goal form;
     ReplacePayload.allergies := allergyList (Form.allergies form);
     ReplacePayload.exclude_ultra_processed := Form.exclude_ultra_processed form;
     ReplacePayload.variety := Form.variety form;
     ReplacePayload.day := State.activeDay st;
     ReplacePayload.slot := slot;
     ReplacePayload.target_meal_calories := target;
     ReplacePayload.exclude_recipe_ids := excludeIds |}.

(** [mm.slot ?? mm.meal_type] *)
Definition slotKey (mm : Meal.t) : option string :=
  match Meal.slot mm with
  | Some s => Some s
  | None => Meal.meal_type mm
  end.

(** The request one click on "Replace" in a [MealCard] issues:
    [onReplace(meal.slot ?? meal.meal_type, Number(meal.target_calories),
    [Number(meal.recipe_id)])]; [None] when [handleReplace] returns at its
    first line because no plan is held. *)
Definition mealCardRequest (st : State.t) (meal : Meal.t) : option ReplacePayload.t :=
  match State.result st with
  | None => None
  | Some r =>
      match Result.plan r with
      | None => None
      | Some _ =>
          Some (replacePayload st (slotKey meal) (Meal.target_calories meal)
                               [Meal.recipe_id meal])
      end
  end.

(** ** Local recomputation after a replacement *)

Definition zeroTotals : Totals.t := Totals.mk 0 0 0 0.

(** The reducer over the meals of a day. *)
Definition addMeal (acc : Totals.t) (mm : Meal.t) : Totals.t :=
  {| Totals.calories := Totals.calories acc + numOr0 (Meal.calories mm);
     Totals.protein_g := Totals.protein_g acc + numOr0 (Meal.protein_g mm);
     Totals.carbs_g := Totals.carbs_g acc + numOr0 (Meal.carbs_g mm);
     Totals.fat_g := Totals.fat_g acc + numOr0 (Meal.fat_g mm) |}%Q.

Definition sumMeals (ms : list Meal.t) : Totals.t :=
  fold_left addMeal ms zeroTotals.

(** [d.totals?.f || 0] *)
Definition totalsField (f : Totals.t -> Q) (t : option Totals.t) : Q :=
  match t with Some x => f x | None => 0%Q end.

(** The reducer over the days. *)
Definition addDay (acc : Totals.t) (d : Day.t) : Totals.t :=
  {| Totals.calories := Totals.calories acc + totalsField Totals.calories (Day.totals d);
     Totals.protein_g := Totals.protein_g acc + totalsField Totals.protein_g (Day.totals d);
     Totals.carbs_g := Totals.carbs_g acc + totalsField Totals.carbs_g (Day.totals d);
     Totals.fat_g := Totals.fat_g acc + totalsField Totals.fat_g (Day.totals d) |}%Q.

Definition sumDays (ds : list Day.t) : Totals.t :=
  fold_left addDay ds zeroTotals.

(** [{ calories: Number(t.calories.toFixed(1)), ... }] *)
Definition roundTotals (t : Totals.t) : Totals.t :=
  {| Totals.calories := toFixed1 (Totals.calories t);
     Totals.protein_g := toFixed1 (Totals.protein_g t);
     Totals.carbs_g := toFixed1 (Totals.carbs_g t);
     Totals.fat_g := toFixed1 (Totals.fat_g t) |}.

(** The meals of [updatedMeals] when each of them is an object.  The
    reducer reads [mm.calories]: on an [undefined] element (a reply without
    [meal] put into a matching slot) it throws a [TypeError], which is
    [None] here. *)
Fixpoint definedMeals (l : list (option Meal.t)) : option (list Meal.t) :=
  match l with
  | [] => Some []
  | None :: _ => None
  | Some mm :: r =>
      match definedMeals r with
      | Some ms => Some (mm :: ms)
      | None => None
      end
  end.

(** The callback of [(result.plan.days ?? []).map(...)]. *)
Definition updateDay (activeDay : Z) (slot : option string)
           (newMeal : option Meal.t) (d : Day.t) : option Day.t :=
  if negb (Day.day d =? activeDay) then Some d
  else
    let updatedMeals :=
      map (fun mm => if strictEq (slotKey mm) slot then newMeal else Some mm)
          (nullish (Day.meals d) []) in
    match definedMeals updatedMeals with
    | None => None
    | Some ms =>
        let t := sumMeals ms in
        Some {| Day.day := Day.day d;
                Day.meals := Some ms;
                Day.totals := Some (roundTotals t) |}
    end.

(** [Array.prototype.map] with a callback that may throw. *)
Fixpoint mapThrowing {A B : Type} (f : A -> option B) (l : list A) : option (list B) :=
  match l with
  | [] => Some []
  | x :: r =>
      match f x with
      | None => None
      | Some y =>
          match mapThrowing f r with
          | Some ys => Some (y :: ys)
          | None => None
          end
      end
  end.

(** ** The shopping list *)

(** A [Map<string, number>] keeps its keys in insertion order; [set] on a
    present key overwrites the value where it stands. *)
Definition Counter := list (string * nat).

Fixpoint ctrGet (ctr : Counter) (k : string) : option nat :=
  match ctr with
  | [] => None
  | (k', v) :: r => if String.eqb k' k then Some v else ctrGet r k
  end.

Fixpoint ctrSet (ctr : Counter) (k : string) (v : nat) : Counter :=
  match ctr with
  | [] => [(k, v)]
  | (k', v') :: r =>
      if String.eqb k' k then (k', v) :: r else (k', v') :: ctrSet r k v
  end.

(** [String(ing).trim().toLowerCase()] *)
Definition token (ing : string) : string := toLowerCase (trim ing).

(** The body of the innermost loop. *)
Definition countIngredient (ctr : Counter) (ing : string) : Counter :=
  let k := token ing in
  if negb (truthy k) then ctr
  else ctrSet ctr k (nullish (ctrGet ctr k) 0 + 1)%nat.

(** The three nested [for ... of] loops. *)
Definition countPlan (newDays : list Day.t) : Counter :=
  fold_left
    (fun ctr d =>
       fold_left
         (fun ctr mm => fold_left countIngredient (nullish (Meal.ingredients mm) []) ctr)
         (nullish (Day.meals d) []) ctr)
    newDays [].

(** The comparator [(a, b) => b[1] - a[1]]. *)
Definition byCountDesc (a b : string * nat) : Z :=
  Z.of_nat (snd b) - Z.of_nat (snd a).

Definition shoppingItems (newDays : list Day.t) : list ShoppingItem.t :=
  map (fun e => ShoppingItem.mk (fst e) (snd e))
      (sort byCountDesc (countPlan newDays)).

(** ** [handleReplace] *)

(** What V8 reports for a property read on [undefined]. *)
Definition typeErrorMessage : string :=
  "Cannot read properties of undefined (reading 'calories')".

(** The [try] block after the request: the error message of the [catch]
    branch, or the next value of [result]. *)
Definition replaceOutcome {R : Type} (st : State.t) (r : Result.t) (p : Plan.t)
           (slot : option string) (out : Outcome (ReplaceBody Meal.t R))
  : string + Result.t :=
  match out with
  | Rejected m => inl (nullish m "Replace failed")
  | Responded _ _ (inl m) => inl (nullish m "Replace failed")
  | RespondedNull _ _ => inl "Replace failed"
  | Responded ok _ (inr data) =>
      if negb ok || negb (isOk (status data))
      then inl (nullish (detail data) "Replace failed")
      else
        let newMeal := meal data in
        match mapThrowing (updateDay (State.activeDay st) slot newMeal)
                          (nullish (Plan.days p) []) with
        | None => inl typeErrorMessage
        | Some newDays =>
            let overall := sumDays newDays in
            let shoppingItems := shoppingItems newDays in
            inr {| Result.status := Result.status r;
                   Result.plan :=
                     Some {| Plan.days := Some newDays;
                             Plan.overall_totals := Some (roundTotals overall);
                             Plan.shopping_list :=
                               Some {| ShoppingList.total_unique := List.length shoppingItems;
                                       ShoppingList.items := shoppingItems |} |} |}
        end
  end.

(** [handleReplace(slot, target, excludeIds)], given the outcome of its
    request. *)
Definition handleReplace {R : Type} (st : State.t) (slot : option string)
           (target : Q) (excludeIds : list Z)
           (out : Outcome (ReplaceBody Meal.t R)) : State.t :=
  match State.result st with
  | None => st
  | Some r =>
      match Result.plan r with
      | None => st
      | Some p =>
          match replaceOutcome st r p slot out with
          | inl msg =>
              {| State.form := State.form st;
                 State.result := State.result st;
                 State.activeDay := State.activeDay st;
                 State.error := Some msg |}
          | inr next =>
              {| State.form := State.form st;
                 State.result := Some next;
                 State.activeDay := State.activeDay st;
                 State.error := None |}
          end
      end
  end.

End Planner.

(* ===================================================================== *)
(** * meal-plan/page.tsx *)
(* ===================================================================== *)

Module MealPlan.
Import JS Api.

Module Ingredient.
Record t := mk { FoodID : Z; FoodDescription : string; FoodGroupName : string }.
End Ingredient.

Module MacroTotals.
Record t := mk { calories_kcal : Q; protein_g : Q; fat_g : Q; carbs_g : Q }.
End MacroTotals.

Module MealFromAPI.
Record t := mk {
  meal_number : Z;
  recipe_name : string;
  target_calories : option Q;
  ingredients : list Ingredient.t;
  totals : MacroTotals.t
}.
End MealFromAPI.

Module DayFromAPI.
Record t := mk {
  day : Z;
  meals : list MealFromAPI.t;
  day_totals : MacroTotals.t
}.
End DayFromAPI.

Module MealPlanRequest.
Record t := mk {
  calories : Q;
  meals_per_day : Z;
  days : Z;
  diet_type : DietType;
  goal : Goal;
  allergies : option (list string);
  exclude_ultra_processed : option bool;
  variety : option bool
}.
End MealPlanRequest.

Module MealPlanResponseOK.
Record t := mk {
  request : MealPlanRequest.t;
  plan : list DayFromAPI.t;
  plan_totals : MacroTotals.t
}.
End MealPlanResponseOK.

Inductive MealPlanResponse :=
| OK (r : MealPlanResponseOK.t)
| ERR (message : option string).

(** The [replacement] member of [ReplaceMealResponse]. *)
Module Replacement.
Record t := mk {
  recipe_name : string;
  ingredients : list Ingredient.t;
  totals : MacroTotals.t
}.
End Replacement.

Module State.
Record t := mk {
  data : option MealPlanResponse;
  activeDay : Z;
  busyMeal : option Z;
  err : option string
}.
End State.

(** The request body: no [day], [slot] or [exclude_recipe_ids]. *)
Module Payload.
Record t := mk {
  calories : Q;
  meals_per_day : Z;
  diet_type : DietType;
  goal : Goal;
  allergies : list string;
  exclude_ultra_processed : bool;
  target_meal_calories : Q
}.
End Payload.

(** [arr.find(pred)] *)
Definition findFirst {A : Type} (pred : A -> bool) (l : list A) : option A :=
  List.find pred l.

(** The [active] memo: the day shown, else the first day, else [null]. *)
Definition active (prev : MealPlanResponseOK.t) (activeDay : Z) : option DayFromAPI.t :=
  match findFirst (fun d => DayFromAPI.day d =? activeDay) (MealPlanResponseOK.plan prev) with
  | Some d => Some d
  | None => List.hd_error (MealPlanResponseOK.plan prev)
  end.

(** [req.calories / req.meals_per_day] over the rationals; in binary64 the
    quotient is rounded, and the quotient by zero, 0 in [Q], is not a finite
    number. *)
Definition evenShare (req : MealPlanRequest.t) : Q :=
  (MealPlanRequest.calories req / inject_Z (MealPlanRequest.meals_per_day req))%Q.

(** [day?.meals.find((m) => m.meal_number === meal_number)?.target_calories
     ?? req.calories / req.meals_per_day] *)
Definition target (day : option DayFromAPI.t) (req : MealPlanRequest.t)
           (meal_number : Z) : Q :=
  let found :=
    match day with
    | None => None
    | Some d =>
        match findFirst (fun m => MealFromAPI.meal_number m =? meal_number)
                        (DayFromAPI.meals d) with
        | None => None
        | Some m => MealFromAPI.target_calories m
        end
    end in
  nullish found (evenShare req).

Definition payload (prev : MealPlanResponseOK.t) (activeDay meal_number : Z) : Payload.t :=
  let req := MealPlanResponseOK.request prev in
  {| Payload.calories := MealPlanRequest.calories req;
     Payload.meals_per_day := MealPlanRequest.meals_per_day req;
     Payload.diet_type := MealPlanRequest.diet_type req;
     Payload.goal := MealPlanRequest.goal req;
     Payload.allergies := nullish (MealPlanRequest.allergies req) [];
     Payload.exclude_ultra_processed :=
       nullish (MealPlanRequest.exclude_ultra_processed req) false;
     Payload.target_meal_calories := target (active prev activeDay) req meal_number |}.

(** The request sent by [handleReplaceMeal(meal_number)], if any. *)
Definition replaceRequest (st : State.t) (meal_number : Z) : option Payload.t :=
  match State.data st with
  | Some (OK prev) => Some (payload prev (State.activeDay st) meal_number)
  | _ => None
  end.

Definition zeroTotals : MacroTotals.t := MacroTotals.mk 0 0 0 0.

Definition addTotals (acc t : MacroTotals.t) : MacroTotals.t :=
  {| MacroTotals.calories_kcal := MacroTotals.calories_kcal acc + MacroTotals.calories_kcal t;
     MacroTotals.protein_g := MacroTotals.protein_g acc + MacroTotals.protein_g t;
     MacroTotals.fat_g := MacroTotals.fat_g acc + MacroTotals.fat_g t;
     MacroTotals.carbs_g := MacroTotals.carbs_g acc + MacroTotals.carbs_g t |}%Q.

(** [newMeals.reduce(...)] *)
Definition sumMeals (ms : list MealFromAPI.t) : MacroTotals.t :=
  fold_left (fun acc m => addTotals acc (MealFromAPI.totals m)) ms zeroTotals.

(** [newPlan.reduce(...)] *)
Definition sumDays (ds : list DayFromAPI.t) : MacroTotals.t :=
  fold_left (fun acc d => addTotals acc (DayFromAPI.day_totals d)) ds zeroTotals.

(** The inner [d.meals.map(...)]: the hit keeps [meal_number] and
    [target_calories] and takes the three members of the replacement. *)
Definition replaceIn (meal_number : Z) (rep : Replacement.t) (m : MealFromAPI.t)
  : MealFromAPI.t :=
  if MealFromAPI.meal_number m =? meal_number
  then {| MealFromAPI.meal_number := MealFromAPI.meal_number m;
          MealFromAPI.recipe_name := Replacement.recipe_name rep;
          MealFromAPI.target_calories := MealFromAPI.target_calories m;
          MealFromAPI.ingredients := Replacement.ingredients rep;
          MealFromAPI.totals := Replacement.totals rep |}
  else m.

(** The callback of [prev.plan.map(...)]. *)
Definition updateDay (activeDay meal_number : Z) (rep : Replacement.t)
           (d : DayFromAPI.t) : DayFromAPI.t :=
  if negb (DayFromAPI.day d =? activeDay) then d
  else
    let newMeals := map (replaceIn meal_number rep) (DayFromAPI.meals d) in
    {| DayFromAPI.day := DayFromAPI.day d;
       DayFromAPI.meals := newMeals;
       DayFromAPI.day_totals := sumMeals newMeals |}.

(** The updater passed to [setData]. *)
Definition applyReplacement (prev : MealPlanResponseOK.t) (activeDay meal_number : Z)
           (rep : Replacement.t) : MealPlanResponseOK.t :=
  let newPlan := map (updateDay activeDay meal_number rep) (MealPlanResponseOK.plan prev) in
  {| MealPlanResponseOK.request := MealPlanResponseOK.request prev;
     MealPlanResponseOK.plan := newPlan;
     MealPlanResponseOK.plan_totals := sumDays newPlan |}.

(** A body that failed to parse reads as [{}]:
    [res.json().catch(() => ({}))]. *)
Definition emptyBody {M : Type} : ReplaceBody M Replacement.t :=
  {| status := None; meal := None; replacement := None;
     detail := None; message := None |}.

(** What V8 reports for the read of [key] on [null]. *)
Definition nullErrorMessage (key : string) : string :=
  "Cannot read properties of null (reading '" ++ key ++ "')".

(** The [try] block after the request: the message for [setErr], or the
    replacement to apply.  On a [null] body [(j as any)?.detail] is
    [undefined] and the reads [j.message] and [j.status] throw a
    [TypeError], whose message the [catch] block shows. *)
Definition replaceOutcome {M : Type} (out : Outcome (ReplaceBody M Replacement.t))
  : string + Replacement.t :=
  match out with
  | Rejected m => inl (nullish m "Replace failed")
  | RespondedNull ok _ =>
      inl (if negb ok then nullErrorMessage "message" else nullErrorMessage "status")
  | Responded ok http_status json =>
      let j := match json with inr b => b | inl _ => emptyBody end in
      if negb ok then
        inl (nullish (detail j)
               (nullish (message j)
                  ("Replace failed (HTTP " ++ http_status ++ ")")))
      else
        match isOk (status j), replacement j with
        | true, Some rep => inr rep
        | _, _ => inl (nullish (message j) "No replacement returned")
        end
  end.

(** [handleReplaceMeal(meal_number)], given the outcome of its request. *)
Definition handleReplaceMeal {M : Type} (st : State.t) (meal_number : Z)
           (out : Outcome (ReplaceBody M Replacement.t)) : State.t :=
  match State.data st with
  | Some (OK prev) =>
      match replaceOutcome out with
      | inl msg =>
          {| State.data := State.data st;
             State.activeDay := State.activeDay st;
             State.busyMeal := None;
             State.err := Some msg |}
      | inr rep =>
          {| State.data :=
               Some (OK (applyReplacement prev (State.activeDay st) meal_number rep));
             State.activeDay := State.activeDay st;
             State.busyMeal := None;
             State.err := None |}
      end
  | _ => st
  end.

End MealPlan.

(* ===================================================================== *)
(** * The planning engine behind the two endpoints *)
(* ===================================================================== *)

(** The engine is served by a backend that is not among the sources.  The
    properties that concern it are stated over the definitions below, each
    of them written from the specification. *)

Module Engine.
Import JS Api.

(** Modelled from the spec: the Recipe of the data model (identifier,
    display name, meal-type affinity, dietary classification,
    processing-level flag, ingredient descriptions, calories per
    serving); the corpus that holds the recipes is missing from the
    sources. *)
Module Recipe.
Record t := mk {
  id : Z;
  name : string;
  affinity : option string;
  vegetarian : bool;
  ultra_processed : bool;
  ingredients : list string;
  calories : Q
}.
End Recipe.

(** Modelled from the spec: the fields a ValidationError can name; the
    validation code is missing from the sources. *)
Inductive Field := days | meals_per_day | calories.

(** Modelled from the spec: the error taxonomy of the engine, missing from
    the sources. *)
Inductive Error :=
| ValidationError (offending : Field)
| CorpusExhausted
| ReplacementExhausted
| InternalComputationError.

Section Validation.
(** The specification bounds days and meals per day; for calories it
    names a range without giving it. *)
Variable caloriesInRange : Q -> bool.

(** Modelled from the spec: the request validation of the engine,
    missing from the sources; days are bounded 1-14, meals per day 1-6,
    and the first offending field is the one reported. *)
Definition validate (req : Planner.GeneratePayload.t) : option Field :=
  if negb ((1 <=? Planner.GeneratePayload.days req)
           && (Planner.GeneratePayload.days req <=? 14)) then Some days
  else if negb ((1 <=? Planner.GeneratePayload.meals_per_day req)
                && (Planner.GeneratePayload.meals_per_day req <=? 6))
       then Some meals_per_day
  else if negb (caloriesInRange (Planner.GeneratePayload.calories req))
       then Some calories
  else None.

(** Modelled from the spec: what out of range means for each field the
    validation names; the validation code is missing from the sources. *)
Definition outOfRange (req : Planner.GeneratePayload.t) (f : Field) : Prop :=
  match f with
  | days =>
      Planner.GeneratePayload.days req < 1 \/ 14 < Planner.GeneratePayload.days req
  | meals_per_day =>
      Planner.GeneratePayload.meals_per_day req < 1
      \/ 6 < Planner.GeneratePayload.meals_per_day req
  | calories => caloriesInRange (Planner.GeneratePayload.calories req) = false
  end.

(** Modelled from the spec: the generate-plan entry point of the engine,
    missing from the sources; a request is validated first and only a
    valid one reaches the composer, which is the one to read the
    corpus. *)
Definition generatePlan {P : Type}
           (compose : list Recipe.t -> Planner.GeneratePayload.t -> Error + P)
           (corpus : list Recipe.t) (req : Planner.GeneratePayload.t) : Error + P :=
  match validate req with
  | Some f => inl (ValidationError f)
  | None => compose corpus req
  end.
End Validation.

Section SlotTargets.
(** The specification speaks of integer rounding and leaves the mode
    open. *)
Variable rounding : Q -> Z.


End SlotTargets.

(** Modelled from the spec: the substring test of the allergy rule,
    [needle] occurs in [hay]; the filter is missing from the sources. *)
Fixpoint contains (needle hay : string) : bool :=
  String.prefix needle hay
  || match hay with
     | EmptyString => false
     | String _ rest => contains needle rest
     end.

(** Modelled from the spec: an allergy string, trimmed and compared
    without case, matches an ingredient description as a substring; the
    filter is missing from the sources. *)
Definition allergyHit (allergy description : string) : bool :=
  contains (toLowerCase (trim allergy)) (toLowerCase description).

(** Modelled from the spec: the Constraint Filter of the replacement
    request, missing from the sources; four rules in order, the first
    rejection wins. *)
Definition accept (req : Planner.ReplacePayload.t) (r : Recipe.t) : bool :=
  if (match Planner.ReplacePayload.diet_type req with
      | vegetarian => negb (Recipe.vegetarian r)
      | non_vegetarian => false
      end) then false
  else if Planner.ReplacePayload.exclude_ultra_processed req && Recipe.ultra_processed r
       then false
  else if existsb (fun a => existsb (allergyHit a) (Recipe.ingredients r))
                  (Planner.ReplacePayload.allergies req) then false
  else if existsb (Z.eqb (Recipe.id r)) (Planner.ReplacePayload.exclude_recipe_ids req)
       then false
  else true.

Section Selection.
(** The fitness of a recipe for a request, lower is better; its weights
    are not given by the specification. *)
Variable score : Planner.ReplacePayload.t -> Recipe.t -> Q.

(** Modelled from the spec: [a] is strictly preferred to [b], by a lower
    score, or by the same score and the smaller identifier; the scorer is
    missing from the sources. *)
Definition preferred (req : Planner.ReplacePayload.t) (a b : Recipe.t) : bool :=
  match (score req a ?= score req b)%Q with
  | Lt => true
  | Eq => Recipe.id a <? Recipe.id b
  | Gt => false
  end.

(** Modelled from the spec: the selection of the minimum-score
    candidate, ties broken by ascending identifier; the composer is
    missing from the sources. *)
Fixpoint best (req : Planner.ReplacePayload.t) (l : list Recipe.t) : option Recipe.t :=
  match l with
  | [] => None
  | r :: rest =>
      match best req rest with
      | None => Some r
      | Some b => if preferred req b r then Some b else Some r
      end
  end.

(** Modelled from the spec: the Replacement Engine, missing from the
    sources; filter with the exclusion identifiers of the request, score,
    select, and fail with ReplacementExhausted when nothing is left. *)
Definition replace (corpus : list Recipe.t) (req : Planner.ReplacePayload.t)
  : Error + Recipe.t :=
  match best req (filter (accept req) corpus) with
  | None => inl ReplacementExhausted
  | Some r => inr r
  end.
End Selection.

End Engine.

(* ===================================================================== *)
(** * Requests on the wire *)
(* ===================================================================== *)

Module Wire.

(** A replace-meal request body, by the page that built it. *)
Inductive ReplaceRequest :=
| FromPlanner (p : Planner.ReplacePayload.t)
| FromMealPlan (p : MealPlan.Payload.t).

(** The value under the key [exclude_recipe_ids] of the JSON body, [None]
    when the body has no such key. *)
Definition exclude_recipe_ids (r : ReplaceRequest) : option (list Z) :=
  match r with
  | FromPlanner p => Some (Planner.ReplacePayload.exclude_recipe_ids p)
  | FromMealPlan _ => None
  end.

End Wire.

(* ===================================================================== *)
(** * Vocabulary of the properties *)
(* ===================================================================== *)

Module Props.
Import JS.

(** The string begins, respectively ends, with a white-space character. *)
Definition startsWhite (s : string) : bool :=
  match s with
  | EmptyString => false
  | String c _ => isWhite c
  end.

Fixpoint endsWhite (s : string) : bool :=
  match s with
  | EmptyString => false
  | String c EmptyString => isWhite c
  | String _ rest => endsWhite rest
  end.

(** [parts.join(",")] *)
Fixpoint joinComma (parts : list string) : string :=
  match parts with
  | [] => EmptyString
  | [x] => x
  | x :: rest => x ++ String "," (joinComma rest)
  end.

(** A clean token: not empty, no white space at either end. *)
Definition cleanToken (s : string) : Prop :=
  s <> EmptyString /\ startsWhite s = false /\ endsWhite s = false.


(** Every ingredient string of every meal of every day, in plan order. *)
Definition planIngredients (ds : list Planner.Day.t) : list string :=
  flat_map
    (fun d => flat_map (fun mm => nullish (Planner.Meal.ingredients mm) [])
                       (nullish (Planner.Day.meals d) []))
    ds.

(** The non-empty trimmed lower-cased tokens of a plan, in plan order. *)
Definition planTokens (ds : list Planner.Day.t) : list string :=
  filter truthy (map Planner.token (planIngredients ds)).

(** The distinct elements of a list in the order of their first
    occurrence. *)
Definition distinct (ks : list string) : list string :=
  fold_left (fun acc k => if existsb (String.eqb k) acc then acc else (acc ++ [k])%list)
            ks [].

(** How often [k] occurs in [ks]. *)
Definition occurrences (ks : list string) (k : string) : nat :=
  count_occ string_dec ks k.

(** One more occurrence of the token [k]. *)
Definition bump (ctr : Planner.Counter) (k : string) : Planner.Counter :=
  Planner.ctrSet ctr k (nullish (Planner.ctrGet ctr k) 0 + 1)%nat.

(** The items with a given count, by name. *)
Definition itemsWithCount (c : nat) (items : list Planner.ShoppingItem.t) : list string :=
  map Planner.ShoppingItem.ingredient
      (filter (fun it => Nat.eqb (Planner.ShoppingItem.count it) c) items).

(** Descending count, and ascending name among equal counts. *)
Definition countThenName (a b : Planner.ShoppingItem.t) : Prop :=
  (Planner.ShoppingItem.count b < Planner.ShoppingItem.count a)%nat
  \/ (Planner.ShoppingItem.count a = Planner.ShoppingItem.count b
      /\ String.leb (Planner.ShoppingItem.ingredient a)
                    (Planner.ShoppingItem.ingredient b) = true).

(** *** Plans held by the planner page *)

Definition planOfState (st : Planner.State.t) : option Planner.Plan.t :=
  match Planner.State.result st with
  | Some r => Planner.Result.plan r
  | None => None
  end.

Definition daysOf (p : Planner.Plan.t) : list Planner.Day.t :=
  nullish (Planner.Plan.days p) [].

Definition mealsOf (d : Planner.Day.t) : list Planner.Meal.t :=
  nullish (Planner.Day.meals d) [].

(** The totals of a day were obtained by summing its meal list. *)
Definition dayRecomputed (d : Planner.Day.t) : Prop :=
  Planner.Day.totals d = Some (Planner.roundTotals (Planner.sumMeals (mealsOf d))).

(** The value under [meal] of a reply, if it has a body. *)
Definition replyMeal {M R : Type} (out : Api.Outcome (Api.ReplaceBody M R)) : option M :=
  match out with
  | Api.Responded _ _ (inr data) => Api.meal data
  | _ => None
  end.

(** The replace call failed: no response, no body, an HTTP error status, or
    a status other than ["ok"]. *)
Definition replyFails {M R : Type} (out : Api.Outcome (Api.ReplaceBody M R)) : bool :=
  match out with
  | Api.Responded true _ (inr data) => negb (Api.isOk (Api.status data))
  | _ => true
  end.

(** How one meal and one day relate to their successors when [slot] of day
    [activeDay] is replaced by [newMeal]. *)
Definition mealFrame (slot : option string) (newMeal : option Planner.Meal.t)
           (m m' : Planner.Meal.t) : Prop :=
  if Api.strictEq (Planner.slotKey m) slot then newMeal = Some m' else m' = m.

Definition dayFrame (activeDay : Z) (slot : option string)
           (newMeal : option Planner.Meal.t) (d d' : Planner.Day.t) : Prop :=
  if Planner.Day.day d =? activeDay
  then Planner.Day.day d' = Planner.Day.day d
       /\ Forall2 (mealFrame slot newMeal) (mealsOf d) (mealsOf d')
  else d' = d.

(** Meal [j] of day [i], by position. *)
Definition mealAt (ds : list Planner.Day.t) (i j : nat) : option Planner.Meal.t :=
  match nth_error ds i with
  | Some d => nth_error (mealsOf d) j
  | None => None
  end.

(** A pair (day number, slot key) names at most one meal of the plan. *)
Definition uniqueTargets (ds : list Planner.Day.t) : Prop :=
  NoDup (map Planner.Day.day ds)
  /\ forall d, In d ds -> NoDup (map Planner.slotKey (mealsOf d)).

(** *** Plans held by the meal-plan page *)

Definition planOfData (st : MealPlan.State.t) : option MealPlan.MealPlanResponseOK.t :=
  match MealPlan.State.data st with
  | Some (MealPlan.OK r) => Some r
  | _ => None
  end.

(** How a day of the meal-plan page relates to its successor when meal
    [meal_number] of day [activeDay] takes the replacement [rep]. *)
Definition dayFromAPIFrame (activeDay meal_number : Z) (rep : MealPlan.Replacement.t)
           (d d' : MealPlan.DayFromAPI.t) : Prop :=
  if MealPlan.DayFromAPI.day d =? activeDay
  then MealPlan.DayFromAPI.day d' = MealPlan.DayFromAPI.day d
       /\ Forall2
            (fun m m' =>
               if MealPlan.MealFromAPI.meal_number m =? meal_number
               then MealPlan.MealFromAPI.meal_number m' = MealPlan.MealFromAPI.meal_number m
                    /\ MealPlan.MealFromAPI.target_calories m'
                       = MealPlan.MealFromAPI.target_calories m
                    /\ MealPlan.MealFromAPI.recipe_name m' = MealPlan.Replacement.recipe_name rep
                    /\ MealPlan.MealFromAPI.ingredients m' = MealPlan.Replacement.ingredients rep
                    /\ MealPlan.MealFromAPI.totals m' = MealPlan.Replacement.totals rep
               else m' = m)
            (MealPlan.DayFromAPI.meals d) (MealPlan.DayFromAPI.meals d')
  else d' = d.

End Props.

(* ===================================================================== *)
(** * Concrete plans, states and replies *)
(* ===================================================================== *)

Module Samples.
Import Api.

(** A form asking for 9 meals on each of 30 days. *)
Definition wideForm : Planner.Form.t :=
  Planner.Form.mk 1800 9 30 non_vegetarian maintain "" true true.

Definition defaultForm : Planner.Form.t :=
  Planner.Form.mk 1800 3 3 non_vegetarian maintain " nuts , Dairy,," true true.

(** Calories from 1 up are taken as in range where a range is needed. *)
Definition positiveCalories (q : Q) : bool := Qle_bool 1 q.

Definition mkMeal (slot : string) (recipe_id : Z) (name : string)
           (calories protein carbs fat : Q) (ingredients : list string)
  : Planner.Meal.t :=
  Planner.Meal.mk (Some slot) (Some slot) recipe_id name
                  (Some calories) (Some protein) (Some carbs) (Some fat)
                  (Some ingredients) 600 None.

Definition oatmeal : Planner.Meal.t :=
  mkMeal "breakfast" 7 "Oatmeal" 400 (25 # 2) 60 8 ["Oats"; " milk "; "Banana"].

Definition curry : Planner.Meal.t :=
  mkMeal "lunch" 12 "Chickpea curry" 650 30 80 (41 # 2) ["chickpeas"; "Rice"; "MILK"].

Definition omelette : Planner.Meal.t :=
  mkMeal "breakfast" 8 "Omelette" 380 24 4 28 ["eggs"; "Milk"; ""].

Definition dayOf (n : Z) (ms : list Planner.Meal.t) : Planner.Day.t :=
  Planner.Day.mk n (Some ms) (Some (Planner.roundTotals (Planner.sumMeals ms))).

Definition planOf (ds : list Planner.Day.t) : Planner.Plan.t :=
  Planner.Plan.mk (Some ds) (Some (Planner.roundTotals (Planner.sumDays ds))) None.

Definition stateOf (ds : list Planner.Day.t) : Planner.State.t :=
  Planner.State.mk defaultForm (Some (Planner.Result.mk "ok" (Some (planOf ds)))) 1 None.

(** Two days of two meals; day 1 is shown. *)
Definition twoDays : Planner.State.t :=
  stateOf [dayOf 1 [oatmeal; curry]; dayOf 2 [curry; oatmeal]].

(** Replies of [/replace-meal]. *)
Definition okReply {R : Type} (m : Planner.Meal.t)
  : Outcome (ReplaceBody Planner.Meal.t R) :=
  Responded true "200"
    (inr {| status := Some "ok"; meal := Some m; replacement := None;
            detail := None; message := None |}).

Definition errorReply {R : Type} (msg : string)
  : Outcome (ReplaceBody Planner.Meal.t R) :=
  Responded false "404"
    (inr {| status := Some "error"; meal := None; replacement := None;
            detail := Some msg; message := None |}).

(** A corpus of two recipes for the engine. *)
Definition corpus : list Engine.Recipe.t :=
  [ Engine.Recipe.mk 7 "Oatmeal" (Some "breakfast") true false ["oats"; "milk"] 400;
    Engine.Recipe.mk 8 "Omelette" (Some "breakfast") true false ["eggs"; "milk"] 380 ].

(** A score that looks at the calorie distance from the target only. *)
Definition calorieScore (req : Planner.ReplacePayload.t) (r : Engine.Recipe.t) : Q :=
  Qabs (Engine.Recipe.calories r - Planner.ReplacePayload.target_meal_calories req).

(** The meal-plan page holding a plan of one day with one meal. *)
Definition porridge : MealPlan.MealFromAPI.t :=
  MealPlan.MealFromAPI.mk 1 "Porridge" (Some 600%Q)
    [MealPlan.Ingredient.mk 101 "Oats, rolled" "Cereals"]
    (MealPlan.MacroTotals.mk 400 12 8 60).

Definition mealPlanRequest : MealPlan.MealPlanRequest.t :=
  MealPlan.MealPlanRequest.mk 1800 3 1 vegetarian maintain (Some []) (Some true) None.

Definition mealPlanState : MealPlan.State.t :=
  MealPlan.State.mk
    (Some (MealPlan.OK
             (MealPlan.MealPlanResponseOK.mk mealPlanRequest
                [MealPlan.DayFromAPI.mk 1 [porridge] (MealPlan.MacroTotals.mk 400 12 8 60)]
                (MealPlan.MacroTotals.mk 400 12 8 60))))
    1 None None.



Definition almonds : Planner.Meal.t :=
  mkMeal "snack" 23 "Almonds" 170 6 6 15 ["almonds"].


(** A reply of [/replace-meal] to the meal-plan page in the shape the
    planner page expects. *)
Definition mealReply : Outcome (ReplaceBody Planner.Meal.t MealPlan.Replacement.t) :=
  okReply omelette.

(** A reply in the shape the meal-plan page expects. *)
Definition replacementReply : Outcome (ReplaceBody Planner.Meal.t MealPlan.Replacement.t) :=
  Responded true "200"
    (inr {| status := Some "ok"; meal := None;
            replacement :=
              Some (MealPlan.Replacement.mk "Omelette"
                      [MealPlan.Ingredient.mk 202 "Egg, whole" "Eggs"]
                      (MealPlan.MacroTotals.mk 380 24 28 4));
            detail := None; message := None |}).

End Samples.

(* ===================================================================== *)
(** * planner/page.tsx: the rest of the page *)
(* ===================================================================== *)

Module PlannerView.
Import JS Api.

(** ** The progress animation *)

(** [p < 60 ? 6 : p < 85 ? 3 : 1] *)
Definition step (p : Z) : Z :=
  if p <? 60 then 6 else if p <? 85 then 3 else 1.

(** One run of the [setInterval] callback: [p = Math.min(92, p + step)]. *)
Definition tick (p : Z) : Z := Z.min 92 (p + step p).

(** The value shown after [n] runs of the callback; the effect starts from
    [let p = 0] each time [loading] turns true. *)
Fixpoint progressAfter (n : nat) : Z :=
  match n with
  | O => 0
  | S k => tick (progressAfter k)
  end.

(** ** [handleGenerate] *)

(** The JSON body of a reply of [/generate-plan], with the keys the page
    reads. *)
Module GenerateBody.
Record t := mk {
  status : option string;
  plan : option Planner.Plan.t;
  detail : option string;
  message : option string
}.
End GenerateBody.

(** What the [try] block meets: an exception with [e.name] and [e.message]
    (a rejected [fetch], the abort after [REQUEST_TIMEOUT_MS], a body that
    does not parse), or a response with [res.ok] and its body. *)
Inductive GenerateOutcome :=
| Threw (e_name e_message : option string)
| Replied (ok : bool) (data : GenerateBody.t).

(** The states [handleGenerate] touches on top of those of
    [Planner.State]. *)
Module Page.
Record t := mk {
  state : Planner.State.t;
  loading : bool;
  progress : Z
}.
End Page.

Definition timeoutMessage : string :=
  "Request timed out. Try again (or your backend is slow / stuck).".

(** The [try] and [catch] blocks: the message for [setError], or the value
    for [setResult]. *)
Definition generateOutcome (out : GenerateOutcome) : string + Planner.Result.t :=
  match out with
  | Threw e_name e_message =>
      inl (if strictEq e_name (Some "AbortError") then timeoutMessage
           else nullish e_message "Unknown error")
  | Replied ok data =>
      if negb ok then
        inl (nullish (GenerateBody.detail data)
               (nullish (GenerateBody.message data) "Backend error"))
      else if negb (isOk (GenerateBody.status data)) then
        inl (nullish (GenerateBody.message data) "Unable to generate plan")
      else
        inr {| Planner.Result.status := "ok";
               Planner.Result.plan := GenerateBody.plan data |}
  end.

(** [handleGenerate], from the click to the end of its [finally] block,
    given the outcome of its request.  [progress] is the value at that
    moment; after a success a timer resets it to 0 400 ms later. *)
Definition handleGenerate (pg : Page.t) (out : GenerateOutcome) : Page.t :=
  if Page.loading pg then pg
  else
    let st := Page.state pg in
    match generateOutcome out with
    | inr data =>
        {| Page.state :=
             {| Planner.State.form := Planner.State.form st;
                Planner.State.result := Some data;
                Planner.State.activeDay := 1;
                Planner.State.error := None |};
           Page.loading := false;
           Page.progress := 100 |}
    | inl msg =>
        {| Page.state :=
             {| Planner.State.form := Planner.State.form st;
                Planner.State.result := None;
                Planner.State.activeDay := Planner.State.activeDay st;
                Planner.State.error := Some msg |};
           Page.loading := false;
           Page.progress := 0 |}
    end.

(** ** What is shown *)

(** [result?.plan?.days ?? []] *)
Definition days (st : Planner.State.t) : list Planner.Day.t :=
  match Planner.State.result st with
  | None => []
  | Some r =>
      match Planner.Result.plan r with
      | None => []
      | Some p => nullish (Planner.Plan.days p) []
      end
  end.

(** The [activeDayObj] memo:
    [days.find((d) => d.day === activeDay) ?? days[0]]. *)
Definition activeDayObj (st : Planner.State.t) : option Planner.Day.t :=
  match List.find (fun d => Planner.Day.day d =? Planner.State.activeDay st) (days st) with
  | Some d => Some d
  | None => List.hd_error (days st)
  end.

(** A day button: [setActiveDay(d.day)]. *)
Definition selectDay (st : Planner.State.t) (d : Planner.Day.t) : Planner.State.t :=
  {| Planner.State.form := Planner.State.form st;
     Planner.State.result := Planner.State.result st;
     Planner.State.activeDay := Planner.Day.day d;
     Planner.State.error := Planner.State.error st |}.

(** The Replace button of the card of [meal]:
    [onReplace(meal.slot ?? meal.meal_type, Number(meal.target_calories),
    [Number(meal.recipe_id)])]. *)
Definition clickReplace {R : Type} (st : Planner.State.t) (meal : Planner.Meal.t)
           (out : Outcome (ReplaceBody Planner.Meal.t R)) : Planner.State.t :=
  Planner.handleReplace st (Planner.slotKey meal) (Planner.Meal.target_calories meal)
                        [Planner.Meal.recipe_id meal] out.


End PlannerView.

(* ===================================================================== *)
(** * meal-plan/page.tsx: the rest of the page *)
(* ===================================================================== *)

Module MealPlanView.
Import JS Api.

(** The state before the mount effect has run. *)
Definition initial : MealPlan.State.t :=
  MealPlan.State.mk None 1 None None.

(** The mount effect.  [raw] is what [sessionStorage.getItem] and
    [JSON.parse] give: [None] for no entry, [Some None] for an entry that
    does not parse (the [catch] ignores it), [Some (Some parsed)]
    otherwise. *)
Definition load (st : MealPlan.State.t) (raw : option (option MealPlan.MealPlanResponse))
  : MealPlan.State.t :=
  match raw with
  | None => st
  | Some None => st
  | Some (Some parsed) =>
      {| MealPlan.State.data := Some parsed;
         MealPlan.State.activeDay :=
           match parsed with
           | MealPlan.OK r =>
               match MealPlan.MealPlanResponseOK.plan r with
               | d :: _ => MealPlan.DayFromAPI.day d
               | [] => MealPlan.State.activeDay st
               end
           | MealPlan.ERR _ => MealPlan.State.activeDay st
           end;
         MealPlan.State.busyMeal := MealPlan.State.busyMeal st;
         MealPlan.State.err := MealPlan.State.err st |}
  end.

(** A day button: [setActiveDay(d.day)]. *)
Definition selectDay (st : MealPlan.State.t) (d : MealPlan.DayFromAPI.t) : MealPlan.State.t :=
  {| MealPlan.State.data := MealPlan.State.data st;
     MealPlan.State.activeDay := MealPlan.DayFromAPI.day d;
     MealPlan.State.busyMeal := MealPlan.State.busyMeal st;
     MealPlan.State.err := MealPlan.State.err st |}.

(** The day shown: the [active] memo on the state. *)
Definition shown (st : MealPlan.State.t) : option MealPlan.DayFromAPI.t :=
  match MealPlan.State.data st with
  | Some (MealPlan.OK r) => MealPlan.active r (MealPlan.State.activeDay st)
  | _ => None
  end.

(** [parts.join(", ")] *)
Fixpoint joinCommaSpace (parts : list string) : string :=
  match parts with
  | [] => EmptyString
  | [x] => x
  | x :: rest => x ++ String "," (String " " (joinCommaSpace rest))
  end.

(** The text of the allergies chip after the label:
    [allergies.length ? allergies.join(", ") : "None"].  On a stored
    request without the key the page throws at [.length]; such a request
    reads as one with no allergies here. *)
Definition allergiesChip (req : MealPlan.MealPlanRequest.t) : string :=
  match nullish (MealPlan.MealPlanRequest.allergies req) [] with
  | [] => "None"
  | l => joinCommaSpace l
  end.

Definition styles : list string :=
  [ "from-rose-500 to-orange-400";
    "from-orange-500 to-amber-400";
    "from-fuchsia-500 to-rose-400";
    "from-emerald-500 to-cyan-400";
    "from-indigo-500 to-sky-400";
    "from-teal-500 to-lime-400" ].

(** [styles[idx % styles.length]] in [MealThumb] and [MealThumbBig]: the
    remainder takes the sign of [idx], and a negative index reads
    [undefined]. *)
Definition thumbStyle (idx : Z) : option string :=
  let r := Z.rem idx (Z.of_nat (List.length styles)) in
  if r <? 0 then None else nth_error styles (Z.to_nat r).

End MealPlanView.

(* ===================================================================== *)
(** * Vocabulary of the further properties *)
(* ===================================================================== *)

Module Props2.
Import JS.

(** The string holds no comma. *)
Fixpoint noComma (s : string) : bool :=
  match s with
  | EmptyString => true
  | String c rest => negb (Ascii.eqb c ",") && noComma rest
  end.

(** The sum of a list of counts. *)
Definition total (l : list nat) : nat := fold_right Nat.add 0%nat l.

(** The day numbers of a plan and the number of meals of each day. *)
Definition dayNumbers (ds : list Planner.Day.t) : list Z :=
  map Planner.Day.day ds.

Definition mealCounts (ds : list Planner.Day.t) : list nat :=
  map (fun d => List.length (Props.mealsOf d)) ds.

(** What, of the meals of a plan of the meal-plan page, a replacement
    keeps: per day its number and, per meal, number and target. *)
Definition skeleton (ds : list MealPlan.DayFromAPI.t)
  : list (Z * list (Z * option Q)) :=
  map (fun d =>
         (MealPlan.DayFromAPI.day d,
          map (fun m => (MealPlan.MealFromAPI.meal_number m,
                         MealPlan.MealFromAPI.target_calories m))
              (MealPlan.DayFromAPI.meals d)))
      ds.

(** The states the meal-plan page can be in: what the mount effect makes of
    the stored value, then any clicks on the buttons of days of the plan held
    and any handled replace calls. *)
Inductive Reachable : MealPlan.State.t -> Prop :=
| reach_load (raw : option (option MealPlan.MealPlanResponse)) :
    Reachable (MealPlanView.load MealPlanView.initial raw)
| reach_select (st : MealPlan.State.t) (r : MealPlan.MealPlanResponseOK.t)
               (d : MealPlan.DayFromAPI.t) :
    Reachable st ->
    Props.planOfData st = Some r ->
    In d (MealPlan.MealPlanResponseOK.plan r) ->
    Reachable (MealPlanView.selectDay st d)
| reach_replace (M : Type) (st : MealPlan.State.t) (meal_number : Z)
                (out : Api.Outcome (Api.ReplaceBody M MealPlan.Replacement.t)) :
    Reachable st ->
    Reachable (MealPlan.handleReplaceMeal st meal_number out).

End Props2.

(* ===================================================================== *)
(** * Further concrete states *)
(* ===================================================================== *)

Module Samples2.
Import Api.

(** The plan of [Samples.twoDays] with day 5 selected, a number no day of
    the plan has. *)
Definition daySelectedAway : Planner.State.t :=
  Planner.State.mk Samples.defaultForm
    (Planner.State.result Samples.twoDays) 5 None.

(** A good reply without the key [meal]. *)
Definition emptyOkReply : Outcome (ReplaceBody Planner.Meal.t MealPlan.Replacement.t) :=
  Responded true "200"
    (inr {| status := Some "ok"; meal := None; replacement := None;
            detail := None; message := None |}).

(** A stored plan of two days for the meal-plan page. *)
Definition storedPlan : MealPlan.MealPlanResponse :=
  MealPlan.OK
    (MealPlan.MealPlanResponseOK.mk Samples.mealPlanRequest
       [MealPlan.DayFromAPI.mk 3 [Samples.porridge] (MealPlan.MacroTotals.mk 400 12 8 60);
        MealPlan.DayFromAPI.mk 4 [Samples.porridge] (MealPlan.MacroTotals.mk 400 12 8 60)]
       (MealPlan.MacroTotals.mk 800 24 16 120)).

End Samples2.

(* ===================================================================== *)
(** * Numbers as the browser has them *)
(* ===================================================================== *)

(** The pages compute with IEEE 754 binary64 numbers.  For the questions
    of which meal goes where and of what a handler keeps, the modules above
    read a number as the rational it stands for.  Where the digits that are
    shown are at stake, in the calculator and in the totals after a
    replacement, the modules below carry out the same steps in binary64. *)

Set Warnings "-inexact-float".

Module Double.

(** The real number a finite double stands for; [None] for [NaN] and the
    infinities. *)
Definition exact (x : float) : option Q :=
  match Prim2SF x with
  | S754_zero _ => Some 0%Q
  | S754_finite s m e =>
      let v := (inject_Z (Zpos m) * Qpower 2 e)%Q in
      Some (if s then (- v)%Q else v)
  | S754_infinity _ => None
  | S754_nan => None
  end.

(** The double of an integer from 0 to 2^63 - 1; the conversion is exact
    below 2^53. *)
Definition ofZ (n : Z) : float := PrimFloat.of_uint63 (Uint63.of_Z n).

(** [Math.round(x)] of a finite [x], as the integer the page prints: the
    integer nearest to [x], ties towards +infinity.  [None] stands for
    [NaN] and the infinities, which [Math.round] gives back. *)
Definition mathRound (x : float) : option Z :=
  match exact x with
  | Some q => Some (Qfloor (q + (1 # 2))%Q)
  | None => None
  end.

(** [Number(v || 0)]: [undefined], [null], [NaN], [0] and [-0] are
    falsy. *)
Definition orZero (v : option float) : float :=
  match v with
  | None => 0%float
  | Some x =>
      match Prim2SF x with
      | S754_nan => 0%float
      | S754_zero _ => 0%float
      | _ => x
      end
  end.

(** [Number(x.toFixed(1))].  For a finite [x], [toFixed(1)] takes the
    integer [n] for which [n / 10] is nearest to [|x|], the larger one on a
    tie, and prints it with one digit after the point, behind a minus sign
    when [x < 0]; [Number] reads the print back as the nearest double, which
    is the correctly rounded quotient of [n] by 10, [n] being exact below
    2^53.  From 2^49 on doubles lie 0.125 or more apart, so that the double
    nearest to a decimal within 0.05 of [x] is [x] itself; so it is from
    10^21 on, where [toFixed] prints as [toString] does, and for [NaN] and
    the infinities. *)
Definition toFixed1 (x : float) : float :=
  match exact x with
  | None => x
  | Some q =>
      if Qle_bool (inject_Z (2 ^ 49)) (Qabs q) then x
      else
        let n := Qfloor (Qabs q * 10 + (1 # 2))%Q in
        let r := (ofZ n / 10)%float in
        if Qle_bool 0 q then r else (- r)%float
  end.

End Double.

(* ===================================================================== *)
(** * calorie-calculator/page.tsx in binary64 *)
(* ===================================================================== *)

Module Calculator64.
Import Calculator.

Definition activityMultiplier (a : Activity) : float :=
  match a with
  | sedentary => 1.2%float
  | light => 1.375%float
  | moderate => 1.55%float
  | very => 1.725%float
  | extra => 1.9%float
  end.

Definition bmr (sex : Sex) (w h age : float) : float :=
  let base := (10 * w + 6.25 * h - 5 * age)%float in
  match sex with
  | male => (base + 5)%float
  | female => (base - 161)%float
  end.

(** The three numbers of the results card. *)
Record Result := {
  r_bmr : option Z;
  r_tdee : option Z;
  r_recommended : option Z
}.

(** The [useMemo] body of [CalorieCalculator].  The inputs hold
    [+e.target.value], the double nearest to the decimal typed; no control
    of the page calls [setSex], so that [sex] stays ["female"]. *)
Definition result (sex : Sex) (age height weight : float)
           (activity : Activity) (goal : Goal) : Result :=
  let base := bmr sex weight height age in
  let tdee := (base * activityMultiplier activity)%float in
  let calories := tdee in
  let calories := match goal with deficit => (tdee * 0.85)%float | _ => calories end in
  let calories := match goal with surplus => (tdee * 1.1)%float | _ => calories end in
  {| r_bmr := Double.mathRound base;
     r_tdee := Double.mathRound tdee;
     r_recommended := Double.mathRound calories |}.

End Calculator64.

(* ===================================================================== *)
(** * planner/page.tsx: the totals after a replacement, in binary64 *)
(* ===================================================================== *)

(** The steps of [handleReplace] between [const newMeal = data.meal] and
    the [overall_totals] of [next], with the numbers of the plan as the
    doubles they are. *)
Module Planner64.
Import JS Api.

Module Explain.
Record t := mk {
  calorie_delta : float;
  protein_g : float;
  sugar_g : float;
  sodium_mg : float;
  sat_fat_g : float;
  variety_penalty : float
}.
End Explain.

Module Meal.
Record t := mk {
  slot : option string;
  meal_type : option string;
  recipe_id : Z;
  name : string;
  calories : option float;
  protein_g : option float;
  carbs_g : option float;
  fat_g : option float;
  ingredients : option (list string);
  target_calories : float;
  explain : option Explain.t
}.
End Meal.

Module Totals.
Record t := mk { calories : float; protein_g : float; carbs_g : float; fat_g : float }.
End Totals.

Module Day.
Record t := mk {
  day : Z;
  meals : option (list Meal.t);
  totals : option Totals.t
}.
End Day.

(** [mm.slot ?? mm.meal_type] *)
Definition slotKey (mm : Meal.t) : option string :=
  match Meal.slot mm with
  | Some s => Some s
  | None => Meal.meal_type mm
  end.

Definition zeroTotals : Totals.t := Totals.mk 0 0 0 0.

(** The reducer over the meals of a day:
    [acc.calories += Number(mm.calories || 0)] and so on. *)
Definition addMeal (acc : Totals.t) (mm : Meal.t) : Totals.t :=
  {| Totals.calories := Totals.calories acc + Double.orZero (Meal.calories mm);
     Totals.protein_g := Totals.protein_g acc + Double.orZero (Meal.protein_g mm);
     Totals.carbs_g := Totals.carbs_g acc + Double.orZero (Meal.carbs_g mm);
     Totals.fat_g := Totals.fat_g acc + Double.orZero (Meal.fat_g mm) |}%float.

Definition sumMeals (ms : list Meal.t) : Totals.t :=
  fold_left addMeal ms zeroTotals.

(** [Number(d.totals?.f || 0)] *)
Definition totalsField (f : Totals.t -> float) (t : option Totals.t) : float :=
  Double.orZero (option_map f t).

(** The reducer over the days. *)
Definition addDay (acc : Totals.t) (d : Day.t) : Totals.t :=
  {| Totals.calories := Totals.calories acc + totalsField Totals.calories (Day.totals d);
     Totals.protein_g := Totals.protein_g acc + totalsField Totals.protein_g (Day.totals d);
     Totals.carbs_g := Totals.carbs_g acc + totalsField Totals.carbs_g (Day.totals d);
     Totals.fat_g := Totals.fat_g acc + totalsField Totals.fat_g (Day.totals d) |}%float.

Definition sumDays (ds : list Day.t) : Totals.t :=
  fold_left addDay ds zeroTotals.

(** [{ calories: Number(t.calories.toFixed(1)), ... }] *)
Definition roundTotals (t : Totals.t) : Totals.t :=
  {| Totals.calories := Double.toFixed1 (Totals.calories t);
     Totals.protein_g := Double.toFixed1 (Totals.protein_g t);
     Totals.carbs_g := Double.toFixed1 (Totals.carbs_g t);
     Totals.fat_g := Double.toFixed1 (Totals.fat_g t) |}.

(** The meals of [updatedMeals] when each of them is an object; the
    reducer throws on an [undefined] element, which is [None] here. *)
Fixpoint definedMeals (l : list (option Meal.t)) : option (list Meal.t) :=
  match l with
  | [] => Some []
  | None :: _ => None
  | Some mm :: r =>
      match definedMeals r with
      | Some ms => Some (mm :: ms)
      | None => None
      end
  end.

(** The callback of [(result.plan.days ?? []).map(...)]. *)
Definition updateDay (activeDay : Z) (slot : option string)
           (newMeal : option Meal.t) (d : Day.t) : option Day.t :=
  if negb (Day.day d =? activeDay) then Some d
  else
    let updatedMeals :=
      map (fun mm => if strictEq (slotKey mm) slot then newMeal else Some mm)
          (nullish (Day.meals d) []) in
    match definedMeals updatedMeals with
    | None => None
    | Some ms =>
        let t := sumMeals ms in
        Some {| Day.day := Day.day d;
                Day.meals := Some ms;
                Day.totals := Some (roundTotals t) |}
    end.

(** [newDays]; [None] when the callback throws. *)
Definition newDays (activeDay : Z) (slot : option string) (newMeal : option Meal.t)
           (days : option (list Day.t)) : option (list Day.t) :=
  Planner.mapThrowing (updateDay activeDay slot newMeal) (nullish days []).

(** The [overall_totals] of [next]. *)
Definition overallTotals (newDays : list Day.t) : Totals.t :=
  roundTotals (sumDays newDays).

End Planner64.

(* ===================================================================== *)
(** * meal-plan/page.tsx: the totals after a replacement, in binary64 *)
(* ===================================================================== *)

(** The updater that [handleReplaceMeal] passes to [setData], with the
    numbers of the plan as the doubles they are. *)
Module MealPlan64.

Module MacroTotals.
Record t := mk { calories_kcal : float; protein_g : float; fat_g : float; carbs_g : float }.
End MacroTotals.

Module MealFromAPI.
Record t := mk {
  meal_number : Z;
  recipe_name : string;
  target_calories : option float;
  ingredients : list MealPlan.Ingredient.t;
  totals : MacroTotals.t
}.
End MealFromAPI.

Module DayFromAPI.
Record t := mk {
  day : Z;
  meals : list MealFromAPI.t;
  day_totals : MacroTotals.t
}.
End DayFromAPI.

Module Replacement.
Record t := mk {
  recipe_name : string;
  ingredients : list MealPlan.Ingredient.t;
  totals : MacroTotals.t
}.
End Replacement.

Definition zeroTotals : MacroTotals.t := MacroTotals.mk 0 0 0 0.

Definition addTotals (acc t : MacroTotals.t) : MacroTotals.t :=
  {| MacroTotals.calories_kcal := MacroTotals.calories_kcal acc + MacroTotals.calories_kcal t;
     MacroTotals.protein_g := MacroTotals.protein_g acc + MacroTotals.protein_g t;
     MacroTotals.fat_g := MacroTotals.fat_g acc + MacroTotals.fat_g t;
     MacroTotals.carbs_g := MacroTotals.carbs_g acc + MacroTotals.carbs_g t |}%float.

(** [newMeals.reduce(...)] *)
Definition sumMeals (ms : list MealFromAPI.t) : MacroTotals.t :=
  fold_left (fun acc m => addTotals acc (MealFromAPI.totals m)) ms zeroTotals.

(** [newPlan.reduce(...)] *)
Definition sumDays (ds : list DayFromAPI.t) : MacroTotals.t :=
  fold_left (fun acc d => addTotals acc (DayFromAPI.day_totals d)) ds zeroTotals.

Definition replaceIn (meal_number : Z) (rep : Replacement.t) (m : MealFromAPI.t)
  : MealFromAPI.t :=
  if MealFromAPI.meal_number m =? meal_number
  then {| MealFromAPI.meal_number := MealFromAPI.meal_number m;
          MealFromAPI.recipe_name := Replacement.recipe_name rep;
          MealFromAPI.target_calories := MealFromAPI.target_calories m;
          MealFromAPI.ingredients := Replacement.ingredients rep;
          MealFromAPI.totals := Replacement.totals rep |}
  else m.

(** The callback of [prev.plan.map(...)]. *)
Definition updateDay (activeDay meal_number : Z) (rep : Replacement.t)
           (d : DayFromAPI.t) : DayFromAPI.t :=
  if negb (DayFromAPI.day d =? activeDay) then d
  else
    let newMeals := map (replaceIn meal_number rep) (DayFromAPI.meals d) in
    {| DayFromAPI.day := DayFromAPI.day d;
       DayFromAPI.meals := newMeals;
       DayFromAPI.day_totals := sumMeals newMeals |}.

(** [newPlan] and [planTotals]. *)
Definition newPlan (activeDay meal_number : Z) (rep : Replacement.t)
           (plan : list DayFromAPI.t) : list DayFromAPI.t :=
  map (updateDay activeDay meal_number rep) plan.

Definition planTotals (newPlan : list DayFromAPI.t) : MacroTotals.t :=
  sumDays newPlan.

End MealPlan64.

(* ===================================================================== *)
(** * A replace call in its two halves *)
(* ===================================================================== *)

(** Both replace handlers are [async] functions.  What stands before
    [await fetch(...)] runs at the click; what stands after it runs when
    the reply arrives, with the variables of the render in which the button
    was clicked, while the state may have moved on. *)

Module PlannerAsync.
Import JS Api.

(** [handleReplace] up to its [await]: it returns when no plan is held,
    else it calls [setError(null)] and sends the request. *)
Definition click (st : Planner.State.t) : Planner.State.t :=
  match Planner.State.result st with
  | None => st
  | Some r =>
      match Planner.Result.plan r with
      | None => st
      | Some _ =>
          {| Planner.State.form := Planner.State.form st;
             Planner.State.result := Planner.State.result st;
             Planner.State.activeDay := Planner.State.activeDay st;
             Planner.State.error := None |}
      end
  end.

(** [handleReplace] from its [await] on.  [clicked] is the state of the
    render whose button was clicked: [result], [activeDay] and [form] are
    read from it.  [held] is the state when the reply arrives:
    [setResult(next)] and [setError(msg)] write over it, and [next] is built
    from [clicked]. *)
Definition settle {R : Type} (clicked held : Planner.State.t) (slot : option string)
           (out : Outcome (ReplaceBody Planner.Meal.t R)) : Planner.State.t :=
  match Planner.State.result clicked with
  | None => held
  | Some r =>
      match Planner.Result.plan r with
      | None => held
      | Some p =>
          match Planner.replaceOutcome clicked r p slot out with
          | inl msg =>
              {| Planner.State.form := Planner.State.form held;
                 Planner.State.result := Planner.State.result held;
                 Planner.State.activeDay := Planner.State.activeDay held;
                 Planner.State.error := Some msg |}
          | inr next =>
              {| Planner.State.form := Planner.State.form held;
                 Planner.State.result := Some next;
                 Planner.State.activeDay := Planner.State.activeDay held;
                 Planner.State.error := Planner.State.error held |}
          end
      end
  end.

End PlannerAsync.

Module MealPlanAsync.
Import JS Api.

(** [handleReplaceMeal] up to its [await]: it returns when no plan is
    held, else it calls [setErr(null)] and [setBusyMeal(meal_number)] and
    sends the request. *)
Definition click (st : MealPlan.State.t) (meal_number : Z) : MealPlan.State.t :=
  match MealPlan.State.data st with
  | Some (MealPlan.OK _) =>
      {| MealPlan.State.data := MealPlan.State.data st;
         MealPlan.State.activeDay := MealPlan.State.activeDay st;
         MealPlan.State.busyMeal := Some meal_number;
         MealPlan.State.err := None |}
  | _ => st
  end.

(** [handleReplaceMeal] from its [await] on.  [activeDay] is read from
    [clicked]; the plan is the one the updater of [setData] is handed, which
    is the one of [held]. *)
Definition settle {M : Type} (clicked held : MealPlan.State.t) (meal_number : Z)
           (out : Outcome (ReplaceBody M MealPlan.Replacement.t)) : MealPlan.State.t :=
  match MealPlan.State.data clicked with
  | Some (MealPlan.OK _) =>
      match MealPlan.replaceOutcome out with
      | inl msg =>
          {| MealPlan.State.data := MealPlan.State.data held;
             MealPlan.State.activeDay := MealPlan.State.activeDay held;
             MealPlan.State.busyMeal := None;
             MealPlan.State.err := Some msg |}
      | inr rep =>
          {| MealPlan.State.data :=
               match MealPlan.State.data held with
               | Some (MealPlan.OK prev) =>
                   Some (MealPlan.OK
                           (MealPlan.applyReplacement
                              prev (MealPlan.State.activeDay clicked) meal_number rep))
               | other => other
               end;
             MealPlan.State.activeDay := MealPlan.State.activeDay held;
             MealPlan.State.busyMeal := None;
             MealPlan.State.err := MealPlan.State.err held |}
      end
  | _ => held
  end.

End MealPlanAsync.

(* ===================================================================== *)
(** * The shopping list of a generated plan *)
(* ===================================================================== *)

(** The list a generated plan arrives with is built by the aggregator of
    the engine, which is not among the sources. *)

Module Aggregator.
Import JS.

(** Modelled from the spec: the tokens of a plan, every ingredient string
    of every meal lower-cased and trimmed, the empty ones discarded; the
    aggregator is missing from the sources. *)
Definition tokens (ds : list Planner.Day.t) : list string :=
  filter truthy
         (map (fun ing => toLowerCase (trim ing))
              (flat_map
                 (fun d => flat_map (fun mm => nullish (Planner.Meal.ingredients mm) [])
                                    (nullish (Planner.Day.meals d) []))
                 ds)).

(** Modelled from the spec: the comparison behind "ascending alphabetical
    for ties"; the aggregator is missing from the sources. *)
Definition byName (a b : string * nat) : Z :=
  match String.compare (fst a) (fst b) with
  | Lt => -1
  | Eq => 0
  | Gt => 1
  end.

(** Modelled from the spec: the shopping list of the Plan Aggregator,
    missing from the sources; occurrences are counted across the whole plan
    and the items sorted by descending count, then by ascending name. *)
Definition shoppingList (ds : list Planner.Day.t) : Planner.ShoppingList.t :=
  let ks := tokens ds in
  let entries := map (fun k => (k, count_occ string_dec ks k)) (nodup string_dec ks) in
  let sorted := sort Planner.byCountDesc (sort byName entries) in
  {| Planner.ShoppingList.total_unique := List.length sorted;
     Planner.ShoppingList.items :=
       map (fun e => Planner.ShoppingItem.mk (fst e) (snd e)) sorted |}.

End Aggregator.

(* ===================================================================== *)
(** * Vocabulary: strings *)
(* ===================================================================== *)

(** What trimming, lower-casing and splitting at commas mean, said without
    the functions of [JS]. *)
Module Words.

Definition chars (s : string) : list ascii := list_ascii_of_string s.

(** The white space that [trim] strips, by code point: TAB, LF, VT, FF, CR,
    SP, NBSP. *)
Definition space (c : ascii) : Prop :=
  In (N_of_ascii c) [9; 10; 11; 12; 13; 32; 160]%N.

(** Nothing but white space. *)
Definition blank (s : string) : Prop := Forall space (chars s).

(** No white space at either end. *)
Definition bare (t : string) : Prop :=
  (forall c r, t = String c r -> ~ space c)
  /\ (forall r c, t = r ++ String c EmptyString -> ~ space c).

(** [t] is [s] without the white space at its two ends. *)
Definition TrimOf (s t : string) : Prop :=
  exists pre post, s = pre ++ t ++ post /\ blank pre /\ blank post /\ bare t.

(** A capital letter, by code point: A-Z, and U+00C0..U+00DE without the
    multiplication sign. *)
Definition capital (n : N) : Prop :=
  ((65 <= n /\ n <= 90) \/ (192 <= n /\ n <= 222 /\ n <> 215))%N.

(** [c'] is [c] in lower case: a capital moves up by 32, any other
    character stays. *)
Definition lowerOf (c c' : ascii) : Prop :=
  (capital (N_of_ascii c) -> N_of_ascii c' = (N_of_ascii c + 32)%N)
  /\ (~ capital (N_of_ascii c) -> c' = c).

Definition LowerOf (s k : string) : Prop := Forall2 lowerOf (chars s) (chars k).

(** [k] is the token of the ingredient string [ing]: trimmed, then
    lower-cased. *)
Definition TokenOf (ing k : string) : Prop :=
  exists t, TrimOf ing t /\ LowerOf t k.

Definition commaFree (s : string) : Prop := ~ In ","%char (chars s).

(** [parts] are the pieces of [text] between its commas. *)
Definition PartsOf (text : string) (parts : list string) : Prop :=
  parts <> [] /\ Props.joinComma parts = text /\ Forall commaFree parts.

(** [sent] holds the pieces trimmed, in their order, without those that
    are nothing but white space. *)
Inductive Kept : list string -> list string -> Prop :=
| kept_nil : Kept [] []
| kept_drop (p : string) (ps ts : list string) :
    blank p -> Kept ps ts -> Kept (p :: ps) ts
| kept_take (p t : string) (ps ts : list string) :
    TrimOf p t -> t <> EmptyString -> Kept ps ts -> Kept (p :: ps) (t :: ts).

(** Every ingredient string of every meal of every day, in plan order. *)
Definition ingredientsOf (ds : list Planner.Day.t) : list string :=
  flat_map
    (fun d =>
       flat_map (fun mm => match Planner.Meal.ingredients mm with
                           | Some l => l
                           | None => []
                           end)
                (match Planner.Day.meals d with
                 | Some ms => ms
                 | None => []
                 end))
    ds.

(** [n] is the number of distinct non-empty tokens of the ingredient
    strings [ings]. *)
Definition CountsTokens (n : nat) (ings : list string) : Prop :=
  exists D : list string,
    NoDup D
    /\ (forall k, In k D <-> k <> EmptyString /\ exists ing, In ing ings /\ TokenOf ing k)
    /\ n = List.length D.

End Words.

(* ===================================================================== *)
(** * Vocabulary: what a replacement keeps *)
(* ===================================================================== *)

Module Frame.

(** The slot key of a meal: its slot, else its meal type. *)
Definition keyOf (m : Planner.Meal.t) : option string :=
  match Planner.Meal.slot m with
  | Some s => Some s
  | None => Planner.Meal.meal_type m
  end.

Definition mealsIn (d : Planner.Day.t) : list Planner.Meal.t :=
  match Planner.Day.meals d with Some ms => ms | None => [] end.

Definition daysIn (p : Planner.Plan.t) : list Planner.Day.t :=
  match Planner.Plan.days p with Some ds => ds | None => [] end.



(** Meal [j] of day [i], by position. *)
Definition mealAt (ds : list Planner.Day.t) (i j : nat) : option Planner.Meal.t :=
  match nth_error ds i with
  | Some d => nth_error (mealsIn d) j
  | None => None
  end.

(** No day number occurs twice, and no slot key twice in a day. *)
Definition uniqueTargets (ds : list Planner.Day.t) : Prop :=
  NoDup (map Planner.Day.day ds)
  /\ forall d, In d ds -> NoDup (map keyOf (mealsIn d)).

(** A day of the days with the number [activeDay] holds a meal whose key
    is [slot]. *)
Definition slotIsFilled (activeDay : Z) (slot : option string)
           (ds : list Planner.Day.t) : Prop :=
  exists d m, In d ds /\ Planner.Day.day d = activeDay
              /\ In m (mealsIn d) /\ keyOf m = slot.

(** The replacement a reply carries for the meal-plan page: the value
    under [replacement] of a body with status ["ok"] that came with a good
    HTTP status. *)
Definition replyReplacement {M R : Type} (out : Api.Outcome (Api.ReplaceBody M R))
  : option R :=
  match out with
  | Api.Responded true _ (inr data) =>
      match Api.status data with
      | Some s => if String.eqb s "ok" then Api.replacement data else None
      | None => None
      end
  | _ => None
  end.

End Frame.

(* ===================================================================== *)
(** * Vocabulary: the number a double stands for *)
(* ===================================================================== *)

Module Value.

(** A finite double with mantissa [m] and exponent [e] stands for
    [m * 2^e], with a minus sign when its sign bit is set; the two zeros
    stand for 0; [NaN] and the infinities stand for no number. *)
Definition real (x : float) : option Q :=
  match Prim2SF x with
  | S754_finite false m e => Some (inject_Z (Zpos m) * Qpower 2 e)%Q
  | S754_finite true m e => Some (- (inject_Z (Zpos m) * Qpower 2 e))%Q
  | S754_zero _ => Some 0%Q
  | S754_infinity _ => None
  | S754_nan => None
  end.

End Value.

(* ===================================================================== *)
(** * Vocabulary: sums and prints of doubles *)
(* ===================================================================== *)

Module Sums.

(** The sum of a list of doubles as a loop computes it: from 0, left to
    right, each addition rounded to the nearest double. *)
Definition total (l : list float) : float := fold_left PrimFloat.add l 0%float.

(** What a field that may be missing counts for in a sum: nothing when it
    is missing, [NaN] or zero, else its value. *)
Definition counted (v : option float) : float :=
  match v with
  | Some x =>
      match Prim2SF x with
      | S754_finite _ _ _ => x
      | S754_infinity _ => x
      | S754_zero _ => 0%float
      | S754_nan => 0%float
      end
  | None => 0%float
  end.

(** [t] is the number held for [s] printed with one digit after the
    point: for a finite [s] below 2^49 in size, the double nearest to the
    decimal [n / 10], where [n / 10] is within 0.05 of [|s|] and the larger
    one when two are, with the sign of [s]; any other [s] is held as it
    is. *)
Definition printed (s t : float) : Prop :=
  match Value.real s with
  | None => t = s
  | Some q =>
      ((inject_Z (2 ^ 49) <= Qabs q)%Q /\ t = s)
      \/ ((Qabs q < inject_Z (2 ^ 49))%Q
          /\ exists n : Z,
               (Qabs ((n # 10) - Qabs q) <= 5 # 100)%Q
               /\ (Qabs q * 10 + (1 # 2) < inject_Z n + 1)%Q
               /\ ((0 <= q)%Q ->
                   t = (PrimFloat.of_uint63 (Uint63.of_Z n) / 10)%float)
               /\ ((q < 0)%Q ->
                   t = (- (PrimFloat.of_uint63 (Uint63.of_Z n) / 10))%float))
  end.

(** The totals [T] of a day of the planner page are the printed sums over
    its meals [ms], field by field. *)
Definition dayPrinted (ms : list Planner64.Meal.t) (T : Planner64.Totals.t) : Prop :=
  printed (total (map (fun mm => counted (Planner64.Meal.calories mm)) ms))
          (Planner64.Totals.calories T)
  /\ printed (total (map (fun mm => counted (Planner64.Meal.protein_g mm)) ms))
             (Planner64.Totals.protein_g T)
  /\ printed (total (map (fun mm => counted (Planner64.Meal.carbs_g mm)) ms))
             (Planner64.Totals.carbs_g T)
  /\ printed (total (map (fun mm => counted (Planner64.Meal.fat_g mm)) ms))
             (Planner64.Totals.fat_g T).

(** One field of the totals of a day, as the sum over the days counts
    it. *)
Definition dayField (f : Planner64.Totals.t -> float) (d : Planner64.Day.t) : float :=
  match Planner64.Day.totals d with
  | Some t => counted (Some (f t))
  | None => 0%float
  end.

(** The overall totals [T] are the printed sums of the day totals. *)
Definition planPrinted (ds : list Planner64.Day.t) (T : Planner64.Totals.t) : Prop :=
  printed (total (map (dayField Planner64.Totals.calories) ds))
          (Planner64.Totals.calories T)
  /\ printed (total (map (dayField Planner64.Totals.protein_g) ds))
             (Planner64.Totals.protein_g T)
  /\ printed (total (map (dayField Planner64.Totals.carbs_g) ds))
             (Planner64.Totals.carbs_g T)
  /\ printed (total (map (dayField Planner64.Totals.fat_g) ds))
             (Planner64.Totals.fat_g T).

(** On the meal-plan page: [T] is the sum of the totals [ts], field by
    field. *)
Definition summed (ts : list MealPlan64.MacroTotals.t) (T : MealPlan64.MacroTotals.t) : Prop :=
  MealPlan64.MacroTotals.calories_kcal T
  = total (map MealPlan64.MacroTotals.calories_kcal ts)
  /\ MealPlan64.MacroTotals.protein_g T = total (map MealPlan64.MacroTotals.protein_g ts)
  /\ MealPlan64.MacroTotals.fat_g T = total (map MealPlan64.MacroTotals.fat_g ts)
  /\ MealPlan64.MacroTotals.carbs_g T = total (map MealPlan64.MacroTotals.carbs_g ts).

End Sums.

(* ===================================================================== *)
(** * Vocabulary: the calculator formula *)
(* ===================================================================== *)

(** The Mifflin-St Jeor formula as the page states it, each operation
    rounded to the nearest double, for comparison with
    [Calculator64.result]. *)
Module Formula.
Import Calculator.

Definition multiplier (a : Activity) : float :=
  match a with
  | sedentary => 1.2%float
  | light => 1.375%float
  | moderate => 1.55%float
  | very => 1.725%float
  | extra => 1.9%float
  end.

(** 10 * weight + 6.25 * height - 5 * age, plus 5 for male or minus 161
    for female. *)
Definition base (sex : Sex) (age height weight : float) : float :=
  match sex with
  | male => (10 * weight + 6.25 * height - 5 * age + 5)%float
  | female => (10 * weight + 6.25 * height - 5 * age - 161)%float
  end.

(** The base times the activity multiplier, not rounded to an integer. *)
Definition tdee (sex : Sex) (age height weight : float) (a : Activity) : float :=
  (base sex age height weight * multiplier a)%float.

Definition recommended (goal : Goal) (t : float) : float :=
  match goal with
  | deficit => (t * 0.85)%float
  | surplus => (t * 1.1)%float
  | maintain => t
  end.

(** [z] is what is shown for [x]: the integer nearest to the value of
    [x], the upper one of two; nothing when [x] is not finite. *)
Definition shown (x : float) (z : option Z) : Prop :=
  match Value.real x with
  | Some q =>
      exists n : Z, z = Some n /\ (inject_Z n - (1 # 2) <= q)%Q /\ (q < inject_Z n + (1 # 2))%Q
  | None => z = None
  end.

End Formula.

(* ===================================================================== *)
(** * Concrete inputs in binary64 *)
(* ===================================================================== *)

Module Samples64.

(** A breakfast of 380.25 kcal. *)
Definition toast : Planner64.Meal.t :=
  Planner64.Meal.mk (Some "breakfast") (Some "breakfast") 41 "Toast"
                    (Some 380.25%float) (Some 12%float) (Some 50%float) (Some 14%float)
                    (Some ["bread"; "butter"]) 400%float None.

Definition soup : Planner64.Meal.t :=
  Planner64.Meal.mk (Some "lunch") (Some "lunch") 42 "Soup"
                    (Some 650%float) (Some 30%float) (Some 80%float) (Some 20.5%float)
                    (Some ["leek"; "potato"]) 600%float None.

(** Day 1 holds the toast, with totals equal to the meal's values. *)
Definition toastDay : Planner64.Day.t :=
  Planner64.Day.mk 1 (Some [toast]) (Some (Planner64.Totals.mk 380.25 12 50 14)).

(** Day 2 arrives with 999 kcal for a meal of 650 kcal. *)
Definition driftedDay : Planner64.Day.t :=
  Planner64.Day.mk 2 (Some [soup]) (Some (Planner64.Totals.mk 999 30 80 20.5)).

Definition porridge : MealPlan64.MealFromAPI.t :=
  MealPlan64.MealFromAPI.mk 1 "Porridge" (Some 600%float)
    [MealPlan.Ingredient.mk 101 "Oats, rolled" "Cereals"]
    (MealPlan64.MacroTotals.mk 400.1 12.2 8 60).

Definition eggs : MealPlan64.Replacement.t :=
  MealPlan64.Replacement.mk "Omelette"
    [MealPlan.Ingredient.mk 202 "Egg, whole" "Eggs"]
    (MealPlan64.MacroTotals.mk 380.2 24 28 4).

End Samples64.

(* ===================================================================== *)
(** * Facts about the primitives *)
(* ===================================================================== *)

Section CalculatorFacts.
Import JS Calculator.
Local Open Scope Q_scope.

Example calculator_defaults :
  result female 22 165 60 moderate maintain
  = {| r_bmr := 1360; r_tdee := 2108; r_recommended := 2108 |}.
Proof. vm_compute. reflexivity. Qed.

End CalculatorFacts.

(* ===================================================================== *)
(** * Strings: trimming and splitting *)
(* ===================================================================== *)

Section StringFacts.
Import JS Props.

Lemma trimStart_starts (s : string) : startsWhite (trimStart s) = false.
Proof.
  induction s as [|c s IH]; simpl; [reflexivity|].
  destruct (isWhite c) eqn:W; [exact IH | simpl; exact W].
Qed.

Lemma trimEnd_starts (s : string) :
  startsWhite s = false -> startsWhite (trimEnd s) = false.
Proof.
  destruct s as [|c s]; simpl; [reflexivity|].
  intros W. destruct (trimEnd s); [rewrite W|]; simpl; assumption.
Qed.

Lemma trimEnd_ends (s : string) : endsWhite (trimEnd s) = false.
Proof.
  induction s as [|c s IH]; simpl; [reflexivity|].
  destruct (trimEnd s) as [|c2 t] eqn:E.
  - destruct (isWhite c) eqn:W; simpl; [reflexivity | exact W].
  - exact IH.
Qed.

Lemma trim_clean (s : string) :
  startsWhite (trim s) = false /\ endsWhite (trim s) = false.
Proof.
  unfold trim. split.
  - apply trimEnd_starts, trimStart_starts.
  - apply trimEnd_ends.
Qed.

Lemma truthy_nonempty (s : string) : truthy s = true <-> s <> EmptyString.
Proof.
  destruct s; simpl; split; intros H; congruence.
Qed.

Lemma splitComma_nonempty (s : string) : splitComma s <> [].
Proof.
  destruct s as [|c s]; cbn [splitComma]; [discriminate|].
  destruct (Ascii.eqb c ","%char); [discriminate|].
  destruct (splitComma s); discriminate.
Qed.

(** Splitting loses nothing: joining the parts gives the text back. *)
Lemma splitComma_join (s : string) : joinComma (splitComma s) = s.
Proof.
  induction s as [|c s IH]; [reflexivity|].
  cbn [splitComma].
  pose proof (splitComma_nonempty s) as NE.
  destruct (splitComma s) as [|h t] eqn:E; [congruence|].
  destruct (Ascii.eqb_spec c ","%char) as [->|Hc].
  - cbn [joinComma]. simpl. f_equal. exact IH.
  - destruct t as [|h2 t]; cbn [joinComma] in *; simpl; f_equal; exact IH.
Qed.

Lemma allergyList_clean (text : string) :
  Forall cleanToken (Planner.allergyList text).
Proof.
  unfold Planner.allergyList.
  apply Forall_forall. intros a Ha.
  apply filter_In in Ha. destruct Ha as [Hin Ht].
  apply in_map_iff in Hin. destruct Hin as [raw [<- _]].
  split; [apply truthy_nonempty, Ht | apply trim_clean].
Qed.

Example allergies_sample :
  Planner.allergyList " nuts , Dairy,, ,soy " = ["nuts"; "Dairy"; "soy"].
Proof. reflexivity. Qed.

End StringFacts.

(* ===================================================================== *)
(** * The engine: validation, slot targets, replacement *)
(* ===================================================================== *)

Section EngineFacts.
Import JS Api Props.








Lemma validate_sound (inRange : Q -> bool) (req : Planner.GeneratePayload.t)
      (f : Engine.Field) :
  Engine.validate inRange req = Some f -> Engine.outOfRange inRange req f.
Proof.
  unfold Engine.validate, Engine.outOfRange.
  destruct (Z.leb_spec 1 (Planner.GeneratePayload.days req));
    destruct (Z.leb_spec (Planner.GeneratePayload.days req) 14);
    destruct (Z.leb_spec 1 (Planner.GeneratePayload.meals_per_day req));
    destruct (Z.leb_spec (Planner.GeneratePayload.meals_per_day req) 6);
    destruct (inRange (Planner.GeneratePayload.calories req)) eqn:C;
    simpl; intros E; inversion E; subst; auto; lia.
Qed.

Lemma validate_complete (inRange : Q -> bool) (req : Planner.GeneratePayload.t)
      (f : Engine.Field) :
  Engine.outOfRange inRange req f -> Engine.validate inRange req <> None.
Proof.
  unfold Engine.validate, Engine.outOfRange.
  destruct (Z.leb_spec 1 (Planner.GeneratePayload.days req));
    destruct (Z.leb_spec (Planner.GeneratePayload.days req) 14);
    destruct (Z.leb_spec 1 (Planner.GeneratePayload.meals_per_day req));
    destruct (Z.leb_spec (Planner.GeneratePayload.meals_per_day req) 6);
    destruct (inRange (Planner.GeneratePayload.calories req)) eqn:C;
    simpl; destruct f; intros O; try discriminate; try lia.
Qed.

Lemma validate_none (inRange : Q -> bool) (req : Planner.GeneratePayload.t) :
  Engine.validate inRange req = None ->
  1 <= Planner.GeneratePayload.days req <= 14
  /\ 1 <= Planner.GeneratePayload.meals_per_day req <= 6
  /\ inRange (Planner.GeneratePayload.calories req) = true.
Proof.
  unfold Engine.validate.
  destruct (Z.leb_spec 1 (Planner.GeneratePayload.days req));
    destruct (Z.leb_spec (Planner.GeneratePayload.days req) 14);
    destruct (Z.leb_spec 1 (Planner.GeneratePayload.meals_per_day req));
    destruct (Z.leb_spec (Planner.GeneratePayload.meals_per_day req) 6);
    destruct (inRange (Planner.GeneratePayload.calories req)) eqn:C;
    simpl; intros E; try discriminate; repeat split; lia.
Qed.

(** C7, as the code has it. The planner page submits meals_per_day, days
    and calories exactly as the form holds them, with no range check of its
    own.  In the engine a request with days outside 1-14, meals_per_day
    outside 1-6 or calories outside their range is rejected with a
    ValidationError that names a field that is out of range, whatever the
    corpus and the composer are; a request that passes validation has days
    in 1-14 and meals_per_day in 1-6. *)
Theorem validation_rejects_out_of_range :
  forall (inRange : Q -> bool),
    (forall form : Planner.Form.t,
        Planner.GeneratePayload.meals_per_day (Planner.generatePayload form)
        = Planner.Form.meals_per_day form
        /\ Planner.GeneratePayload.days (Planner.generatePayload form)
           = Planner.Form.days form
        /\ Planner.GeneratePayload.calories (Planner.generatePayload form)
           = Planner.Form.calories form)
    /\ (forall (req : Planner.GeneratePayload.t) (bad : Engine.Field),
          Engine.outOfRange inRange req bad ->
          exists f, Engine.validate inRange req = Some f
                    /\ Engine.outOfRange inRange req f
                    /\ forall (P : Type) compose (corpus : list Engine.Recipe.t),
                         @Engine.generatePlan inRange P compose corpus req
                         = inl (Engine.ValidationError f))
    /\ (forall req : Planner.GeneratePayload.t,
          Engine.validate inRange req = None ->
          1 <= Planner.GeneratePayload.days req <= 14
          /\ 1 <= Planner.GeneratePayload.meals_per_day req <= 6
          /\ inRange (Planner.GeneratePayload.calories req) = true).
Proof.
  intros inRange. split; [|split].
  - intros form. repeat split.
  - intros req bad Hbad.
    destruct (Engine.validate inRange req) as [f|] eqn:V.
    + exists f. split; [reflexivity|]. split; [apply validate_sound, V|].
      intros P compose corpus. unfold Engine.generatePlan. rewrite V. reflexivity.
    + elim (validate_complete inRange req bad Hbad V).
  - apply validate_none.
Qed.

Lemma validation_rejects_witness :
  Engine.outOfRange Samples.positiveCalories
                    (Planner.generatePayload Samples.wideForm) Engine.meals_per_day
  /\ exists f,
       Engine.validate Samples.positiveCalories (Planner.generatePayload Samples.wideForm)
       = Some f
       /\ Engine.generatePlan Samples.positiveCalories
            (fun corpus _ => inr corpus) Samples.corpus
            (Planner.generatePayload Samples.wideForm)
          = inl (Engine.ValidationError f).
Proof.
  assert (O : Engine.outOfRange Samples.positiveCalories
                (Planner.generatePayload Samples.wideForm) Engine.meals_per_day).
  { simpl. lia. }
  split; [exact O|].
  destruct (validation_rejects_out_of_range Samples.positiveCalories) as [_ [Rej _]].
  destruct (Rej _ _ O) as [f [V [_ G]]].
  exists f. split; [exact V | apply G].
Defined.

(** The planner page does submit a request with 9 meals per day and 30
    days. *)
Lemma planner_submits_out_of_range :
  ~ (1 <= Planner.GeneratePayload.meals_per_day (Planner.generatePayload Samples.wideForm) <= 6
     /\ 1 <= Planner.GeneratePayload.days (Planner.generatePayload Samples.wideForm) <= 14).
Proof.
  simpl. lia.
Qed.

Lemma best_In (score : Planner.ReplacePayload.t -> Engine.Recipe.t -> Q)
      (req : Planner.ReplacePayload.t) (l : list Engine.Recipe.t) (r : Engine.Recipe.t) :
  Engine.best score req l = Some r -> In r l.
Proof.
  revert r. induction l as [|x l IH]; intros r; simpl; [discriminate|].
  destruct (Engine.best score req l) as [b|].
  - destruct (Engine.preferred score req b x); intros E; inversion E; subst; auto.
  - intros E; inversion E; auto.
Qed.

Lemma accept_not_excluded (req : Planner.ReplacePayload.t) (r : Engine.Recipe.t) :
  Engine.accept req r = true ->
  ~ In (Engine.Recipe.id r) (Planner.ReplacePayload.exclude_recipe_ids req).
Proof.
  unfold Engine.accept. intros A Hin.
  assert (X : existsb (Z.eqb (Engine.Recipe.id r))
                      (Planner.ReplacePayload.exclude_recipe_ids req) = true).
  { apply existsb_exists. exists (Engine.Recipe.id r). split; [exact Hin | apply Z.eqb_refl]. }
  rewrite X in A.
  repeat match type of A with
         | (if ?c then _ else _) = true => destruct c; try discriminate
         end.
Qed.

Lemma replace_not_excluded (score : Planner.ReplacePayload.t -> Engine.Recipe.t -> Q)
      (corpus : list Engine.Recipe.t) (req : Planner.ReplacePayload.t)
      (r : Engine.Recipe.t) :
  Engine.replace score corpus req = inr r ->
  In r corpus /\ ~ In (Engine.Recipe.id r) (Planner.ReplacePayload.exclude_recipe_ids req).
Proof.
  unfold Engine.replace.
  destruct (Engine.best score req _) as [b|] eqn:B; intros E; inversion E; subst.
  apply best_In, filter_In in B. destruct B as [Hin Hacc].
  split; [exact Hin | apply accept_not_excluded, Hacc].
Qed.

(** C2, as the code has it. A request built by a click on Replace in the
    planner page carries exclude_recipe_ids holding exactly the identifier
    of the meal on the card, and the engine never answers such a request (or
    any request) with a recipe whose identifier is in its exclusion list.
    A request built by the meal-plan page has no exclude_recipe_ids key. *)
Theorem replacement_excludes_current :
  forall (score : Planner.ReplacePayload.t -> Engine.Recipe.t -> Q)
         (corpus : list Engine.Recipe.t),
    (forall st meal p,
        Planner.mealCardRequest st meal = Some p ->
        Wire.exclude_recipe_ids (Wire.FromPlanner p) = Some [Planner.Meal.recipe_id meal]
        /\ forall r, Engine.replace score corpus p = inr r ->
                     In r corpus /\ Engine.Recipe.id r <> Planner.Meal.recipe_id meal)
    /\ (forall req r,
          Engine.replace score corpus req = inr r ->
          ~ In (Engine.Recipe.id r) (Planner.ReplacePayload.exclude_recipe_ids req))
    /\ (forall st meal_number p,
          MealPlan.replaceRequest st meal_number = Some p ->
          Wire.exclude_recipe_ids (Wire.FromMealPlan p) = None).
Proof.
  intros score corpus. split; [|split].
  - intros st meal p Hreq.
    unfold Planner.mealCardRequest in Hreq.
    destruct (Planner.State.result st) as [res|]; [|discriminate].
    destruct (Planner.Result.plan res); [|discriminate].
    inversion Hreq; subst p; clear Hreq.
    split; [reflexivity|].
    intros r Hr. apply replace_not_excluded in Hr. destruct Hr as [Hin Hex].
    split; [exact Hin|]. intros E. apply Hex. simpl. left. symmetry. exact E.
  - intros req r Hr. apply (replace_not_excluded score corpus req r Hr).
  - intros st n p _. reflexivity.
Qed.

Lemma replacement_excludes_witness :
  exists p r,
    Planner.mealCardRequest Samples.twoDays Samples.oatmeal = Some p
    /\ Engine.replace Samples.calorieScore Samples.corpus p = inr r
    /\ Planner.Meal.recipe_id Samples.oatmeal = 7
    /\ Engine.Recipe.id r = 8
    /\ Engine.Recipe.id r <> Planner.Meal.recipe_id Samples.oatmeal.
Proof.
  destruct (replacement_excludes_current Samples.calorieScore Samples.corpus) as [H _].
  destruct (H Samples.twoDays Samples.oatmeal _ eq_refl) as [_ H2].
  eexists. eexists.
  split; [reflexivity|].
  assert (E : Engine.replace Samples.calorieScore Samples.corpus
                (Planner.replacePayload Samples.twoDays
                   (Planner.slotKey Samples.oatmeal)
                   (Planner.Meal.target_calories Samples.oatmeal)
                   [Planner.Meal.recipe_id Samples.oatmeal])
              = inr (Engine.Recipe.mk 8 "Omelette" (Some "breakfast") true false
                                      ["eggs"; "milk"] 380)).
  { vm_compute. reflexivity. }
  split; [exact E|].
  split; [reflexivity|]. split; [reflexivity|].
  exact (proj2 (H2 _ E)).
Defined.

(** The request the meal-plan page sends for its meal 1 has no
    exclude_recipe_ids at all. *)
Lemma meal_plan_request_has_no_exclusion :
  exists p,
    MealPlan.replaceRequest Samples.mealPlanState 1 = Some p
    /\ ~ (exists ids, Wire.exclude_recipe_ids (Wire.FromMealPlan p) = Some ids).
Proof.
  eexists. split; [reflexivity|].
  intros [ids H]. discriminate H.
Qed.

End EngineFacts.

(* ===================================================================== *)
(** * The shopping list *)
(* ===================================================================== *)

Section ShoppingFacts.
Import JS Props.

Lemma existsb_eqb_In (k : string) (l : list string) :
  existsb (String.eqb k) l = true <-> In k l.
Proof.
  rewrite existsb_exists. split.
  - intros [x [Hin E]]. apply String.eqb_eq in E. subst. exact Hin.
  - intros Hin. exists k. split; [exact Hin | apply String.eqb_refl].
Qed.

Lemma distinct_snoc (ks : list string) (k : string) :
  distinct (ks ++ [k])%list
  = if existsb (String.eqb k) (distinct ks) then distinct ks
    else (distinct ks ++ [k])%list.
Proof.
  unfold distinct. rewrite fold_left_app. reflexivity.
Qed.

Lemma distinct_In (ks : list string) (k : string) : In k (distinct ks) <-> In k ks.
Proof.
  induction ks as [|x ks IH] using rev_ind; [reflexivity|].
  rewrite distinct_snoc, in_app_iff.
  destruct (existsb (String.eqb x) (distinct ks)) eqn:E.
  - apply existsb_eqb_In in E. rewrite IH. simpl. split; [tauto|].
    intros [H|[H|[]]]; [exact H | subst; apply IH, E].
  - rewrite in_app_iff, IH. reflexivity.
Qed.

Lemma distinct_NoDup (ks : list string) : NoDup (distinct ks).
Proof.
  induction ks as [|x ks IH] using rev_ind; [constructor|].
  rewrite distinct_snoc.
  destruct (existsb (String.eqb x) (distinct ks)) eqn:E; [exact IH|].
  apply NoDup_app; [exact IH | repeat constructor; simpl; tauto |].
  intros a Ha [<-|[]]. apply existsb_eqb_In in Ha. congruence.
Qed.

(** The number of distinct elements, counted either way. *)
Lemma distinct_length (ks : list string) :
  List.length (distinct ks) = List.length (nodup string_dec ks).
Proof.
  apply Permutation_length, NoDup_Permutation.
  - apply distinct_NoDup.
  - apply NoDup_nodup.
  - intros k. rewrite distinct_In, nodup_In. reflexivity.
Qed.

Lemma ctrGet_entries (g : string -> nat) (l : list string) (k : string) :
  Planner.ctrGet (map (fun k' => (k', g k')) l) k
  = if existsb (String.eqb k) l then Some (g k) else None.
Proof.
  induction l as [|x l IH]; simpl; [reflexivity|].
  rewrite (String.eqb_sym k x).
  destruct (String.eqb_spec x k) as [->|Hne]; simpl; [reflexivity | exact IH].
Qed.

Lemma ctrSet_entries (g : string -> nat) (l : list string) (k : string) (v : nat) :
  NoDup l ->
  Planner.ctrSet (map (fun k' => (k', g k')) l) k v
  = if existsb (String.eqb k) l
    then map (fun k' => (k', if String.eqb k' k then v else g k')) l
    else (map (fun k' => (k', g k')) l ++ [(k, v)])%list.
Proof.
  induction l as [|x l IH]; intros ND; simpl; [reflexivity|].
  inversion ND as [|? ? Hx ND']; subst.
  rewrite (String.eqb_sym k x).
  destruct (String.eqb_spec x k) as [->|Hne]; simpl.
  - f_equal. apply map_ext_in. intros a Ha.
    destruct (String.eqb_spec a k) as [->|]; [contradiction | reflexivity].
  - rewrite (IH ND').
    destruct (existsb (String.eqb k) l); reflexivity.
Qed.

Lemma occurrences_snoc (ks : list string) (k k' : string) :
  occurrences (ks ++ [k]) k'
  = (occurrences ks k' + if String.eqb k' k then 1 else 0)%nat.
Proof.
  unfold occurrences. rewrite count_occ_app. f_equal. simpl.
  destruct (string_dec k k') as [->|Hne].
  - rewrite String.eqb_refl. reflexivity.
  - destruct (String.eqb_spec k' k); [congruence | reflexivity].
Qed.

(** The counter after the tokens [ks]: each distinct token once, in the
    order of first occurrence, with the number of its occurrences. *)
Lemma counter_entries (ks : list string) :
  fold_left bump ks [] = map (fun k => (k, occurrences ks k)) (distinct ks).
Proof.
  induction ks as [|k ks IH] using rev_ind; [reflexivity|].
  rewrite fold_left_app, IH. cbn [fold_left]. unfold bump.
  rewrite ctrGet_entries, (ctrSet_entries _ _ _ _ (distinct_NoDup ks)), distinct_snoc.
  destruct (existsb (String.eqb k) (distinct ks)) eqn:E.
  - apply map_ext. intros a. rewrite occurrences_snoc.
    destruct (String.eqb_spec a k) as [->|]; simpl; [reflexivity|].
    rewrite Nat.add_0_r. reflexivity.
  - assert (Hk : ~ In k ks).
    { intros Hin. apply (proj2 (distinct_In _ _)), existsb_eqb_In in Hin. congruence. }
    rewrite map_app. f_equal.
    + apply map_ext_in. intros a Ha. rewrite occurrences_snoc.
      destruct (String.eqb_spec a k) as [->|]; [|rewrite Nat.add_0_r; reflexivity].
      apply (proj1 (distinct_In _ _)) in Ha. contradiction.
    + simpl. rewrite occurrences_snoc, String.eqb_refl.
      unfold occurrences. rewrite (proj1 (count_occ_not_In string_dec ks k) Hk).
      reflexivity.
Qed.

Lemma fold_left_flat_map {A B C : Type} (f : A -> B -> A) (g : C -> list B)
      (l : list C) (a : A) :
  fold_left (fun acc x => fold_left f (g x) acc) l a = fold_left f (flat_map g l) a.
Proof.
  revert a. induction l as [|x l IH]; intros a; simpl; [reflexivity|].
  rewrite fold_left_app. apply IH.
Qed.

Lemma countIngredient_tokens (ings : list string) (ctr : Planner.Counter) :
  fold_left Planner.countIngredient ings ctr
  = fold_left bump (filter truthy (map Planner.token ings)) ctr.
Proof.
  revert ctr. induction ings as [|i ings IH]; intros ctr; simpl; [reflexivity|].
  unfold Planner.countIngredient at 2.
  destruct (truthy (Planner.token i)); simpl; apply IH.
Qed.

Lemma countPlan_flat (ds : list Planner.Day.t) (ctr : Planner.Counter) :
  fold_left
    (fun ctr d =>
       fold_left
         (fun ctr mm =>
            fold_left Planner.countIngredient (nullish (Planner.Meal.ingredients mm) []) ctr)
         (nullish (Planner.Day.meals d) []) ctr)
    ds ctr
  = fold_left Planner.countIngredient (planIngredients ds) ctr.
Proof.
  revert ctr. induction ds as [|d ds IH]; intros ctr; [reflexivity|].
  cbn [fold_left]. rewrite IH.
  unfold planIngredients. cbn [flat_map].
  rewrite fold_left_app. f_equal. apply fold_left_flat_map.
Qed.

(** The three loops count the tokens of the plan. *)
Lemma countPlan_entries (ds : list Planner.Day.t) :
  Planner.countPlan ds
  = map (fun k => (k, occurrences (planTokens ds) k)) (distinct (planTokens ds)).
Proof.
  unfold Planner.countPlan, planTokens.
  rewrite countPlan_flat, countIngredient_tokens. apply counter_entries.
Qed.

(** *** The stable sort by descending count *)

Lemma byCountDesc_pos (x y : string * nat) :
  (0 <? Planner.byCountDesc x y) = (snd x <? snd y)%nat.
Proof.
  unfold Planner.byCountDesc.
  destruct (Z.ltb_spec 0 (Z.of_nat (snd y) - Z.of_nat (snd x)));
    destruct (Nat.ltb_spec (snd x) (snd y)); try reflexivity; lia.
Qed.

Lemma insertSorted_perm {A : Type} (cmp : A -> A -> Z) (x : A) (l : list A) :
  Permutation (insertSorted cmp x l) (x :: l).
Proof.
  induction l as [|y l IH]; simpl; [reflexivity|].
  destruct (0 <? cmp x y); [|reflexivity].
  rewrite IH. apply perm_swap.
Qed.

Lemma sort_perm {A : Type} (cmp : A -> A -> Z) (l : list A) :
  Permutation (sort cmp l) l.
Proof.
  induction l as [|x l IH]; simpl; [reflexivity|].
  rewrite insertSorted_perm. constructor. exact IH.
Qed.

Lemma insertSorted_sorted (x : string * nat) (l : list (string * nat)) :
  StronglySorted (fun a b => (snd b <= snd a)%nat) l ->
  StronglySorted (fun a b => (snd b <= snd a)%nat) (insertSorted Planner.byCountDesc x l).
Proof.
  induction l as [|y l IH]; intros S; simpl.
  - repeat constructor.
  - inversion S as [|? ? S' Hy]; subst.
    rewrite byCountDesc_pos.
    destruct (Nat.ltb_spec (snd x) (snd y)) as [Hlt|Hge].
    + constructor; [apply IH, S'|].
      apply (Permutation_Forall (x := x :: l)).
      * symmetry. apply insertSorted_perm.
      * constructor; [lia | exact Hy].
    + constructor; [exact S|].
      constructor; [exact Hge|].
      eapply Forall_impl; [|exact Hy]. cbv beta. intros a Ha. lia.
Qed.

Lemma sort_sorted (l : list (string * nat)) :
  StronglySorted (fun a b => (snd b <= snd a)%nat) (sort Planner.byCountDesc l).
Proof.
  induction l as [|x l IH]; simpl; [constructor | apply insertSorted_sorted, IH].
Qed.

Lemma insertSorted_class (c : nat) (x : string * nat) (l : list (string * nat)) :
  filter (fun e => Nat.eqb (snd e) c) (insertSorted Planner.byCountDesc x l)
  = if Nat.eqb (snd x) c then x :: filter (fun e => Nat.eqb (snd e) c) l
    else filter (fun e => Nat.eqb (snd e) c) l.
Proof.
  induction l as [|y l IH]; simpl; [reflexivity|].
  rewrite byCountDesc_pos.
  destruct (Nat.ltb_spec (snd x) (snd y)) as [Hlt|Hge]; simpl; [|reflexivity].
  rewrite IH.
  destruct (Nat.eqb_spec (snd y) c) as [Ey|Ny];
    destruct (Nat.eqb_spec (snd x) c) as [Ex|Nx]; try reflexivity.
  lia.
Qed.

(** Stability: the entries of one count keep their order. *)
Lemma sort_class (c : nat) (l : list (string * nat)) :
  filter (fun e => Nat.eqb (snd e) c) (sort Planner.byCountDesc l)
  = filter (fun e => Nat.eqb (snd e) c) l.
Proof.
  induction l as [|x l IH]; simpl; [reflexivity|].
  rewrite insertSorted_class, IH. reflexivity.
Qed.

Lemma shoppingItems_names (L : list (string * nat)) :
  map Planner.ShoppingItem.ingredient
      (map (fun e => Planner.ShoppingItem.mk (fst e) (snd e)) L)
  = map fst L.
Proof.
  rewrite map_map. apply map_ext. reflexivity.
Qed.

Lemma itemsWithCount_entries (c : nat) (L : list (string * nat)) :
  itemsWithCount c (map (fun e => Planner.ShoppingItem.mk (fst e) (snd e)) L)
  = map fst (filter (fun e => Nat.eqb (snd e) c) L).
Proof.
  unfold itemsWithCount.
  induction L as [|e L IH]; simpl; [reflexivity|].
  destruct (Nat.eqb (snd e) c); simpl; rewrite IH; reflexivity.
Qed.

Lemma entries_class (g : string -> nat) (c : nat) (D : list string) :
  map fst (filter (fun e => Nat.eqb (snd e) c) (map (fun k => (k, g k)) D))
  = filter (fun k => Nat.eqb (g k) c) D.
Proof.
  induction D as [|k D IH]; simpl; [reflexivity|].
  destruct (Nat.eqb (g k) c); simpl; rewrite IH; reflexivity.
Qed.

Lemma entries_names (g : string -> nat) (D : list string) :
  map fst (map (fun k => (k, g k)) D) = D.
Proof.
  rewrite map_map. apply map_id.
Qed.

Lemma StronglySorted_items (L : list (string * nat)) :
  StronglySorted (fun a b => (snd b <= snd a)%nat) L ->
  StronglySorted
    (fun a b => (Planner.ShoppingItem.count b <= Planner.ShoppingItem.count a)%nat)
    (map (fun e => Planner.ShoppingItem.mk (fst e) (snd e)) L).
Proof.
  induction 1 as [|e L S IH F]; simpl; constructor; [exact IH|].
  apply Forall_map. exact F.
Qed.

Lemma planTokens_nonempty (ds : list Planner.Day.t) (k : string) :
  In k (planTokens ds) ->
  k <> EmptyString /\ exists ing, In ing (planIngredients ds) /\ k = toLowerCase (trim ing).
Proof.
  unfold planTokens. intros H. apply filter_In in H. destruct H as [Hin Ht].
  split; [apply truthy_nonempty, Ht|].
  apply in_map_iff in Hin. destruct Hin as [ing [E Hing]].
  exists ing. split; [exact Hing | symmetry; exact E].
Qed.

Lemma shoppingItems_length (ds : list Planner.Day.t) :
  List.length (Planner.shoppingItems ds)
  = List.length (nodup string_dec (planTokens ds)).
Proof.
  unfold Planner.shoppingItems.
  rewrite length_map, (Permutation_length (sort_perm _ _)), countPlan_entries, length_map.
  apply distinct_length.
Qed.

(** C4, as the code has it. The shopping list holds every distinct
    non-empty token (ingredient string trimmed and lower-cased) of the plan
    exactly once, each with the number of its occurrences across the whole
    plan, in descending order of count; items of equal count stay in the
    order in which the tokens first occur in the plan. *)
Theorem shopping_list_construction :
  forall ds : list Planner.Day.t,
    Permutation (map Planner.ShoppingItem.ingredient (Planner.shoppingItems ds))
                (distinct (planTokens ds))
    /\ (forall it, In it (Planner.shoppingItems ds) ->
          Planner.ShoppingItem.ingredient it <> EmptyString
          /\ (exists ing, In ing (planIngredients ds)
                          /\ Planner.ShoppingItem.ingredient it = toLowerCase (trim ing))
          /\ Planner.ShoppingItem.count it
             = occurrences (planTokens ds) (Planner.ShoppingItem.ingredient it))
    /\ StronglySorted
         (fun a b => (Planner.ShoppingItem.count b <= Planner.ShoppingItem.count a)%nat)
         (Planner.shoppingItems ds)
    /\ (forall c : nat,
          itemsWithCount c (Planner.shoppingItems ds)
          = filter (fun k => Nat.eqb (occurrences (planTokens ds) k) c)
                   (distinct (planTokens ds))).
Proof.
  intros ds. unfold Planner.shoppingItems.
  split; [|split; [|split]].
  - rewrite shoppingItems_names, (sort_perm Planner.byCountDesc (Planner.countPlan ds)).
    rewrite countPlan_entries, entries_names. reflexivity.
  - intros it Hit.
    apply in_map_iff in Hit. destruct Hit as [e [<- He]].
    apply (Permutation_in _ (sort_perm _ _)) in He.
    rewrite countPlan_entries in He.
    apply in_map_iff in He. destruct He as [k [<- Hk]]. simpl.
    apply (proj1 (distinct_In _ _)), planTokens_nonempty in Hk.
    destruct Hk as [NE Ex]. repeat split; assumption.
  - apply StronglySorted_items, sort_sorted.
  - intros c.
    rewrite itemsWithCount_entries, sort_class, countPlan_entries.
    apply entries_class.
Qed.

Lemma shopping_list_witness :
  In (Planner.ShoppingItem.mk "milk" 3)
     (Planner.shoppingItems [Samples.dayOf 1 [Samples.oatmeal; Samples.curry];
                             Samples.dayOf 2 [Samples.omelette]])
  /\ 3%nat
     = occurrences (planTokens [Samples.dayOf 1 [Samples.oatmeal; Samples.curry];
                                Samples.dayOf 2 [Samples.omelette]]) "milk".
Proof.
  assert (Hin : In (Planner.ShoppingItem.mk "milk" 3)
                   (Planner.shoppingItems
                      [Samples.dayOf 1 [Samples.oatmeal; Samples.curry];
                       Samples.dayOf 2 [Samples.omelette]])).
  { left. reflexivity. }
  split; [exact Hin|].
  exact (proj2 (proj2 (proj1 (proj2 (shopping_list_construction _)) _ Hin))).
Defined.

(** One meal with oats, milk and banana: three items of count 1, listed as
    they occur and not by name. *)
Lemma shopping_ties_not_alphabetical :
  Planner.shoppingItems [Samples.dayOf 1 [Samples.oatmeal]]
  = [Planner.ShoppingItem.mk "oats" 1; Planner.ShoppingItem.mk "milk" 1;
     Planner.ShoppingItem.mk "banana" 1]
  /\ ~ StronglySorted countThenName
         (Planner.shoppingItems [Samples.dayOf 1 [Samples.oatmeal]]).
Proof.
  split; [reflexivity|].
  intros S. inversion S as [|a l S' F]; subst.
  inversion F as [|b l' Hb F']; subst.
  destruct Hb as [Hlt | [_ Hle]]; simpl in *; [lia | discriminate Hle].
Qed.

Example shopping_sample :
  Planner.shoppingItems [Samples.dayOf 1 [Samples.oatmeal; Samples.curry];
                         Samples.dayOf 2 [Samples.omelette]]
  = [Planner.ShoppingItem.mk "milk" 3; Planner.ShoppingItem.mk "oats" 1;
     Planner.ShoppingItem.mk "banana" 1; Planner.ShoppingItem.mk "chickpeas" 1;
     Planner.ShoppingItem.mk "rice" 1; Planner.ShoppingItem.mk "eggs" 1].
Proof. reflexivity. Qed.

End ShoppingFacts.

(* ===================================================================== *)
(** * Replacing one meal *)
(* ===================================================================== *)

Section ReplaceFacts.
Import JS Api Props.

Lemma mapThrowing_Forall2 {A B : Type} (f : A -> option B) (l : list A) (l' : list B) :
  Planner.mapThrowing f l = Some l' -> Forall2 (fun x y => f x = Some y) l l'.
Proof.
  revert l'. induction l as [|x l IH]; intros l'; simpl.
  - intros E. inversion E. constructor.
  - destruct (f x) as [y|] eqn:Fx; [|discriminate].
    destruct (Planner.mapThrowing f l) as [ys|]; [|discriminate].
    intros E. inversion E; subst. constructor; [exact Fx | apply IH; reflexivity].
Qed.

Lemma definedMeals_frame (slot : option string) (newMeal : option Planner.Meal.t)
      (l ms : list Planner.Meal.t) :
  Planner.definedMeals
    (map (fun mm => if strictEq (Planner.slotKey mm) slot then newMeal else Some mm) l)
  = Some ms ->
  Forall2 (mealFrame slot newMeal) l ms.
Proof.
  revert ms. induction l as [|m l IH]; intros ms; simpl.
  - intros E. inversion E. constructor.
  - destruct (strictEq (Planner.slotKey m) slot) eqn:Hit.
    + destruct newMeal as [nm|]; [|discriminate].
      destruct (Planner.definedMeals _) as [r|]; [|discriminate].
      intros E. inversion E; subst.
      constructor; [unfold mealFrame; rewrite Hit; reflexivity | apply IH; reflexivity].
    + destruct (Planner.definedMeals _) as [r|]; [|discriminate].
      intros E. inversion E; subst.
      constructor; [unfold mealFrame; rewrite Hit; reflexivity | apply IH; reflexivity].
Qed.

Lemma updateDay_frame (activeDay : Z) (slot : option string)
      (newMeal : option Planner.Meal.t) (d d' : Planner.Day.t) :
  Planner.updateDay activeDay slot newMeal d = Some d' ->
  dayFrame activeDay slot newMeal d d'
  /\ (Planner.Day.day d = activeDay -> dayRecomputed d')
  /\ Planner.Day.day d' = Planner.Day.day d.
Proof.
  unfold Planner.updateDay, dayFrame.
  destruct (Z.eqb_spec (Planner.Day.day d) activeDay) as [Ea|Na]; simpl.
  - destruct (Planner.definedMeals _) as [ms|] eqn:D; [|discriminate].
    intros E. inversion E; subst d'; clear E. simpl.
    split; [|split; [|reflexivity]].
    + split; [reflexivity|]. apply definedMeals_frame. exact D.
    + intros _. reflexivity.
  - intros E. inversion E; subst.
    split; [reflexivity|]. split; [intros C; contradiction | reflexivity].
Qed.

(** What [handleReplace] does to a state that holds a plan: it fails and
    keeps [result], or it succeeds with new days, totals and list. *)
Lemma handleReplace_cases {R : Type} (st : Planner.State.t) (slot : option string)
      (target : Q) (excludeIds : list Z)
      (out : Outcome (ReplaceBody Planner.Meal.t R)) (p : Planner.Plan.t) :
  planOfState st = Some p ->
  (exists msg,
      Planner.State.error (Planner.handleReplace st slot target excludeIds out) = Some msg
      /\ Planner.State.result (Planner.handleReplace st slot target excludeIds out)
         = Planner.State.result st)
  \/ (exists newDays,
         replyFails out = false
         /\ Forall2 (fun d d' => Planner.updateDay (Planner.State.activeDay st) slot
                                                   (replyMeal out) d = Some d')
                    (daysOf p) newDays
         /\ Planner.State.error (Planner.handleReplace st slot target excludeIds out) = None
         /\ planOfState (Planner.handleReplace st slot target excludeIds out)
            = Some (Planner.Plan.mk
                      (Some newDays)
                      (Some (Planner.roundTotals (Planner.sumDays newDays)))
                      (Some (Planner.ShoppingList.mk
                               (List.length (Planner.shoppingItems newDays))
                               (Planner.shoppingItems newDays))))).
Proof.
  unfold planOfState, Planner.handleReplace.
  destruct (Planner.State.result st) as [r|]; [|discriminate].
  intros Hp. rewrite Hp.
  unfold Planner.replaceOutcome.
  destruct out as [m | ok code [m | data] | ok code]; simpl;
    try (left; eexists; split; reflexivity).
  destruct ok; simpl; [|left; eexists; split; reflexivity].
  destruct (isOk (status data)) eqn:Ok; simpl; [|left; eexists; split; reflexivity].
  destruct (Planner.mapThrowing _ _) as [newDays|] eqn:M; simpl;
    [|left; eexists; split; reflexivity].
  right. exists newDays. split; [reflexivity|].
  split; [apply mapThrowing_Forall2, M|]. split; reflexivity.
Qed.

Lemma Forall2_In_r {A B : Type} (P : A -> B -> Prop) (l : list A) (l' : list B) (y : B) :
  Forall2 P l l' -> In y l' -> exists x, In x l /\ P x y.
Proof.
  induction 1 as [|x y0 l l' Hxy F IH]; simpl; [tauto|].
  intros [->|Hin].
  - exists x. split; [left; reflexivity | exact Hxy].
  - destruct (IH Hin) as [x' [Hx' Px']]. exists x'. split; [right; exact Hx' | exact Px'].
Qed.

(** *** The meal-plan page *)

Lemma handleReplaceMeal_cases {M : Type} (st : MealPlan.State.t) (meal_number : Z)
      (out : Outcome (ReplaceBody M MealPlan.Replacement.t))
      (prev : MealPlan.MealPlanResponseOK.t) :
  planOfData st = Some prev ->
  (exists msg,
      MealPlan.replaceOutcome out = inl msg
      /\ MealPlan.State.err (MealPlan.handleReplaceMeal st meal_number out) = Some msg
      /\ MealPlan.State.data (MealPlan.handleReplaceMeal st meal_number out)
         = MealPlan.State.data st)
  \/ (exists rep,
         MealPlan.replaceOutcome out = inr rep
         /\ MealPlan.State.err (MealPlan.handleReplaceMeal st meal_number out) = None
         /\ planOfData (MealPlan.handleReplaceMeal st meal_number out)
            = Some (MealPlan.applyReplacement prev (MealPlan.State.activeDay st)
                                              meal_number rep)).
Proof.
  unfold planOfData, MealPlan.handleReplaceMeal.
  destruct (MealPlan.State.data st) as [[r|m]|]; try discriminate.
  intros E. inversion E; subst r; clear E.
  destruct (MealPlan.replaceOutcome out) as [msg|rep].
  - left. exists msg. repeat split.
  - right. exists rep. repeat split.
Qed.

(** *** The frame of a replacement *)

Lemma strictEq_eq (a b : option string) : strictEq a b = true -> a = b.
Proof.
  destruct a as [x|], b as [y|]; simpl; intros E; try discriminate; [|reflexivity].
  apply String.eqb_eq in E. congruence.
Qed.

Lemma Forall2_nth_error {A B : Type} (P : A -> B -> Prop) (l : list A) (l' : list B) :
  Forall2 P l l' ->
  forall i, match nth_error l i, nth_error l' i with
            | Some x, Some y => P x y
            | None, None => True
            | _, _ => False
            end.
Proof.
  induction 1 as [|x y l l' Hxy F IH]; intros [|i]; simpl; auto.
  apply IH.
Qed.




Lemma updateDayFromAPI_frame (activeDay meal_number : Z) (rep : MealPlan.Replacement.t)
      (ds : list MealPlan.DayFromAPI.t) :
  Forall2 (dayFromAPIFrame activeDay meal_number rep) ds
          (map (MealPlan.updateDay activeDay meal_number rep) ds).
Proof.
  induction ds as [|d ds IH]; simpl; constructor; [|exact IH].
  unfold dayFromAPIFrame, MealPlan.updateDay.
  destruct (Z.eqb_spec (MealPlan.DayFromAPI.day d) activeDay) as [Ea|Na]; simpl;
    [|reflexivity].
  split; [reflexivity|].
  induction (MealPlan.DayFromAPI.meals d) as [|m ms IHm]; simpl; constructor;
    [|exact IHm].
  unfold MealPlan.replaceIn.
  destruct (MealPlan.MealFromAPI.meal_number m =? meal_number); simpl;
    [repeat split | reflexivity].
Qed.


Example replacement_frame_sample :
  exists p',
    planOfState (Planner.handleReplace Samples.twoDays (Some "breakfast") 600 [7]
                                       Samples.mealReply) = Some p'
    /\ map (fun d => map Planner.Meal.name (mealsOf d)) (daysOf p')
       = [["Omelette"; "Chickpea curry"]; ["Chickpea curry"; "Oatmeal"]].
Proof.
  eexists. split; [vm_compute; reflexivity|]. reflexivity.
Qed.


Example total_unique_sample :
  exists p' sl,
    planOfState (Planner.handleReplace Samples.twoDays (Some "breakfast") 600 [7]
                                       Samples.mealReply) = Some p'
    /\ Planner.Plan.shopping_list p' = Some sl
    /\ Planner.ShoppingList.total_unique sl = 6%nat.
Proof.
  eexists. eexists. split; [vm_compute; reflexivity|]. split; reflexivity.
Qed.

(** *** Which keys of the reply are read *)

Lemma isOk_status (st : option string) : isOk st = true <-> st = Some "ok".
Proof.
  destruct st as [x|]; simpl; split; intros H; try discriminate.
  - apply String.eqb_eq in H. congruence.
  - inversion H. reflexivity.
Qed.

Lemma frame_meals_origin (activeDay : Z) (slot : option string)
      (newMeal : option Planner.Meal.t) (D D' : list Planner.Day.t) :
  Forall2 (dayFrame activeDay slot newMeal) D D' ->
  forall d' m', In d' D' -> In m' (mealsOf d') ->
    newMeal = Some m' \/ exists d, In d D /\ In m' (mealsOf d).
Proof.
  intros F d' m' Hd' Hm'.
  destruct (Forall2_In_r _ _ _ _ F Hd') as [d [Hd Fr]].
  unfold dayFrame in Fr.
  destruct (Planner.Day.day d =? activeDay).
  - destruct Fr as [_ Fm].
    destruct (Forall2_In_r _ _ _ _ Fm Hm') as [m [Hm Mf]].
    unfold mealFrame in Mf.
    destruct (strictEq (Planner.slotKey m) slot); [left; exact Mf|].
    subst m'. right. exists d. split; assumption.
  - subst d'. right. exists d. split; assumption.
Qed.

(** The meal-plan page holding a plan receives a good reply that carries
    the new meal under meal: it reports a failure and keeps its plan. *)
Lemma meal_plan_page_does_not_read_meal :
  replyFails Samples.mealReply = false
  /\ replyMeal Samples.mealReply = Some Samples.omelette
  /\ MealPlan.State.err (MealPlan.handleReplaceMeal Samples.mealPlanState 1 Samples.mealReply)
     = Some "No replacement returned"
  /\ MealPlan.State.data (MealPlan.handleReplaceMeal Samples.mealPlanState 1 Samples.mealReply)
     = MealPlan.State.data Samples.mealPlanState.
Proof.
  repeat split.
Qed.

Example meal_plan_page_reads_replacement :
  exists next,
    planOfData (MealPlan.handleReplaceMeal Samples.mealPlanState 1 Samples.replacementReply)
    = Some next
    /\ map MealPlan.MealFromAPI.recipe_name
           (flat_map MealPlan.DayFromAPI.meals (MealPlan.MealPlanResponseOK.plan next))
       = ["Omelette"].
Proof.
  eexists. split; reflexivity.
Qed.

End ReplaceFacts.

(* ===================================================================== *)
(** * Further properties: the progress bar and plan generation *)
(* ===================================================================== *)

Section GenerateFacts.
Import JS Api Props.

Lemma tick_bounds (p : Z) : 0 <= p <= 92 -> p <= PlannerView.tick p <= 92.
Proof.
  intros Hp. unfold PlannerView.tick, PlannerView.step.
  destruct (p <? 60); [|destruct (p <? 85)]; lia.
Qed.

Lemma tick_grows (p : Z) : 0 <= p < 92 -> p < PlannerView.tick p.
Proof.
  intros Hp. unfold PlannerView.tick, PlannerView.step.
  destruct (p <? 60); [|destruct (p <? 85)]; lia.
Qed.

Lemma progressAfter_bounds (n : nat) : 0 <= PlannerView.progressAfter n <= 92.
Proof.
  induction n as [|n IH]; simpl; [lia|].
  pose proof (tick_bounds _ IH). lia.
Qed.

Lemma progressAfter_early (n : nat) : (n < 24)%nat -> PlannerView.progressAfter n < 92.
Proof.
  intros Hn.
  do 24 (destruct n as [|n]; [vm_compute; reflexivity|]).
  lia.
Qed.

Lemma progressAfter_late (n : nat) : (24 <= n)%nat -> PlannerView.progressAfter n = 92.
Proof.
  induction n as [|n IH]; [lia|].
  intros Hn. destruct (Nat.eq_dec (S n) 24) as [E|NE].
  - rewrite E. vm_compute. reflexivity.
  - simpl. rewrite IH by lia. reflexivity.
Qed.

(** X1. While a plan is being generated the bar never moves backwards and
    never passes 92: it rises strictly for the first 24 steps of the timer,
    reaches 92 at the 24th and stays there, so only the arrival of the
    reply can show 100. *)
Theorem progress_rises_to_92 :
  forall n : nat,
    0 <= PlannerView.progressAfter n <= 92
    /\ PlannerView.progressAfter n <= PlannerView.progressAfter (S n)
    /\ ((n < 24)%nat -> PlannerView.progressAfter n < PlannerView.progressAfter (S n))
    /\ ((24 <= n)%nat -> PlannerView.progressAfter n = 92).
Proof.
  intros n. pose proof (progressAfter_bounds n) as B.
  split; [exact B|]. split; [|split].
  - simpl. apply tick_bounds, B.
  - intros Hn. simpl. apply tick_grows.
    pose proof (progressAfter_early n Hn). lia.
  - apply progressAfter_late.
Qed.

Lemma progress_rises_witness :
  PlannerView.progressAfter 10 = 60
  /\ PlannerView.progressAfter 23 < PlannerView.progressAfter 24
  /\ PlannerView.progressAfter 40 = 92.
Proof.
  split; [reflexivity|]. split.
  - apply (proj1 (proj2 (proj2 (progress_rises_to_92 23)))). lia.
  - apply (proj2 (proj2 (proj2 (progress_rises_to_92 40)))). lia.
Defined.

(** X2. A click on Generate while a request is running changes nothing.
    Otherwise, when the request has settled, loading is off and exactly one
    of result and error is held: a reply with a good HTTP status and status
    "ok" becomes the result, with day 1 selected, no error and the bar at
    100, whether or not it carries a plan; anything else clears the result,
    also a plan shown before, keeps the selected day, sets an error message
    and puts the bar back to 0.  A result without a plan shows no day and no
    error. *)
Theorem generate_holds_result_or_error :
  forall (pg : PlannerView.Page.t) (out : PlannerView.GenerateOutcome),
    (PlannerView.Page.loading pg = true -> PlannerView.handleGenerate pg out = pg)
    /\ (PlannerView.Page.loading pg = false ->
        PlannerView.Page.loading (PlannerView.handleGenerate pg out) = false
        /\ Planner.State.form (PlannerView.Page.state (PlannerView.handleGenerate pg out))
           = Planner.State.form (PlannerView.Page.state pg)
        /\ ((exists data,
                out = PlannerView.Replied true data
                /\ PlannerView.GenerateBody.status data = Some "ok"
                /\ PlannerView.Page.state (PlannerView.handleGenerate pg out)
                   = {| Planner.State.form := Planner.State.form (PlannerView.Page.state pg);
                        Planner.State.result :=
                          Some (Planner.Result.mk "ok" (PlannerView.GenerateBody.plan data));
                        Planner.State.activeDay := 1;
                        Planner.State.error := None |}
                /\ PlannerView.Page.progress (PlannerView.handleGenerate pg out) = 100
                /\ (PlannerView.GenerateBody.plan data = None ->
                    planOfState (PlannerView.Page.state (PlannerView.handleGenerate pg out))
                    = None
                    /\ PlannerView.activeDayObj
                         (PlannerView.Page.state (PlannerView.handleGenerate pg out))
                       = None))
            \/ (exists msg,
                   (forall data, out = PlannerView.Replied true data ->
                                 PlannerView.GenerateBody.status data <> Some "ok")
                   /\ Planner.State.error
                        (PlannerView.Page.state (PlannerView.handleGenerate pg out)) = Some msg
                   /\ Planner.State.result
                        (PlannerView.Page.state (PlannerView.handleGenerate pg out)) = None
                   /\ Planner.State.activeDay
                        (PlannerView.Page.state (PlannerView.handleGenerate pg out))
                      = Planner.State.activeDay (PlannerView.Page.state pg)
                   /\ PlannerView.Page.progress (PlannerView.handleGenerate pg out) = 0))).
Proof.
  intros pg out. unfold PlannerView.handleGenerate. split.
  - intros ->. reflexivity.
  - intros ->.
    destruct out as [nm msg | ok data]; simpl.
    + repeat split. right. eexists. repeat split. intros data E. discriminate E.
    + destruct ok; simpl.
      * destruct (isOk (PlannerView.GenerateBody.status data)) eqn:I; simpl.
        -- split; [reflexivity|]. split; [reflexivity|].
           left. exists data. split; [reflexivity|]. split.
           { destruct (PlannerView.GenerateBody.status data) as [s0|]; [|discriminate].
             simpl in I. apply String.eqb_eq in I. congruence. }
           split; [reflexivity|]. split; [reflexivity|].
           intros ->. split; reflexivity.
        -- repeat split. right. eexists. repeat split.
           intros d E S. inversion E; subst d. rewrite S in I. discriminate I.
      * repeat split. right. eexists. repeat split. intros d E. discriminate E.
Qed.

Lemma generate_witness :
  Planner.State.result
    (PlannerView.Page.state
       (PlannerView.handleGenerate
          (PlannerView.Page.mk Samples.twoDays false 0)
          (PlannerView.Threw (Some "AbortError") (Some "The user aborted a request."))))
  = None
  /\ PlannerView.handleGenerate
       (PlannerView.Page.mk Samples.twoDays true 30)
       (PlannerView.Threw None None)
     = PlannerView.Page.mk Samples.twoDays true 30.
Proof.
  split.
  - destruct (proj2 (generate_holds_result_or_error
                       (PlannerView.Page.mk Samples.twoDays false 0)
                       (PlannerView.Threw (Some "AbortError")
                                          (Some "The user aborted a request.")))
                    eq_refl)
      as [_ [_ [[data [E _]] | [msg [_ [_ [N _]]]]]]]; [discriminate E | exact N].
  - apply (proj1 (generate_holds_result_or_error _ _)). reflexivity.
Defined.

End GenerateFacts.

(* ===================================================================== *)
(** * Further properties: the day shown and the Replace button *)
(* ===================================================================== *)

Section CardFacts.
Import JS Api Props Props2.

Lemma days_daysOf (st : Planner.State.t) (p : Planner.Plan.t) :
  planOfState st = Some p -> PlannerView.days st = daysOf p.
Proof.
  unfold planOfState, PlannerView.days, daysOf.
  destruct (Planner.State.result st) as [r|]; [|discriminate].
  intros ->. reflexivity.
Qed.




Lemma untouched_days (activeDay : Z) (slot : option string)
      (newMeal : option Planner.Meal.t) (ds newDays : list Planner.Day.t) :
  Forall2 (fun d d' => Planner.updateDay activeDay slot newMeal d = Some d') ds newDays ->
  (forall d, In d ds -> Planner.Day.day d <> activeDay) ->
  newDays = ds.
Proof.
  induction 1 as [|d d' ds newDays U F IH]; intros Hne; [reflexivity|].
  f_equal.
  - unfold Planner.updateDay in U.
    destruct (Z.eqb_spec (Planner.Day.day d) activeDay) as [E|_].
    + elim (Hne d (or_introl eq_refl) E).
    + simpl in U. congruence.
  - apply IH. intros x Hx. apply Hne. right. exact Hx.
Qed.

(** X4. When no day of the plan has the selected number the card shown
    belongs to the first day, but its Replace button changes no day of the
    plan: the request names the selected day, and a good reply, with or
    without a meal, leaves the list of days as it was. *)
Theorem replace_on_unselected_plan_changes_no_day :
  forall (R : Type) (st : Planner.State.t) (meal : Planner.Meal.t)
         (out : Outcome (ReplaceBody Planner.Meal.t R)) (p : Planner.Plan.t),
    planOfState st = Some p ->
    (forall d, In d (daysOf p) -> Planner.Day.day d <> Planner.State.activeDay st) ->
    (exists req, Planner.mealCardRequest st meal = Some req
                 /\ ~ In (Planner.ReplacePayload.day req) (dayNumbers (daysOf p)))
    /\ (replyFails out = false ->
        Planner.State.error (PlannerView.clickReplace st meal out) = None
        /\ exists p', planOfState (PlannerView.clickReplace st meal out) = Some p'
                      /\ daysOf p' = daysOf p).
Proof.
  intros R st meal out p Hp Hne. split.
  - unfold Planner.mealCardRequest. unfold planOfState in Hp.
    destruct (Planner.State.result st) as [r|]; [|discriminate].
    rewrite Hp. eexists. split; [reflexivity|]. simpl.
    intros Hin. apply in_map_iff in Hin. destruct Hin as [d [E Hd]].
    apply (Hne d Hd E).
  - intros Ok. unfold PlannerView.clickReplace.
    destruct (handleReplace_cases st (Planner.slotKey meal)
                (Planner.Meal.target_calories meal) [Planner.Meal.recipe_id meal] out p Hp)
      as [[msg [E Same]] | [newDays [_ [F [E Hp']]]]].
    + exfalso. revert E. unfold Planner.handleReplace. unfold planOfState in Hp.
      destruct (Planner.State.result st) as [r|]; [|discriminate].
      rewrite Hp. unfold Planner.replaceOutcome.
      destruct out as [m | ok code [m | data] | ok code];
        [discriminate Ok | destruct ok; discriminate Ok | | discriminate Ok].
      destruct ok; [|discriminate Ok]. simpl in Ok.
      apply negb_false_iff in Ok. rewrite Ok. simpl.
      assert (M : Planner.mapThrowing
                    (Planner.updateDay (Planner.State.activeDay st)
                                       (Planner.slotKey meal) (Api.meal data))
                    (nullish (Planner.Plan.days p) [])
                  = Some (nullish (Planner.Plan.days p) [])).
      { fold (daysOf p). clear - Hne.
        induction (daysOf p) as [|d ds IH]; [reflexivity|].
        cbn [Planner.mapThrowing]. unfold Planner.updateDay at 1.
        destruct (Z.eqb_spec (Planner.Day.day d) (Planner.State.activeDay st)) as [E|_];
          [elim (Hne d (or_introl eq_refl) E)|].
        simpl. rewrite IH; [reflexivity|].
        intros x Hx. apply Hne. right. exact Hx. }
      rewrite M. discriminate.
    + split; [exact E|]. eexists. split; [exact Hp'|].
      unfold daysOf at 1. simpl. apply (untouched_days _ _ _ _ _ F Hne).
Qed.

Lemma replace_on_unselected_witness :
  planOfState Samples2.daySelectedAway
  = Some (Samples.planOf [Samples.dayOf 1 [Samples.oatmeal; Samples.curry];
                          Samples.dayOf 2 [Samples.curry; Samples.oatmeal]])
  /\ PlannerView.activeDayObj Samples2.daySelectedAway
     = Some (Samples.dayOf 1 [Samples.oatmeal; Samples.curry])
  /\ exists p',
       planOfState (PlannerView.clickReplace Samples2.daySelectedAway Samples.oatmeal
                                             Samples.mealReply) = Some p'
       /\ daysOf p' = [Samples.dayOf 1 [Samples.oatmeal; Samples.curry];
                       Samples.dayOf 2 [Samples.curry; Samples.oatmeal]].
Proof.
  split; [reflexivity|]. split; [reflexivity|].
  destruct (replace_on_unselected_plan_changes_no_day
              MealPlan.Replacement.t Samples2.daySelectedAway Samples.oatmeal
              Samples.mealReply _ eq_refl) as [_ Keep].
  - intros d [<-|[<-|[]]]; simpl; discriminate.
  - destruct (Keep eq_refl) as [_ [p' [Hp' Ed]]].
    exists p'. split; [exact Hp' | exact Ed].
Defined.

Lemma strictEq_refl (a : option string) : strictEq a a = true.
Proof.
  destruct a as [x|]; simpl; [apply String.eqb_refl | reflexivity].
Qed.

Lemma strictEq_neq (a b : option string) : a <> b -> strictEq a b = false.
Proof.
  intros N. destruct (strictEq a b) eqn:E; [|reflexivity].
  apply strictEq_eq in E. contradiction.
Qed.

(** What [handleReplace] does after a good reply, by what the map over the
    days does. *)
Lemma handleReplace_after_good_reply {R : Type} (st : Planner.State.t)
      (slot : option string) (target : Q) (excludeIds : list Z)
      (out : Outcome (ReplaceBody Planner.Meal.t R)) (p : Planner.Plan.t) :
  planOfState st = Some p ->
  replyFails out = false ->
  match Planner.mapThrowing
          (Planner.updateDay (Planner.State.activeDay st) slot (replyMeal out)) (daysOf p)
  with
  | Some newDays =>
      Planner.State.error (Planner.handleReplace st slot target excludeIds out) = None
      /\ planOfState (Planner.handleReplace st slot target excludeIds out)
         = Some (Planner.Plan.mk
                   (Some newDays)
                   (Some (Planner.roundTotals (Planner.sumDays newDays)))
                   (Some (Planner.ShoppingList.mk
                            (List.length (Planner.shoppingItems newDays))
                            (Planner.shoppingItems newDays))))
  | None =>
      Planner.State.error (Planner.handleReplace st slot target excludeIds out)
      = Some Planner.typeErrorMessage
      /\ Planner.State.result (Planner.handleReplace st slot target excludeIds out)
         = Planner.State.result st
  end.
Proof.
  unfold planOfState, Planner.handleReplace, daysOf.
  destruct (Planner.State.result st) as [r|]; [|discriminate].
  intros Hp Ok. rewrite Hp. unfold Planner.replaceOutcome.
  destruct out as [m | ok code [m | data] | ok code];
    [discriminate Ok | destruct ok; discriminate Ok | | discriminate Ok].
  destruct ok; [|discriminate Ok]. simpl in Ok.
  apply negb_false_iff in Ok. rewrite Ok. simpl.
  destruct (Planner.mapThrowing _ _); simpl; split; reflexivity.
Qed.

(** X5. A successful click on Replace on a card of a day with the selected
    number puts the meal of the reply, and nothing else, in the place of that
    card's meal. *)
Theorem replace_puts_reply_meal_on_card :
  forall (R : Type) (st : Planner.State.t) (d : Planner.Day.t) (m : Planner.Meal.t)
         (i j : nat) (out : Outcome (ReplaceBody Planner.Meal.t R)) (p : Planner.Plan.t),
    planOfState st = Some p ->
    nth_error (daysOf p) i = Some d ->
    Planner.Day.day d = Planner.State.activeDay st ->
    nth_error (mealsOf d) j = Some m ->
    Planner.State.error (PlannerView.clickReplace st m out) = None ->
    exists p' nm,
      planOfState (PlannerView.clickReplace st m out) = Some p'
      /\ replyMeal out = Some nm
      /\ mealAt (daysOf p') i j = Some nm.
Proof.
  intros R st d m i j out p Hp Hd Ea Hm Herr. unfold PlannerView.clickReplace in *.
  destruct (handleReplace_cases st (Planner.slotKey m) (Planner.Meal.target_calories m)
              [Planner.Meal.recipe_id m] out p Hp)
    as [[msg [E _]] | [newDays [_ [F [_ Hp']]]]]; [congruence|].
  pose proof (Forall2_nth_error _ _ _ F i) as Hi. rewrite Hd in Hi.
  destruct (nth_error newDays i) as [d'|] eqn:Hd'; [|contradiction].
  apply updateDay_frame in Hi. destruct Hi as [Fr _].
  unfold dayFrame in Fr. rewrite Ea, Z.eqb_refl in Fr. destruct Fr as [_ Fm].
  pose proof (Forall2_nth_error _ _ _ Fm j) as Hj. rewrite Hm in Hj.
  destruct (nth_error (mealsOf d') j) as [m'|] eqn:Hm'; [|contradiction].
  unfold mealFrame in Hj. rewrite strictEq_refl in Hj.
  eexists. exists m'. split; [exact Hp'|]. split; [exact Hj|].
  unfold mealAt, daysOf. simpl. rewrite Hd'. exact Hm'.
Qed.

Lemma replace_puts_reply_meal_witness :
  exists p',
    planOfState (PlannerView.clickReplace Samples.twoDays Samples.oatmeal Samples.mealReply)
    = Some p'
    /\ mealAt (daysOf p') 0 0 = Some Samples.omelette.
Proof.
  destruct (replace_puts_reply_meal_on_card
              MealPlan.Replacement.t Samples.twoDays
              (Samples.dayOf 1 [Samples.oatmeal; Samples.curry]) Samples.oatmeal
              0%nat 0%nat Samples.mealReply _ eq_refl eq_refl eq_refl eq_refl)
    as [p' [nm [Hp' [Hn Hm]]]].
  - vm_compute. reflexivity.
  - exists p'. split; [exact Hp'|].
    rewrite Hm. rewrite <- Hn. reflexivity.
Defined.

Lemma frame_shape (activeDay : Z) (slot : option string)
      (newMeal : option Planner.Meal.t) (ds newDays : list Planner.Day.t) :
  Forall2 (fun d d' => Planner.updateDay activeDay slot newMeal d = Some d') ds newDays ->
  dayNumbers newDays = dayNumbers ds /\ mealCounts newDays = mealCounts ds.
Proof.
  induction 1 as [|d d' ds newDays U F [IHn IHc]]; [split; reflexivity|].
  apply updateDay_frame in U. destruct U as [Fr [_ Ed]].
  unfold dayNumbers, mealCounts in *. simpl. rewrite IHn, IHc, Ed.
  split; [reflexivity|]. f_equal.
  unfold dayFrame in Fr.
  destruct (Planner.Day.day d =? activeDay); [|subst d'; reflexivity].
  destruct Fr as [_ Fm]. symmetry. apply (Forall2_length Fm).
Qed.

(** X6. A successful replacement keeps the shape of the plan: the same days
    with the same numbers in the same order, and in each day the same number
    of meals. *)
Theorem replacement_keeps_plan_shape :
  forall (R : Type) (st : Planner.State.t) (slot : option string) (target : Q)
         (excludeIds : list Z) (out : Outcome (ReplaceBody Planner.Meal.t R))
         (p : Planner.Plan.t),
    planOfState st = Some p ->
    Planner.State.error (Planner.handleReplace st slot target excludeIds out) = None ->
    exists p',
      planOfState (Planner.handleReplace st slot target excludeIds out) = Some p'
      /\ dayNumbers (daysOf p') = dayNumbers (daysOf p)
      /\ mealCounts (daysOf p') = mealCounts (daysOf p).
Proof.
  intros R st slot target excludeIds out p Hp Herr.
  destruct (handleReplace_cases st slot target excludeIds out p Hp)
    as [[msg [E _]] | [newDays [_ [F [_ Hp']]]]]; [congruence|].
  eexists. split; [exact Hp'|].
  unfold daysOf at 1 3. simpl. apply (frame_shape _ _ _ _ _ F).
Qed.

Lemma replacement_keeps_shape_witness :
  exists p',
    planOfState (Planner.handleReplace Samples.twoDays (Some "breakfast") 600 [7]
                                       Samples.mealReply) = Some p'
    /\ dayNumbers (daysOf p') = [1; 2]
    /\ mealCounts (daysOf p') = [2%nat; 2%nat].
Proof.
  destruct (replacement_keeps_plan_shape
              MealPlan.Replacement.t Samples.twoDays (Some "breakfast") 600%Q [7]
              Samples.mealReply _ eq_refl)
    as [p' [Hp' [En Ec]]].
  - vm_compute. reflexivity.
  - exists p'. split; [exact Hp'|]. split; [rewrite En | rewrite Ec]; reflexivity.
Defined.

Lemma unmatched_day (activeDay : Z) (slot : option string)
      (newMeal : option Planner.Meal.t) (d : Planner.Day.t) :
  (Planner.Day.day d = activeDay ->
   forall m, In m (mealsOf d) -> Planner.slotKey m <> slot) ->
  exists d', Planner.updateDay activeDay slot newMeal d = Some d'
             /\ mealsOf d' = mealsOf d.
Proof.
  intros Hno. unfold Planner.updateDay.
  destruct (Z.eqb_spec (Planner.Day.day d) activeDay) as [Ea|_]; simpl;
    [|exists d; split; reflexivity].
  specialize (Hno Ea). fold (mealsOf d).
  assert (D : Planner.definedMeals
                (map (fun mm => if strictEq (Planner.slotKey mm) slot then newMeal
                                else Some mm) (mealsOf d))
              = Some (mealsOf d)).
  { induction (mealsOf d) as [|m ms IH]; [reflexivity|].
    simpl. rewrite (strictEq_neq _ _ (Hno m (or_introl eq_refl))).
    rewrite IH; [reflexivity|]. intros x Hx. apply Hno. right. exact Hx. }
  rewrite D. eexists. split; reflexivity.
Qed.

(** X7. A good reply that lacks the key meal: when some meal of a day with
    the selected number sits in the targeted slot, the handler throws on the
    missing meal, reports an error and keeps the plan; when
    no meal of such a day sits there, the call succeeds and every day keeps
    its meals. *)
Theorem reply_without_meal :
  forall (R : Type) (st : Planner.State.t) (slot : option string) (target : Q)
         (excludeIds : list Z) (out : Outcome (ReplaceBody Planner.Meal.t R))
         (p : Planner.Plan.t),
    planOfState st = Some p ->
    replyFails out = false ->
    replyMeal out = None ->
    ((exists d m, In d (daysOf p) /\ Planner.Day.day d = Planner.State.activeDay st
                  /\ In m (mealsOf d) /\ Planner.slotKey m = slot) ->
     Planner.State.error (Planner.handleReplace st slot target excludeIds out) <> None
     /\ Planner.State.result (Planner.handleReplace st slot target excludeIds out)
        = Planner.State.result st)
    /\ ((forall d m, In d (daysOf p) -> Planner.Day.day d = Planner.State.activeDay st ->
                     In m (mealsOf d) -> Planner.slotKey m <> slot) ->
        Planner.State.error (Planner.handleReplace st slot target excludeIds out) = None
        /\ exists p',
             planOfState (Planner.handleReplace st slot target excludeIds out) = Some p'
             /\ map mealsOf (daysOf p') = map mealsOf (daysOf p)).
Proof.
  intros R st slot target excludeIds out p Hp Ok Hnm.
  pose proof (handleReplace_after_good_reply st slot target excludeIds out p Hp Ok) as H.
  split.
  - intros [d [m [Hd [Ea [Hm Ek]]]]].
    destruct (Planner.mapThrowing _ _) as [newDays|] eqn:M;
      [exfalso | destruct H as [E Same]; split; [congruence | exact Same]].
    apply mapThrowing_Forall2 in M.
    destruct (In_nth_error _ _ Hd) as [i Hi].
    pose proof (Forall2_nth_error _ _ _ M i) as Fi. rewrite Hi in Fi.
    destruct (nth_error newDays i) as [d'|]; [|contradiction].
    apply updateDay_frame in Fi. destruct Fi as [Fr _].
    unfold dayFrame in Fr. rewrite Ea, Z.eqb_refl in Fr. destruct Fr as [_ Fm].
    destruct (In_nth_error _ _ Hm) as [j Hj].
    pose proof (Forall2_nth_error _ _ _ Fm j) as Fj. rewrite Hj in Fj.
    destruct (nth_error (mealsOf d') j) as [m'|]; [|contradiction].
    unfold mealFrame in Fj. rewrite Ek, strictEq_refl, Hnm in Fj. discriminate Fj.
  - intros Hno.
    assert (M : exists newDays,
               Planner.mapThrowing
                 (Planner.updateDay (Planner.State.activeDay st) slot (replyMeal out))
                 (daysOf p) = Some newDays
               /\ map mealsOf newDays = map mealsOf (daysOf p)).
    { clear H. induction (daysOf p) as [|d ds IH]; [exists []; split; reflexivity|].
      destruct (unmatched_day (Planner.State.activeDay st) slot (replyMeal out) d)
        as [d' [U Em]]; [intros Ea m Hm; apply (Hno d m (or_introl eq_refl) Ea Hm)|].
      destruct IH as [ds' [M Ems]]; [intros x m Hx; apply Hno; right; exact Hx|].
      exists (d' :: ds'). simpl. rewrite U, M, Em, Ems. split; reflexivity. }
    destruct M as [newDays [M Em]]. rewrite M in H. destruct H as [E Hp'].
    split; [exact E|]. eexists. split; [exact Hp'|]. exact Em.
Qed.

Lemma reply_without_meal_witness :
  Planner.State.error
    (Planner.handleReplace Samples.twoDays (Some "breakfast") 600 [7] Samples2.emptyOkReply)
  <> None
  /\ Planner.State.error
       (Planner.handleReplace Samples.twoDays (Some "dinner") 600 [7] Samples2.emptyOkReply)
     = None.
Proof.
  destruct (reply_without_meal MealPlan.Replacement.t Samples.twoDays (Some "breakfast")
              600%Q [7] Samples2.emptyOkReply _ eq_refl eq_refl eq_refl) as [Throw _].
  destruct (reply_without_meal MealPlan.Replacement.t Samples.twoDays (Some "dinner")
              600%Q [7] Samples2.emptyOkReply _ eq_refl eq_refl eq_refl) as [_ Pass].
  split.
  - apply Throw. exists (Samples.dayOf 1 [Samples.oatmeal; Samples.curry]), Samples.oatmeal.
    repeat split; simpl; tauto.
  - apply Pass.
    intros d m [<-|[<-|[]]] _ [<-|[<-|[]]]; simpl; discriminate.
Defined.

End CardFacts.

(* ===================================================================== *)
(** * Further properties: repeating a replacement *)
(* ===================================================================== *)

Section RepeatFacts.
Import JS Api Props Props2.

Lemma settled_meals (slot : option string) (newMeal : option Planner.Meal.t)
      (l ms : list Planner.Meal.t) :
  Forall2 (mealFrame slot newMeal) l ms ->
  Planner.definedMeals
    (map (fun mm => if strictEq (Planner.slotKey mm) slot then newMeal else Some mm) ms)
  = Some ms.
Proof.
  induction 1 as [|m m' l ms Fr F IH]; [reflexivity|].
  simpl. rewrite IH.
  unfold mealFrame in Fr.
  destruct (strictEq (Planner.slotKey m) slot) eqn:Hit.
  - subst newMeal. destruct (strictEq (Planner.slotKey m') slot); reflexivity.
  - subst m'. rewrite Hit. reflexivity.
Qed.

Lemma updateDay_settled (activeDay : Z) (slot : option string)
      (newMeal : option Planner.Meal.t) (d d' : Planner.Day.t) :
  Planner.updateDay activeDay slot newMeal d = Some d' ->
  Planner.updateDay activeDay slot newMeal d' = Some d'.
Proof.
  intros U. pose proof U as U0. unfold Planner.updateDay in U.
  destruct (Z.eqb_spec (Planner.Day.day d) activeDay) as [Ea|Na]; simpl in U.
  - destruct (Planner.definedMeals _) as [ms|] eqn:D; [|discriminate].
    inversion U; subst d'; clear U.
    unfold Planner.updateDay. cbn [Planner.Day.day Planner.Day.meals nullish].
    rewrite Ea, Z.eqb_refl. simpl.
    rewrite (settled_meals slot newMeal _ ms (definedMeals_frame _ _ _ _ D)).
    reflexivity.
  - inversion U; subst d'. exact U0.
Qed.

Lemma mapThrowing_settled {A : Type} (f : A -> option A) (l l' : list A) :
  (forall x y, f x = Some y -> f y = Some y) ->
  Planner.mapThrowing f l = Some l' -> Planner.mapThrowing f l' = Some l'.
Proof.
  intros Hf. revert l'. induction l as [|x l IH]; intros l'; simpl.
  - intros E. inversion E. reflexivity.
  - destruct (f x) as [y|] eqn:Fx; [|discriminate].
    destruct (Planner.mapThrowing f l) as [ys|]; [|discriminate].
    intros E. inversion E; subst l'. simpl.
    rewrite (Hf x y Fx), (IH ys eq_refl). reflexivity.
Qed.

Lemma replaceIn_settled (n : Z) (rep : MealPlan.Replacement.t) (m : MealPlan.MealFromAPI.t) :
  MealPlan.replaceIn n rep (MealPlan.replaceIn n rep m) = MealPlan.replaceIn n rep m.
Proof.
  unfold MealPlan.replaceIn.
  destruct (MealPlan.MealFromAPI.meal_number m =? n) eqn:E; simpl; rewrite E; reflexivity.
Qed.

Lemma updateDayFromAPI_settled (activeDay n : Z) (rep : MealPlan.Replacement.t)
      (d : MealPlan.DayFromAPI.t) :
  MealPlan.updateDay activeDay n rep (MealPlan.updateDay activeDay n rep d)
  = MealPlan.updateDay activeDay n rep d.
Proof.
  unfold MealPlan.updateDay.
  destruct (MealPlan.DayFromAPI.day d =? activeDay) eqn:E; simpl; rewrite E; simpl;
    [|reflexivity].
  rewrite map_map.
  rewrite (map_ext _ _ (replaceIn_settled n rep)). reflexivity.
Qed.

(** X8. Handling the same reply a second time changes nothing more, in
    either page: the state after two runs of the handler is the state after
    one, plan, totals, shopping list and error message included. *)
Theorem replacement_is_idempotent :
  (forall (R : Type) (st : Planner.State.t) (slot : option string) (target : Q)
          (excludeIds : list Z) (out : Outcome (ReplaceBody Planner.Meal.t R)),
      Planner.handleReplace (Planner.handleReplace st slot target excludeIds out)
                            slot target excludeIds out
      = Planner.handleReplace st slot target excludeIds out)
  /\ (forall (M : Type) (st : MealPlan.State.t) (meal_number : Z)
             (out : Outcome (ReplaceBody M MealPlan.Replacement.t)),
         MealPlan.handleReplaceMeal (MealPlan.handleReplaceMeal st meal_number out)
                                    meal_number out
         = MealPlan.handleReplaceMeal st meal_number out).
Proof.
  split.
  - intros R st slot target excludeIds out.
    unfold Planner.handleReplace at 2 3.
    destruct (Planner.State.result st) as [r|] eqn:Hr;
      [|unfold Planner.handleReplace; rewrite Hr; reflexivity].
    destruct (Planner.Result.plan r) as [p|] eqn:Hp;
      [|unfold Planner.handleReplace; rewrite Hr, Hp; reflexivity].
    unfold Planner.replaceOutcome.
    destruct out as [m | ok code [m | data] | ok code];
      try (unfold Planner.handleReplace; simpl; rewrite ?Hr, ?Hp; reflexivity).
    destruct (negb ok || negb (isOk (status data))) eqn:Bad;
      [unfold Planner.handleReplace; simpl; rewrite ?Hr, ?Hp; simpl; rewrite Bad;
       reflexivity|].
    destruct (Planner.mapThrowing _ _) as [newDays|] eqn:M;
      [|unfold Planner.handleReplace; simpl; rewrite ?Hr, ?Hp; simpl; rewrite Bad, M;
        reflexivity].
    unfold Planner.handleReplace. simpl. rewrite Bad.
    rewrite (mapThrowing_settled _ _ _
               (updateDay_settled (Planner.State.activeDay st) slot (meal data)) M).
    reflexivity.
  - intros M st n out.
    unfold MealPlan.handleReplaceMeal at 2 3.
    destruct (MealPlan.State.data st) as [[prev|e]|] eqn:Hd;
      try (unfold MealPlan.handleReplaceMeal; rewrite Hd; reflexivity).
    destruct (MealPlan.replaceOutcome out) as [msg|rep] eqn:O.
    + unfold MealPlan.handleReplaceMeal. simpl. rewrite ?Hd, O. reflexivity.
    + unfold MealPlan.handleReplaceMeal. simpl. rewrite O.
      unfold MealPlan.applyReplacement. simpl.
      rewrite map_map.
      rewrite (map_ext _ _ (updateDayFromAPI_settled (MealPlan.State.activeDay st) n rep)).
      reflexivity.
Qed.

Example replacement_twice_sample :
  planOfState
    (Planner.handleReplace
       (Planner.handleReplace Samples.twoDays (Some "breakfast") 600 [7] Samples.mealReply)
       (Some "breakfast") 600 [7] Samples.mealReply)
  = planOfState
      (Planner.handleReplace Samples.twoDays (Some "breakfast") 600 [7] Samples.mealReply).
Proof. vm_compute. reflexivity. Qed.

End RepeatFacts.

(* ===================================================================== *)
(** * Further properties: the shopping list and its display *)
(* ===================================================================== *)

Section ListFacts.
Import JS Props Props2.








(** *** Tokens are canonical *)

Lemma lowerChar_idempotent (c : ascii) : lowerChar (lowerChar c) = lowerChar c.
Proof.
  destruct c as [[] [] [] [] [] [] [] []]; reflexivity.
Qed.

Lemma lowerChar_white (c : ascii) : isWhite (lowerChar c) = isWhite c.
Proof.
  destruct c as [[] [] [] [] [] [] [] []]; reflexivity.
Qed.

Lemma toLowerCase_idempotent (s : string) : toLowerCase (toLowerCase s) = toLowerCase s.
Proof.
  induction s as [|c s IH]; simpl; [reflexivity|].
  rewrite lowerChar_idempotent, IH. reflexivity.
Qed.

Lemma toLowerCase_starts (s : string) : startsWhite (toLowerCase s) = startsWhite s.
Proof.
  destruct s as [|c s]; simpl; [reflexivity | apply lowerChar_white].
Qed.

Lemma toLowerCase_ends (s : string) : endsWhite (toLowerCase s) = endsWhite s.
Proof.
  induction s as [|c s IH]; [reflexivity|].
  destruct s as [|c2 s]; [simpl; apply lowerChar_white|].
  change (endsWhite (toLowerCase (String c2 s)) = endsWhite (String c2 s)).
  exact IH.
Qed.

Lemma trimEnd_fixed (s : string) : endsWhite s = false -> trimEnd s = s.
Proof.
  induction s as [|c s IH]; [reflexivity|].
  destruct s as [|c2 s].
  - simpl. intros ->. reflexivity.
  - intros E. change (endsWhite (String c2 s) = false) in E.
    change (trimEnd (String c (String c2 s)))
      with (match trimEnd (String c2 s) with
            | EmptyString => if isWhite c then EmptyString else String c EmptyString
            | t => String c t
            end).
    rewrite (IH E). reflexivity.
Qed.

Lemma trim_fixed (s : string) :
  startsWhite s = false -> endsWhite s = false -> trim s = s.
Proof.
  intros Hs He. unfold trim.
  assert (T : trimStart s = s).
  { destruct s as [|c s]; [reflexivity|]. simpl in *. rewrite Hs. reflexivity. }
  rewrite T. apply trimEnd_fixed, He.
Qed.

Lemma token_idempotent (s : string) : Planner.token (Planner.token s) = Planner.token s.
Proof.
  unfold Planner.token.
  destruct (trim_clean s) as [Hs He].
  rewrite trim_fixed.
  - apply toLowerCase_idempotent.
  - rewrite toLowerCase_starts. exact Hs.
  - rewrite toLowerCase_ends. exact He.
Qed.

(** X12. The key under which an ingredient is counted is canonical:
    trimming and lower-casing it again gives the same key, and so every name
    in the shopping list is its own key. *)
Theorem shopping_names_are_canonical :
  (forall s : string, Planner.token (Planner.token s) = Planner.token s)
  /\ (forall (ds : list Planner.Day.t) (it : Planner.ShoppingItem.t),
         In it (Planner.shoppingItems ds) ->
         Planner.token (Planner.ShoppingItem.ingredient it)
         = Planner.ShoppingItem.ingredient it).
Proof.
  split; [exact token_idempotent|].
  intros ds it Hit. unfold Planner.shoppingItems in Hit.
  apply in_map_iff in Hit. destruct Hit as [e [<- He]].
  apply (Permutation_in _ (sort_perm _ _)) in He.
  rewrite countPlan_entries in He.
  apply in_map_iff in He. destruct He as [k [<- Hk]]. simpl.
  apply (proj1 (distinct_In _ _)), planTokens_nonempty in Hk.
  destruct Hk as [_ [ing [_ ->]]]. apply token_idempotent.
Qed.

End ListFacts.

(* ===================================================================== *)
(** * Further properties: allergies from the form to the chip and back *)
(* ===================================================================== *)

Section AllergyFacts.
Import JS Props Props2.

Lemma splitComma_noComma (s : string) :
  Forall (fun t => noComma t = true) (splitComma s).
Proof.
  induction s as [|c s IH]; [repeat constructor|].
  cbn [splitComma].
  destruct (Ascii.eqb c ","%char) eqn:E.
  - constructor; [reflexivity | exact IH].
  - destruct (splitComma s) as [|h t]; [repeat constructor; simpl; rewrite E; reflexivity|].
    inversion IH as [|? ? Hh Ht]; subst.
    constructor; [simpl; rewrite E, Hh; reflexivity | exact Ht].
Qed.

Lemma trimStart_noComma (s : string) : noComma s = true -> noComma (trimStart s) = true.
Proof.
  induction s as [|c s IH]; [reflexivity|].
  intros H. simpl. destruct (isWhite c); [|exact H].
  simpl in H. apply andb_true_iff in H. apply IH, H.
Qed.

Lemma trimEnd_noComma (s : string) : noComma s = true -> noComma (trimEnd s) = true.
Proof.
  induction s as [|c s IH]; [reflexivity|].
  intros H. simpl in H. apply andb_true_iff in H. destruct H as [Hc Hs].
  simpl. specialize (IH Hs).
  destruct (trimEnd s) as [|c2 t].
  - destruct (isWhite c); [reflexivity | simpl; rewrite Hc; reflexivity].
  - simpl in *. rewrite Hc, IH. reflexivity.
Qed.

Lemma allergyList_tokens (text : string) :
  Forall (fun t => cleanToken t /\ noComma t = true) (Planner.allergyList text).
Proof.
  unfold Planner.allergyList. apply Forall_forall. intros a Ha.
  apply filter_In in Ha. destruct Ha as [Hin Ht].
  apply in_map_iff in Hin. destruct Hin as [raw [<- Hraw]].
  split.
  - split; [apply truthy_nonempty, Ht | apply trim_clean].
  - unfold trim. apply trimEnd_noComma, trimStart_noComma.
    apply (proj1 (Forall_forall _ _) (splitComma_noComma text) raw Hraw).
Qed.

Lemma splitComma_single (s : string) : noComma s = true -> splitComma s = [s].
Proof.
  induction s as [|c s IH]; [reflexivity|].
  intros H. simpl in H. apply andb_true_iff in H. destruct H as [Hc Hs].
  cbn [splitComma]. apply negb_true_iff in Hc. rewrite Hc, (IH Hs). reflexivity.
Qed.

Lemma splitComma_app (s r : string) :
  noComma s = true -> splitComma (s ++ String "," r) = s :: splitComma r.
Proof.
  induction s as [|c s IH]; [reflexivity|].
  intros H. simpl in H. apply andb_true_iff in H. destruct H as [Hc Hs].
  simpl. apply negb_true_iff in Hc. rewrite Hc, (IH Hs). reflexivity.
Qed.

Lemma splitComma_joinCommaSpace (x : string) (rest : list string) :
  Forall (fun t => noComma t = true) (x :: rest) ->
  splitComma (MealPlanView.joinCommaSpace (x :: rest))
  = x :: map (String " ") rest.
Proof.
  revert x. induction rest as [|y rest IH]; intros x F.
  - inversion F; subst. apply splitComma_single. assumption.
  - inversion F as [|? ? Hx F']; subst.
    change (MealPlanView.joinCommaSpace (x :: y :: rest))
      with (x ++ String "," (String " " (MealPlanView.joinCommaSpace (y :: rest)))).
    rewrite (splitComma_app _ _ Hx). f_equal.
    cbn [splitComma]. change (Ascii.eqb " " ",") with false. cbv iota.
    rewrite (IH y F'). reflexivity.
Qed.

Lemma renormalised (l : list string) :
  Forall (fun t => cleanToken t /\ noComma t = true) l ->
  filter truthy (map trim l) = l
  /\ filter truthy (map trim (map (String " ") l)) = l.
Proof.
  induction 1 as [|t l [[Hne [Hs He]] _] F [IH1 IH2]]; [split; reflexivity|].
  assert (T : trim t = t) by (apply trim_fixed; assumption).
  assert (T' : trim (String " " t) = t) by exact T.
  assert (Tr : truthy t = true) by (apply truthy_nonempty, Hne).
  simpl map. rewrite T, T'. simpl. rewrite Tr, IH1, IH2. split; reflexivity.
Qed.

(** X13. The allergies chip of the meal-plan page prints the list joined by
    a comma and a space; typed back into the allergies field of the planner
    such a text is sent as the same list.  The chip prints None for an empty
    list, and that text would be sent as the one allergy "None". *)
Theorem allergies_survive_the_chip :
  forall (text : string) (req : MealPlan.MealPlanRequest.t),
    MealPlan.MealPlanRequest.allergies req = Some (Planner.allergyList text) ->
    Planner.allergyList (MealPlanView.allergiesChip req)
    = match Planner.allergyList text with
      | [] => ["None"]
      | l => l
      end.
Proof.
  intros text req Hreq. unfold MealPlanView.allergiesChip. rewrite Hreq.
  cbn [nullish].
  pose proof (allergyList_tokens text) as F.
  destruct (Planner.allergyList text) as [|x rest]; [reflexivity|].
  cbv beta iota. unfold Planner.allergyList.
  rewrite splitComma_joinCommaSpace
    by (eapply Forall_impl; [|exact F]; intros a [_ H]; exact H).
  inversion F as [|? ? [[Hne [Hs He]] _] F']; subst.
  cbn [map]. rewrite (trim_fixed x Hs He). cbn [filter].
  rewrite (proj2 (truthy_nonempty x) Hne).
  rewrite (proj2 (renormalised rest F')). reflexivity.
Qed.

Lemma allergies_survive_witness :
  Planner.allergyList " nuts , Dairy,," = ["nuts"; "Dairy"]
  /\ MealPlanView.allergiesChip
       (MealPlan.MealPlanRequest.mk 1800 3 1 Api.vegetarian Api.maintain
          (Some ["nuts"; "Dairy"]) None None) = "nuts, Dairy"
  /\ Planner.allergyList "nuts, Dairy" = ["nuts"; "Dairy"].
Proof.
  split; [reflexivity|]. split; [reflexivity|].
  exact (allergies_survive_the_chip " nuts , Dairy,,"
           (MealPlan.MealPlanRequest.mk 1800 3 1 Api.vegetarian Api.maintain
              (Some ["nuts"; "Dairy"]) None None) eq_refl).
Defined.

End AllergyFacts.

(* ===================================================================== *)
(** * Further properties: the calculator *)
(* ===================================================================== *)

Section CalculatorMore.
Import JS Calculator.
Local Open Scope Q_scope.




End CalculatorMore.

(* ===================================================================== *)
(** * Further properties: the meal-plan page *)
(* ===================================================================== *)

Section MealPlanMore.
Import JS Api Props Props2.

Lemma find_map {A : Type} (p : A -> bool) (f : A -> A) (l : list A) :
  (forall x, p (f x) = p x) ->
  find p (map f l) = option_map f (find p l).
Proof.
  intros Hp. induction l as [|x l IH]; [reflexivity|].
  simpl. rewrite Hp. destruct (p x); [reflexivity | exact IH].
Qed.

Lemma updateDayFromAPI_day (activeDay n : Z) (rep : MealPlan.Replacement.t)
      (d : MealPlan.DayFromAPI.t) :
  MealPlan.DayFromAPI.day (MealPlan.updateDay activeDay n rep d) = MealPlan.DayFromAPI.day d.
Proof.
  unfold MealPlan.updateDay.
  destruct (MealPlan.DayFromAPI.day d =? activeDay); reflexivity.
Qed.

Lemma replaceIn_number (n : Z) (rep : MealPlan.Replacement.t) (m : MealPlan.MealFromAPI.t) :
  MealPlan.MealFromAPI.meal_number (MealPlan.replaceIn n rep m)
  = MealPlan.MealFromAPI.meal_number m
  /\ MealPlan.MealFromAPI.target_calories (MealPlan.replaceIn n rep m)
     = MealPlan.MealFromAPI.target_calories m.
Proof.
  unfold MealPlan.replaceIn.
  destruct (MealPlan.MealFromAPI.meal_number m =? n); split; reflexivity.
Qed.

Lemma active_applied (prev : MealPlan.MealPlanResponseOK.t) (activeDay n a : Z)
      (rep : MealPlan.Replacement.t) :
  MealPlan.active (MealPlan.applyReplacement prev activeDay n rep) a
  = option_map (MealPlan.updateDay activeDay n rep) (MealPlan.active prev a).
Proof.
  unfold MealPlan.active, MealPlan.findFirst, MealPlan.applyReplacement.
  cbn [MealPlan.MealPlanResponseOK.plan].
  rewrite (find_map (fun d => MealPlan.DayFromAPI.day d =? a)
                    (MealPlan.updateDay activeDay n rep))
    by (intros x; rewrite updateDayFromAPI_day; reflexivity).
  destruct (find _ _); [reflexivity|].
  destruct (MealPlan.MealPlanResponseOK.plan prev); reflexivity.
Qed.

Lemma target_applied (activeDay n : Z) (rep : MealPlan.Replacement.t)
      (day : option MealPlan.DayFromAPI.t) (req : MealPlan.MealPlanRequest.t) (m : Z) :
  MealPlan.target (option_map (MealPlan.updateDay activeDay n rep) day) req m
  = MealPlan.target day req m.
Proof.
  destruct day as [d|]; [|reflexivity].
  unfold MealPlan.target, MealPlan.findFirst. cbn [option_map].
  unfold MealPlan.updateDay.
  destruct (MealPlan.DayFromAPI.day d =? activeDay); cbn [negb]; cbv iota;
    [|reflexivity].
  cbn [MealPlan.DayFromAPI.meals].
  rewrite (find_map (fun x => MealPlan.MealFromAPI.meal_number x =? m)
                    (MealPlan.replaceIn n rep))
    by (intros x; rewrite (proj1 (replaceIn_number n rep x)); reflexivity).
  destruct (find _ _) as [x|]; [|reflexivity].
  cbn [option_map]. rewrite (proj2 (replaceIn_number n rep x)). reflexivity.
Qed.

(** X16. Handling a replace call does not change what the page will send
    next: for every meal number the request built after the call is the
    request built before it.  In particular a replaced meal keeps its target,
    so each further replacement of it aims at the same calories. *)
Theorem replacement_keeps_the_next_request :
  forall (M : Type) (st : MealPlan.State.t) (meal_number : Z)
         (out : Outcome (ReplaceBody M MealPlan.Replacement.t)) (next_number : Z),
    MealPlan.replaceRequest (MealPlan.handleReplaceMeal st meal_number out) next_number
    = MealPlan.replaceRequest st next_number.
Proof.
  intros M st n out m.
  unfold MealPlan.replaceRequest, MealPlan.handleReplaceMeal.
  destruct (MealPlan.State.data st) as [[prev|e]|] eqn:Hd; rewrite ?Hd; try reflexivity.
  destruct (MealPlan.replaceOutcome out) as [msg|rep]; simpl; [rewrite ?Hd; reflexivity|].
  f_equal. unfold MealPlan.payload.
  rewrite active_applied, target_applied. reflexivity.
Qed.

Lemma shown_has_number (r : MealPlan.MealPlanResponseOK.t) (a : Z) :
  (forall d, MealPlan.active r a = Some d -> MealPlan.DayFromAPI.day d = a)
  <-> (MealPlan.MealPlanResponseOK.plan r = []
       \/ exists d, In d (MealPlan.MealPlanResponseOK.plan r)
                    /\ MealPlan.DayFromAPI.day d = a).
Proof.
  unfold MealPlan.active, MealPlan.findFirst.
  destruct (find _ _) as [d0|] eqn:F.
  - apply find_some in F. destruct F as [Hin E]. apply Z.eqb_eq in E.
    split.
    + intros _. right. exists d0. split; assumption.
    + intros _ d Hd. injection Hd as <-. exact E.
  - split.
    + intros H. destruct (MealPlan.MealPlanResponseOK.plan r) as [|x l]; [left; reflexivity|].
      right. exists x. split; [left; reflexivity | apply H; reflexivity].
    + intros [E | [d [Hin Ed]]].
      * rewrite E. discriminate.
      * pose proof (find_none _ _ F d Hin) as N. cbv beta in N.
        apply Z.eqb_neq in N. contradiction.
Qed.

(** X17. On the meal-plan page the day shown always carries the selected
    number, in every state the page reaches from its mount effect, clicks on
    the day buttons and handled replace calls; so the fallback to the first
    day never shows a day that a replacement would not touch. *)
Theorem shown_day_has_selected_number :
  forall st : MealPlan.State.t,
    Reachable st ->
    forall d, MealPlanView.shown st = Some d ->
              MealPlan.DayFromAPI.day d = MealPlan.State.activeDay st.
Proof.
  intros st HR. unfold MealPlanView.shown.
  induction HR as [raw | st r d HR IH Hp Hd | M st n out HR IH].
  - destruct raw as [[[r|e]|]|]; simpl; try discriminate.
    apply (proj2 (shown_has_number _ _)).
    destruct (MealPlan.MealPlanResponseOK.plan r) as [|x l]; [left; reflexivity|].
    right. exists x. split; [left; reflexivity | reflexivity].
  - unfold planOfData in Hp. simpl.
    destruct (MealPlan.State.data st) as [[r0|e]|]; try discriminate.
    inversion Hp; subst r0.
    apply (proj2 (shown_has_number _ _)). right. exists d. split; [exact Hd | reflexivity].
  - unfold MealPlan.handleReplaceMeal.
    destruct (MealPlan.State.data st) as [[prev|e]|] eqn:Hd; rewrite ?Hd; try exact IH.
    destruct (MealPlan.replaceOutcome out) as [msg|rep]; simpl; [rewrite ?Hd; exact IH|].
    apply (proj2 (shown_has_number _ _)).
    apply (proj1 (shown_has_number _ _)) in IH.
    unfold MealPlan.applyReplacement. cbn [MealPlan.MealPlanResponseOK.plan].
    destruct IH as [E | [d [Hin Ed]]].
    + left. rewrite E. reflexivity.
    + right. exists (MealPlan.updateDay (MealPlan.State.activeDay st) n rep d).
      split; [apply in_map, Hin | rewrite updateDayFromAPI_day; exact Ed].
Qed.

Lemma shown_day_has_selected_number_witness :
  Reachable
    (MealPlan.handleReplaceMeal
       (MealPlanView.load MealPlanView.initial (Some (Some Samples2.storedPlan)))
       1 Samples.replacementReply)
  /\ exists d,
       MealPlanView.shown
         (MealPlan.handleReplaceMeal
            (MealPlanView.load MealPlanView.initial (Some (Some Samples2.storedPlan)))
            1 Samples.replacementReply) = Some d
       /\ MealPlan.DayFromAPI.day d = 3.
Proof.
  assert (HR : Reachable
                 (MealPlan.handleReplaceMeal
                    (MealPlanView.load MealPlanView.initial (Some (Some Samples2.storedPlan)))
                    1 Samples.replacementReply)).
  { apply reach_replace, reach_load. }
  split; [exact HR|].
  eexists. split; [reflexivity|].
  exact (shown_day_has_selected_number _ HR _ eq_refl).
Defined.

(** X18. The gradient of a meal thumbnail is picked by the meal number
    modulo 6: every number from 0 up gets one of the six gradients, the same
    one again six numbers later, while a negative number that is not a
    multiple of 6 reads past the start of the table and gets none. *)
Theorem thumb_style_by_meal_number :
  forall idx : Z,
    (0 <= idx ->
     exists s, MealPlanView.thumbStyle idx = Some s
               /\ In s MealPlanView.styles
               /\ MealPlanView.thumbStyle (idx + 6) = Some s)
    /\ (idx < 0 -> Z.rem idx 6 <> 0 -> MealPlanView.thumbStyle idx = None).
Proof.
  intros idx. unfold MealPlanView.thumbStyle.
  change (Z.of_nat (List.length MealPlanView.styles)) with 6.
  split.
  - intros Hpos.
    assert (E6 : Z.rem (idx + 6) 6 = Z.rem idx 6).
    { rewrite !Z.rem_mod_nonneg by lia.
      replace (idx + 6) with (idx + 1 * 6) by lia. apply Z_mod_plus_full. }
    rewrite E6.
    pose proof (Z.rem_bound_pos idx 6 Hpos ltac:(lia)) as B.
    destruct (Z.ltb_spec (Z.rem idx 6) 0) as [Neg|_]; [lia|].
    assert (C : Z.rem idx 6 = 0 \/ Z.rem idx 6 = 1 \/ Z.rem idx 6 = 2
                \/ Z.rem idx 6 = 3 \/ Z.rem idx 6 = 4 \/ Z.rem idx 6 = 5) by lia.
    destruct C as [-> | [-> | [-> | [-> | [-> | ->]]]]];
      eexists; (split; [reflexivity|]); (split; [simpl; tauto | reflexivity]).
  - intros Hneg Hr.
    pose proof (Z.rem_nonpos idx 6 ltac:(lia) ltac:(lia)) as B.
    destruct (Z.ltb_spec (Z.rem idx 6) 0) as [_|Pos]; [reflexivity | lia].
Qed.

Lemma thumb_style_witness :
  MealPlanView.thumbStyle 7 = Some "from-orange-500 to-amber-400"
  /\ MealPlanView.thumbStyle (-1) = None.
Proof.
  split; [reflexivity|].
  apply (proj2 (thumb_style_by_meal_number (-1))); [lia | vm_compute; discriminate].
Defined.

End MealPlanMore.

Section CanonicalExample.

Lemma shopping_names_witness :
  In (Planner.ShoppingItem.mk "milk" 3)
     (Planner.shoppingItems [Samples.dayOf 1 [Samples.oatmeal; Samples.curry];
                             Samples.dayOf 2 [Samples.omelette]])
  /\ Planner.token "milk" = "milk".
Proof.
  assert (Hin : In (Planner.ShoppingItem.mk "milk" 3)
                   (Planner.shoppingItems
                      [Samples.dayOf 1 [Samples.oatmeal; Samples.curry];
                       Samples.dayOf 2 [Samples.omelette]])).
  { left. reflexivity. }
  split; [exact Hin|].
  exact (proj2 shopping_names_are_canonical _ _ Hin).
Defined.

End CanonicalExample.

(* ===================================================================== *)
(** * Trimming, lower case and splitting meet their descriptions *)
(* ===================================================================== *)

Section WordsFacts.
Import JS Props Props2 Words.

Lemma space_isWhite (c : ascii) : space c <-> isWhite c = true.
Proof.
  unfold space, isWhite, codeOf. simpl In.
  rewrite !orb_true_iff, andb_true_iff, !N.leb_le, !N.eqb_eq. lia.
Qed.

Lemma not_space_isWhite (c : ascii) : ~ space c <-> isWhite c = false.
Proof.
  rewrite space_isWhite. destruct (isWhite c); split; congruence.
Qed.

Lemma append_empty_r (s : string) : (s ++ EmptyString)%string = s.
Proof.
  induction s as [|c s IH]; simpl; [reflexivity | rewrite IH; reflexivity].
Qed.

Lemma append_assoc_string (a b c : string) :
  ((a ++ b) ++ c)%string = (a ++ (b ++ c))%string.
Proof.
  induction a as [|x a IH]; simpl; [reflexivity | rewrite IH; reflexivity].
Qed.

Lemma chars_app (a b : string) : chars (a ++ b) = (chars a ++ chars b)%list.
Proof.
  unfold chars. induction a as [|x a IH]; simpl; [reflexivity | rewrite IH; reflexivity].
Qed.

Lemma chars_inj (a b : string) : chars a = chars b -> a = b.
Proof.
  unfold chars. intros E.
  rewrite <- (string_of_list_ascii_of_string a), <- (string_of_list_ascii_of_string b), E.
  reflexivity.
Qed.

Lemma blank_empty : blank EmptyString.
Proof. constructor. Qed.

Lemma blank_String (c : ascii) (s : string) : blank (String c s) <-> space c /\ blank s.
Proof.
  unfold blank. simpl. split.
  - intros F. inversion F; subst. split; assumption.
  - intros [Hc Hs]. constructor; assumption.
Qed.

Lemma blank_app (a b : string) : blank a -> blank b -> blank (a ++ b).
Proof.
  unfold blank. rewrite chars_app. intros Ha Hb. apply Forall_app. split; assumption.
Qed.

Lemma trimStart_blank (s : string) : blank s -> trimStart s = EmptyString.
Proof.
  induction s as [|c s IH]; [reflexivity|].
  intros B. apply blank_String in B. destruct B as [Hc Hs].
  simpl. apply space_isWhite in Hc. rewrite Hc. apply IH, Hs.
Qed.

Lemma trimStart_blank_app (pre x : string) :
  blank pre -> trimStart (pre ++ x) = trimStart x.
Proof.
  induction pre as [|c pre IH]; [reflexivity|].
  intros B. apply blank_String in B. destruct B as [Hc Hs].
  simpl. apply space_isWhite in Hc. rewrite Hc. apply IH, Hs.
Qed.

Lemma trimEnd_blank (s : string) : blank s -> trimEnd s = EmptyString.
Proof.
  induction s as [|c s IH]; [reflexivity|].
  intros B. apply blank_String in B. destruct B as [Hc Hs].
  simpl. rewrite (IH Hs). apply space_isWhite in Hc. rewrite Hc. reflexivity.
Qed.

(** What [trimStart] strips is white space. *)
Lemma trimStart_split (s : string) :
  exists pre, s = (pre ++ trimStart s)%string /\ blank pre.
Proof.
  induction s as [|c s [pre [E B]]].
  - exists EmptyString. split; [reflexivity | apply blank_empty].
  - simpl. destruct (isWhite c) eqn:W.
    + exists (String c pre). split; [simpl; f_equal; exact E|].
      apply blank_String. split; [apply space_isWhite, W | exact B].
    + exists EmptyString. split; [reflexivity | apply blank_empty].
Qed.

(** What [trimEnd] strips is white space. *)
Lemma trimEnd_split (s : string) :
  exists post, s = (trimEnd s ++ post)%string /\ blank post.
Proof.
  induction s as [|c s [post [E B]]].
  - exists EmptyString. split; [reflexivity | apply blank_empty].
  - simpl. destruct (trimEnd s) as [|c2 t] eqn:T.
    + simpl in E. destruct (isWhite c) eqn:W.
      * exists (String c post). split; [simpl; f_equal; exact E|].
        apply blank_String. split; [apply space_isWhite, W | exact B].
      * exists post. split; [simpl; f_equal; exact E | exact B].
    + exists post. split; [simpl; f_equal; exact E | exact B].
Qed.

Lemma endsWhite_snoc (r : string) (c : ascii) :
  endsWhite (r ++ String c EmptyString) = isWhite c.
Proof.
  induction r as [|a r IH]; [reflexivity|].
  simpl. destruct (r ++ String c EmptyString)%string eqn:E.
  - destruct r; discriminate E.
  - exact IH.
Qed.

Lemma bare_of_ends (t : string) :
  startsWhite t = false -> endsWhite t = false -> bare t.
Proof.
  intros S E. split.
  - intros c r ->. apply not_space_isWhite. exact S.
  - intros r c ->. apply not_space_isWhite. rewrite <- E. symmetry. apply endsWhite_snoc.
Qed.

Lemma bare_trim (s : string) : bare (trim s).
Proof.
  destruct (trim_clean s) as [S E]. apply bare_of_ends; assumption.
Qed.

(** [trimEnd] strips no more than the white space at the end. *)
Lemma trimEnd_bare (t post : string) :
  t <> EmptyString ->
  (forall r c, t = (r ++ String c EmptyString)%string -> ~ space c) ->
  blank post ->
  trimEnd (t ++ post) = t.
Proof.
  intros NE Last B. induction t as [|c t IH]; [congruence|].
  simpl. destruct t as [|c2 t].
  - simpl. rewrite (trimEnd_blank post B).
    assert (W : isWhite c = false)
      by (apply not_space_isWhite, (Last EmptyString c); reflexivity).
    rewrite W. reflexivity.
  - rewrite IH.
    + reflexivity.
    + discriminate.
    + intros r x E. apply (Last (String c r) x). simpl. rewrite E. reflexivity.
Qed.

Lemma TrimOf_trim (s : string) : TrimOf s (trim s).
Proof.
  destruct (trimStart_split s) as [pre [E1 B1]].
  destruct (trimEnd_split (trimStart s)) as [post [E2 B2]].
  exists pre, post. fold (trim s) in E2.
  split; [rewrite <- E2; exact E1|].
  split; [exact B1|]. split; [exact B2 | apply bare_trim].
Qed.

(** The description names one string only. *)
Lemma TrimOf_unique (s t : string) : TrimOf s t -> t = trim s.
Proof.
  intros [pre [post [-> [B1 [B2 [First Last]]]]]].
  unfold trim. rewrite (trimStart_blank_app pre _ B1).
  destruct t as [|c t].
  - simpl. rewrite (trimStart_blank post B2). reflexivity.
  - assert (W : isWhite c = false)
      by (apply not_space_isWhite, (First c t); reflexivity).
    simpl trimStart. rewrite W.
    symmetry. apply (trimEnd_bare (String c t) post); [discriminate | exact Last | exact B2].
Qed.

Lemma TrimOf_empty (s : string) : TrimOf s EmptyString <-> blank s.
Proof.
  split.
  - intros [pre [post [-> [B1 [B2 _]]]]]. simpl. apply blank_app; assumption.
  - intros B. exists s, EmptyString. simpl. rewrite append_empty_r.
    split; [reflexivity|]. split; [exact B|]. split; [apply blank_empty|].
    split; [discriminate|]. intros r c E. destruct r; discriminate E.
Qed.

Lemma capital_bool (n : N) :
  capital n <->
  (((65 <=? n) && (n <=? 90)) || ((192 <=? n) && (n <=? 222) && negb (n =? 215)))%N = true.
Proof.
  unfold capital.
  rewrite orb_true_iff, !andb_true_iff, negb_true_iff, !N.leb_le, N.eqb_neq. tauto.
Qed.

Lemma lowerOf_lowerChar (c : ascii) : lowerOf c (lowerChar c).
Proof.
  unfold lowerOf, lowerChar, codeOf.
  destruct ((((65 <=? N_of_ascii c) && (N_of_ascii c <=? 90))
             || ((192 <=? N_of_ascii c) && (N_of_ascii c <=? 222)
                 && negb (N_of_ascii c =? 215)))%N) eqn:B.
  - split; [|intros NC; elim NC; apply capital_bool, B].
    intros C. apply N_ascii_embedding. unfold capital in C. lia.
  - split; [|reflexivity].
    intros C. apply capital_bool in C. congruence.
Qed.

Lemma lowerOf_unique (c c' : ascii) : lowerOf c c' -> c' = lowerChar c.
Proof.
  intros [Up Same]. unfold lowerChar, codeOf.
  destruct ((((65 <=? N_of_ascii c) && (N_of_ascii c <=? 90))
             || ((192 <=? N_of_ascii c) && (N_of_ascii c <=? 222)
                 && negb (N_of_ascii c =? 215)))%N) eqn:B.
  - rewrite <- (Up (proj2 (capital_bool _) B)). symmetry. apply ascii_N_embedding.
  - apply Same. intros C. apply capital_bool in C. congruence.
Qed.

Lemma LowerOf_toLowerCase (s : string) : LowerOf s (toLowerCase s).
Proof.
  unfold LowerOf, chars. induction s as [|c s IH]; simpl; constructor;
    [apply lowerOf_lowerChar | exact IH].
Qed.

Lemma LowerOf_unique (s k : string) : LowerOf s k -> k = toLowerCase s.
Proof.
  unfold LowerOf, chars. revert k.
  induction s as [|c s IH]; intros k F; destruct k as [|c' k]; simpl in F;
    inversion F; subst; [reflexivity|].
  simpl. f_equal; [apply lowerOf_unique; assumption | apply IH; assumption].
Qed.

(** The token of an ingredient string, as described, is the string the
    code computes. *)
Lemma TokenOf_token (ing k : string) : TokenOf ing k <-> k = toLowerCase (trim ing).
Proof.
  split.
  - intros [t [T L]]. apply TrimOf_unique in T. subst t. apply LowerOf_unique, L.
  - intros ->. exists (trim ing). split; [apply TrimOf_trim | apply LowerOf_toLowerCase].
Qed.

Lemma commaFree_noComma (s : string) : noComma s = true <-> commaFree s.
Proof.
  unfold commaFree, chars. induction s as [|c s IH]; simpl.
  - split; [intros _ [] | reflexivity].
  - rewrite andb_true_iff, negb_true_iff, IH. split.
    + intros [Hc Hs] [E|Hin]; [|exact (Hs Hin)].
      subst c. discriminate Hc.
    + intros H. split; [|intros Hin; apply H; right; exact Hin].
      destruct (Ascii.eqb_spec c ","%char) as [E|]; [|reflexivity].
      elim H. left. exact E.
Qed.

(** The pieces between the commas are those [split] returns. *)
Lemma PartsOf_splitComma (text : string) (parts : list string) :
  PartsOf text parts <-> parts = splitComma text.
Proof.
  split.
  - intros [NE [<- F]].
    induction parts as [|x rest IH]; [congruence|].
    inversion F as [|? ? Hx Hrest]; subst.
    apply commaFree_noComma in Hx.
    destruct rest as [|y rest].
    + simpl. symmetry. apply splitComma_single, Hx.
    + change (joinComma (x :: y :: rest))
        with (x ++ String "," (joinComma (y :: rest)))%string.
      rewrite (splitComma_app _ _ Hx). f_equal. apply IH; [discriminate | exact Hrest].
  - intros ->. split; [apply splitComma_nonempty|].
    split; [apply splitComma_join|].
    eapply Forall_impl; [|apply splitComma_noComma].
    intros t. apply commaFree_noComma.
Qed.

Lemma Kept_trimmed (parts : list string) :
  Kept parts (filter truthy (map trim parts)).
Proof.
  induction parts as [|p ps IH]; simpl; [constructor|].
  destruct (trim p) eqn:T; simpl.
  - apply kept_drop; [|exact IH]. apply TrimOf_empty. rewrite <- T. apply TrimOf_trim.
  - apply kept_take; [rewrite <- T; apply TrimOf_trim | discriminate | exact IH].
Qed.

(** What is kept of the pieces is one list only. *)
Lemma Kept_unique (parts sent : list string) :
  Kept parts sent -> sent = filter truthy (map trim parts).
Proof.
  induction 1 as [|p ps ts B K IH|p t ps ts T NE K IH]; simpl.
  - reflexivity.
  - apply TrimOf_empty, TrimOf_unique in B. rewrite <- B. simpl. exact IH.
  - apply TrimOf_unique in T. rewrite <- T.
    destruct t; [congruence|]. simpl. f_equal. exact IH.
Qed.

(** C10. Both the generate-plan and the replace-meal payload carry the
    same allergies.  The text has one way to fall into the pieces between
    its commas; what is sent is these pieces in their order, each without
    the white space at its two ends, those left out that are nothing but
    white space; no other list fits this description.  So no element sent is
    empty or has white space at its start or end. *)
Theorem allergies_normalized :
  forall (st : Planner.State.t) (slot : option string) (target : Q)
         (excludeIds : list Z),
    let text := Planner.Form.allergies (Planner.State.form st) in
    let sent :=
      Planner.GeneratePayload.allergies (Planner.generatePayload (Planner.State.form st)) in
    Planner.ReplacePayload.allergies (Planner.replacePayload st slot target excludeIds)
    = sent
    /\ (exists parts, PartsOf text parts /\ Kept parts sent)
    /\ (forall parts l, PartsOf text parts -> Kept parts l -> l = sent)
    /\ Forall (fun t => t <> EmptyString /\ bare t) sent.
Proof.
  intros st slot target excludeIds text sent.
  split; [reflexivity|]. split; [|split].
  - exists (splitComma text). split; [apply PartsOf_splitComma; reflexivity|].
    apply Kept_trimmed.
  - intros parts l P K. apply PartsOf_splitComma in P. subst parts.
    apply Kept_unique in K. exact K.
  - apply Forall_forall. intros a Ha.
    unfold sent in Ha. cbn [Planner.generatePayload Planner.GeneratePayload.allergies] in Ha.
    unfold Planner.allergyList in Ha.
    apply filter_In in Ha. destruct Ha as [Hin Ht].
    apply in_map_iff in Hin. destruct Hin as [raw [<- _]].
    split; [apply truthy_nonempty, Ht | apply bare_trim].
Qed.

End WordsFacts.

Section WordsExample.
Import Words.

Lemma allergies_normalized_witness :
  Planner.ReplacePayload.allergies
    (Planner.replacePayload Samples.twoDays (Some "breakfast") 600 [7])
  = ["nuts"; "Dairy"].
Proof.
  destruct (allergies_normalized Samples.twoDays (Some "breakfast") 600%Q [7])
    as [E [_ [U _]]].
  rewrite E. symmetry.
  apply (U [" nuts "; " Dairy"; ""; ""] ["nuts"; "Dairy"]).
  - apply PartsOf_splitComma. reflexivity.
  - exact (Kept_trimmed [" nuts "; " Dairy"; ""; ""]).
Defined.

End WordsExample.

(* ===================================================================== *)
(** * The number of items of the shopping list *)
(* ===================================================================== *)

Section CountFacts.
Import JS Api Props Words.

Lemma tokens_counted (ds : list Planner.Day.t) :
  CountsTokens (List.length (nodup string_dec (planTokens ds))) (ingredientsOf ds).
Proof.
  exists (nodup string_dec (planTokens ds)).
  split; [apply NoDup_nodup|]. split; [|reflexivity].
  intros k. rewrite nodup_In. unfold planTokens. rewrite filter_In, in_map_iff.
  change (planIngredients ds) with (ingredientsOf ds).
  split.
  - intros [[ing [E Hin]] T]. split; [apply truthy_nonempty, T|].
    exists ing. split; [exact Hin|]. apply TokenOf_token. symmetry. exact E.
  - intros [NE [ing [Hin Tk]]]. split; [|apply truthy_nonempty, NE].
    exists ing. split; [|exact Hin]. apply TokenOf_token in Tk. symmetry. exact Tk.
Qed.

Lemma aggregator_counted (ds : list Planner.Day.t) :
  CountsTokens (Planner.ShoppingList.total_unique (Aggregator.shoppingList ds))
               (ingredientsOf ds).
Proof.
  unfold Aggregator.shoppingList. cbn [Planner.ShoppingList.total_unique].
  rewrite (Permutation_length (sort_perm _ _)), (Permutation_length (sort_perm _ _)),
    length_map.
  apply tokens_counted.
Qed.

(** C5. The total_unique of a shopping list is the number of distinct
    non-empty tokens of the plan, a token being an ingredient string of a
    meal without the white space at its ends and in lower case: for the
    list the aggregator builds for a generated plan, which the page holds
    as it arrives, and for the list the page builds itself after a
    replacement. *)
Theorem total_unique_counts_distinct_tokens :
  (forall ds : list Planner.Day.t,
      CountsTokens (Planner.ShoppingList.total_unique (Aggregator.shoppingList ds))
                   (ingredientsOf ds))
  /\ (forall (pg : PlannerView.Page.t) (data : PlannerView.GenerateBody.t)
             (p : Planner.Plan.t),
         PlannerView.Page.loading pg = false ->
         PlannerView.GenerateBody.status data = Some "ok" ->
         PlannerView.GenerateBody.plan data = Some p ->
         Planner.Plan.shopping_list p = Some (Aggregator.shoppingList (Frame.daysIn p)) ->
         exists p' sl,
           planOfState
             (PlannerView.Page.state
                (PlannerView.handleGenerate pg (PlannerView.Replied true data))) = Some p'
           /\ Planner.Plan.shopping_list p' = Some sl
           /\ CountsTokens (Planner.ShoppingList.total_unique sl)
                           (ingredientsOf (Frame.daysIn p')))
  /\ (forall (R : Type) (st : Planner.State.t) (slot : option string) (target : Q)
             (excludeIds : list Z) (out : Outcome (ReplaceBody Planner.Meal.t R))
             (p : Planner.Plan.t),
         planOfState st = Some p ->
         Planner.State.error (Planner.handleReplace st slot target excludeIds out) = None ->
         exists p' sl,
           planOfState (Planner.handleReplace st slot target excludeIds out) = Some p'
           /\ Planner.Plan.shopping_list p' = Some sl
           /\ CountsTokens (Planner.ShoppingList.total_unique sl)
                           (ingredientsOf (Frame.daysIn p'))).
Proof.
  split; [exact aggregator_counted|]. split.
  - intros pg data p L S P SL.
    exists p, (Aggregator.shoppingList (Frame.daysIn p)).
    split; [|split; [exact SL | apply aggregator_counted]].
    unfold PlannerView.handleGenerate. rewrite L.
    unfold PlannerView.generateOutcome. cbn [negb].
    unfold isOk. rewrite S. simpl. exact P.
  - intros R st slot target excludeIds out p Hp Herr.
    destruct (handleReplace_cases st slot target excludeIds out p Hp)
      as [[msg [E _]] | [newDays [_ [_ [_ Hp']]]]]; [congruence|].
    eexists. eexists. split; [exact Hp'|].
    split; [reflexivity|].
    cbn [Planner.ShoppingList.total_unique Frame.daysIn Planner.Plan.days].
    rewrite shoppingItems_length. apply tokens_counted.
Qed.

Lemma total_unique_witness :
  exists p' sl,
    planOfState (Planner.handleReplace Samples.twoDays (Some "breakfast") 600 [7]
                                       Samples.mealReply) = Some p'
    /\ Planner.Plan.shopping_list p' = Some sl
    /\ CountsTokens (Planner.ShoppingList.total_unique sl)
                    (ingredientsOf (Frame.daysIn p')).
Proof.
  refine (proj2 (proj2 total_unique_counts_distinct_tokens)
                MealPlan.Replacement.t Samples.twoDays (Some "breakfast") 600%Q [7]
                Samples.mealReply _ eq_refl _).
  vm_compute. reflexivity.
Defined.

End CountFacts.

(* ===================================================================== *)
(** * The calculator in binary64 *)
(* ===================================================================== *)

Section CalculatorDoubles.
Import Calculator.

Lemma exact_real (x : float) : Double.exact x = Value.real x.
Proof.
  unfold Double.exact, Value.real.
  destruct (Prim2SF x) as [| | |[] m e]; reflexivity.
Qed.

Lemma shown_mathRound (x : float) : Formula.shown x (Double.mathRound x).
Proof.
  unfold Formula.shown, Double.mathRound. rewrite <- exact_real.
  destruct (Double.exact x) as [q|]; [|reflexivity].
  exists (Qfloor (q + (1 # 2))). split; [reflexivity|].
  pose proof (Qfloor_le (q + (1 # 2))) as Lo.
  pose proof (Qlt_floor (q + (1 # 2))) as Hi.
  rewrite inject_Z_plus in Hi. change (inject_Z 1) with 1%Q in Hi.
  set (n := inject_Z (Qfloor (q + (1 # 2)))) in *. clearbody n.
  split; lra.
Qed.

(** C9, as the code has it. For every sex, age, height, weight, activity
    and goal the three numbers shown are the nearest integers, the upper one
    of two, to: the base 10*weight + 6.25*height - 5*age plus 5 for male or
    minus 161 for female; the base times the multiplier 1.2, 1.375, 1.55,
    1.725 or 1.9 of the activity; and that product, not rounded, times 0.85
    for a deficit, times 1.1 for a surplus, or as it is to maintain; each
    operation is carried out in binary64, from left to right. *)
Theorem calculator_formula :
  forall (sex : Sex) (age height weight : float) (activity : Activity) (goal : Goal),
    let r := Calculator64.result sex age height weight activity goal in
    let t := Formula.tdee sex age height weight activity in
    Formula.shown (Formula.base sex age height weight) (Calculator64.r_bmr r)
    /\ Formula.shown t (Calculator64.r_tdee r)
    /\ Formula.shown (Formula.recommended goal t) (Calculator64.r_recommended r).
Proof.
  intros sex age height weight activity goal r t.
  unfold r, t. destruct sex, activity, goal; repeat split; apply shown_mathRound.
Qed.

(** With 6, 128.2 and 18.1 typed in and a sedentary activity the formula
    gives 791.25 * 1.2 = 949.5, which rounds to 950; the page shows 949.
    With the values the page starts with, extra activity and a surplus, the
    page shows a TDEE of 2584 and recommends 2843, where 2584 * 1.1 rounds
    to 2842, in exact arithmetic as in binary64. *)
Lemma calculator_shows_other_numbers :
  Calculator64.r_tdee (Calculator64.result female 6 128.2 18.1 sedentary maintain)
  = Some 949
  /\ JS.mathRound ((10 * (181 # 10) + (625 # 100) * (1282 # 10) - 5 * 6 - 161) * (12 # 10))%Q
     = 950
  /\ Calculator64.r_tdee (Calculator64.result female 22 165 60 extra surplus) = Some 2584
  /\ Calculator64.r_recommended (Calculator64.result female 22 165 60 extra surplus)
     = Some 2843
  /\ JS.mathRound (2584 * (11 # 10))%Q = 2842
  /\ Double.mathRound (2584 * 1.1)%float = Some 2842.
Proof.
  vm_compute. repeat split.
Qed.

Example calculator_start_values :
  Calculator64.result female 22 165 60 moderate maintain
  = {| Calculator64.r_bmr := Some 1360;
       Calculator64.r_tdee := Some 2108;
       Calculator64.r_recommended := Some 2108 |}.
Proof. vm_compute. reflexivity. Qed.

End CalculatorDoubles.

(* ===================================================================== *)
(** * The totals after a replacement, in binary64 *)
(* ===================================================================== *)

Section TotalsDoubles.
Import Sums.

Lemma counted_orZero (v : option float) : Double.orZero v = counted v.
Proof.
  destruct v as [x|]; [|reflexivity].
  unfold Double.orZero, counted. destruct (Prim2SF x); reflexivity.
Qed.

(** What [toFixed1] returns is the number held for the print. *)
Lemma printed_toFixed1 (x : float) : printed x (Double.toFixed1 x).
Proof.
  unfold printed, Double.toFixed1. rewrite <- exact_real.
  destruct (Double.exact x) as [q|]; [|reflexivity].
  destruct (Qle_bool (inject_Z (2 ^ 49)) (Qabs q)) eqn:Big.
  - left. split; [apply Qle_bool_iff, Big | reflexivity].
  - right. split.
    { apply Qnot_le_lt. intros C. apply Qle_bool_iff in C. congruence. }
    exists (Qfloor (Qabs q * 10 + (1 # 2))).
    pose proof (Qfloor_le (Qabs q * 10 + (1 # 2))) as Lo.
    pose proof (Qlt_floor (Qabs q * 10 + (1 # 2))) as Hi.
    rewrite inject_Z_plus in Hi. change (inject_Z 1) with 1%Q in Hi.
    split; [|split; [exact Hi|split]].
    + assert (En : forall m : Z, ((m # 10) == inject_Z m * (1 # 10))%Q).
      { intros m. unfold Qeq, Qmult, inject_Z. simpl. lia. }
      apply Qabs_Qle_condition. rewrite En.
      set (n := inject_Z (Qfloor (Qabs q * 10 + (1 # 2)))) in *. clearbody n.
      set (a := Qabs q) in *. clearbody a.
      split; lra.
    + intros P. apply Qle_bool_iff in P. rewrite P. reflexivity.
    + intros N.
      assert (P : Qle_bool 0 q = false).
      { destruct (Qle_bool 0 q) eqn:E; [|reflexivity].
        apply Qle_bool_iff in E. lra. }
      rewrite P. reflexivity.
Qed.

Lemma sumMeals_fields (ms : list Planner64.Meal.t) (acc : Planner64.Totals.t) :
  Planner64.Totals.calories (fold_left Planner64.addMeal ms acc)
  = fold_left PrimFloat.add (map (fun mm => counted (Planner64.Meal.calories mm)) ms)
              (Planner64.Totals.calories acc)
  /\ Planner64.Totals.protein_g (fold_left Planner64.addMeal ms acc)
     = fold_left PrimFloat.add (map (fun mm => counted (Planner64.Meal.protein_g mm)) ms)
                 (Planner64.Totals.protein_g acc)
  /\ Planner64.Totals.carbs_g (fold_left Planner64.addMeal ms acc)
     = fold_left PrimFloat.add (map (fun mm => counted (Planner64.Meal.carbs_g mm)) ms)
                 (Planner64.Totals.carbs_g acc)
  /\ Planner64.Totals.fat_g (fold_left Planner64.addMeal ms acc)
     = fold_left PrimFloat.add (map (fun mm => counted (Planner64.Meal.fat_g mm)) ms)
                 (Planner64.Totals.fat_g acc).
Proof.
  revert acc. induction ms as [|m ms IH]; intros acc.
  - repeat split.
  - cbn [fold_left map].
    destruct (IH (Planner64.addMeal acc m)) as [Ec [Ep [Eb Ef]]].
    rewrite Ec, Ep, Eb, Ef. unfold Planner64.addMeal.
    cbn [Planner64.Totals.calories Planner64.Totals.protein_g
         Planner64.Totals.carbs_g Planner64.Totals.fat_g].
    rewrite !counted_orZero. repeat split.
Qed.

Lemma dayField_totalsField (f : Planner64.Totals.t -> float) (d : Planner64.Day.t) :
  Planner64.totalsField f (Planner64.Day.totals d) = dayField f d.
Proof.
  unfold Planner64.totalsField, dayField.
  destruct (Planner64.Day.totals d) as [t|]; [apply counted_orZero | reflexivity].
Qed.

Lemma sumDays_fields (ds : list Planner64.Day.t) (acc : Planner64.Totals.t) :
  Planner64.Totals.calories (fold_left Planner64.addDay ds acc)
  = fold_left PrimFloat.add (map (dayField Planner64.Totals.calories) ds)
              (Planner64.Totals.calories acc)
  /\ Planner64.Totals.protein_g (fold_left Planner64.addDay ds acc)
     = fold_left PrimFloat.add (map (dayField Planner64.Totals.protein_g) ds)
                 (Planner64.Totals.protein_g acc)
  /\ Planner64.Totals.carbs_g (fold_left Planner64.addDay ds acc)
     = fold_left PrimFloat.add (map (dayField Planner64.Totals.carbs_g) ds)
                 (Planner64.Totals.carbs_g acc)
  /\ Planner64.Totals.fat_g (fold_left Planner64.addDay ds acc)
     = fold_left PrimFloat.add (map (dayField Planner64.Totals.fat_g) ds)
                 (Planner64.Totals.fat_g acc).
Proof.
  revert acc. induction ds as [|d ds IH]; intros acc.
  - repeat split.
  - cbn [fold_left map].
    destruct (IH (Planner64.addDay acc d)) as [Ec [Ep [Eb Ef]]].
    rewrite Ec, Ep, Eb, Ef. unfold Planner64.addDay.
    cbn [Planner64.Totals.calories Planner64.Totals.protein_g
         Planner64.Totals.carbs_g Planner64.Totals.fat_g].
    rewrite !dayField_totalsField. repeat split.
Qed.

Lemma dayPrinted_recomputed (ms : list Planner64.Meal.t) :
  dayPrinted ms (Planner64.roundTotals (Planner64.sumMeals ms)).
Proof.
  destruct (sumMeals_fields ms Planner64.zeroTotals) as [Ec [Ep [Eb Ef]]].
  unfold dayPrinted, Planner64.roundTotals, Planner64.sumMeals, total.
  cbn [Planner64.Totals.calories Planner64.Totals.protein_g
       Planner64.Totals.carbs_g Planner64.Totals.fat_g].
  rewrite Ec, Ep, Eb, Ef. repeat split; apply printed_toFixed1.
Qed.

Lemma planPrinted_recomputed (ds : list Planner64.Day.t) :
  planPrinted ds (Planner64.overallTotals ds).
Proof.
  destruct (sumDays_fields ds Planner64.zeroTotals) as [Ec [Ep [Eb Ef]]].
  unfold planPrinted, Planner64.overallTotals, Planner64.roundTotals,
    Planner64.sumDays, total.
  cbn [Planner64.Totals.calories Planner64.Totals.protein_g
       Planner64.Totals.carbs_g Planner64.Totals.fat_g].
  rewrite Ec, Ep, Eb, Ef. repeat split; apply printed_toFixed1.
Qed.

Lemma updateDay64_cases (activeDay : Z) (slot : option string)
      (newMeal : option Planner64.Meal.t) (d d' : Planner64.Day.t) :
  Planner64.updateDay activeDay slot newMeal d = Some d' ->
  (Planner64.Day.day d <> activeDay -> d' = d)
  /\ (Planner64.Day.day d = activeDay ->
      exists ms T,
        Planner64.Day.meals d' = Some ms
        /\ Planner64.Day.totals d' = Some T
        /\ dayPrinted ms T).
Proof.
  unfold Planner64.updateDay.
  destruct (Z.eqb_spec (Planner64.Day.day d) activeDay) as [Ea|Na]; simpl.
  - destruct (Planner64.definedMeals _) as [ms|]; [|discriminate].
    intros E. inversion E; subst d'; clear E.
    split; [intros C; contradiction|]. intros _.
    exists ms, (Planner64.roundTotals (Planner64.sumMeals ms)).
    split; [reflexivity|]. split; [reflexivity|]. apply dayPrinted_recomputed.
  - intros E. inversion E; subst d'.
    split; [reflexivity | intros C; contradiction].
Qed.

Lemma macro_fold {A : Type} (g : A -> MealPlan64.MacroTotals.t) (l : list A)
      (acc : MealPlan64.MacroTotals.t) :
  let t := fold_left (fun acc x => MealPlan64.addTotals acc (g x)) l acc in
  MealPlan64.MacroTotals.calories_kcal t
  = fold_left PrimFloat.add (map MealPlan64.MacroTotals.calories_kcal (map g l))
              (MealPlan64.MacroTotals.calories_kcal acc)
  /\ MealPlan64.MacroTotals.protein_g t
     = fold_left PrimFloat.add (map MealPlan64.MacroTotals.protein_g (map g l))
                 (MealPlan64.MacroTotals.protein_g acc)
  /\ MealPlan64.MacroTotals.fat_g t
     = fold_left PrimFloat.add (map MealPlan64.MacroTotals.fat_g (map g l))
                 (MealPlan64.MacroTotals.fat_g acc)
  /\ MealPlan64.MacroTotals.carbs_g t
     = fold_left PrimFloat.add (map MealPlan64.MacroTotals.carbs_g (map g l))
                 (MealPlan64.MacroTotals.carbs_g acc).
Proof.
  revert acc. induction l as [|x l IH]; intros acc; cbv zeta.
  - repeat split.
  - cbn [fold_left map].
    destruct (IH (MealPlan64.addTotals acc (g x))) as [Ec [Ep [Ef Eb]]].
    rewrite Ec, Ep, Ef, Eb. repeat split.
Qed.

Lemma summed_meals (ms : list MealPlan64.MealFromAPI.t) :
  summed (map MealPlan64.MealFromAPI.totals ms) (MealPlan64.sumMeals ms).
Proof.
  exact (macro_fold MealPlan64.MealFromAPI.totals ms MealPlan64.zeroTotals).
Qed.

Lemma summed_days (ds : list MealPlan64.DayFromAPI.t) :
  summed (map MealPlan64.DayFromAPI.day_totals ds) (MealPlan64.sumDays ds).
Proof.
  exact (macro_fold MealPlan64.DayFromAPI.day_totals ds MealPlan64.zeroTotals).
Qed.

(** C1, as the code has it. After a replacement the planner page gives
    each day with the selected number new totals: per field the sum over
    the day's updated meals, added in binary64 from 0 in the order of the
    meals, a value that is missing, NaN or zero counting as 0, printed with
    one digit after the point and read back; the decimal printed is within
    0.05 of that sum.  Every other day is kept as it is held, totals
    included.  The overall totals are the sums of the day totals of the new
    list of days, printed and read back in the same way.  The meal-plan page
    does the same without the print: the totals of the selected day are the
    binary64 sums over its meals and the plan totals the binary64 sums of the
    day totals. *)
Theorem totals_are_sums_after_replacement :
  (forall (activeDay : Z) (slot : option string) (newMeal : option Planner64.Meal.t)
          (days : option (list Planner64.Day.t)) (ds' : list Planner64.Day.t),
      Planner64.newDays activeDay slot newMeal days = Some ds' ->
      Forall2 (fun d d' =>
                 (Planner64.Day.day d <> activeDay -> d' = d)
                 /\ (Planner64.Day.day d = activeDay ->
                     exists ms T,
                       Planner64.Day.meals d' = Some ms
                       /\ Planner64.Day.totals d' = Some T
                       /\ dayPrinted ms T))
              (match days with Some l => l | None => [] end) ds'
      /\ planPrinted ds' (Planner64.overallTotals ds'))
  /\ (forall (activeDay meal_number : Z) (rep : MealPlan64.Replacement.t)
             (plan : list MealPlan64.DayFromAPI.t),
         Forall2 (fun d d' =>
                    (MealPlan64.DayFromAPI.day d <> activeDay -> d' = d)
                    /\ (MealPlan64.DayFromAPI.day d = activeDay ->
                        summed (map MealPlan64.MealFromAPI.totals
                                    (MealPlan64.DayFromAPI.meals d'))
                               (MealPlan64.DayFromAPI.day_totals d')))
                 plan (MealPlan64.newPlan activeDay meal_number rep plan)
         /\ summed (map MealPlan64.DayFromAPI.day_totals
                        (MealPlan64.newPlan activeDay meal_number rep plan))
                   (MealPlan64.planTotals
                      (MealPlan64.newPlan activeDay meal_number rep plan))).
Proof.
  split.
  - intros activeDay slot newMeal days ds' H.
    split; [|apply planPrinted_recomputed].
    unfold Planner64.newDays in H. apply mapThrowing_Forall2 in H.
    eapply Forall2_impl; [|exact H].
    intros d d' U. apply updateDay64_cases in U. exact U.
  - intros activeDay n rep plan. split; [|apply summed_days].
    unfold MealPlan64.newPlan.
    induction plan as [|d plan IH]; simpl; constructor; [|exact IH].
    unfold MealPlan64.updateDay.
    destruct (Z.eqb_spec (MealPlan64.DayFromAPI.day d) activeDay) as [Ea|Na]; simpl.
    + split; [intros C; contradiction|]. intros _. apply summed_meals.
    + split; [reflexivity | intros C; contradiction].
Qed.

Lemma totals_are_sums_witness :
  exists ds',
    Planner64.newDays 1 (Some "breakfast") (Some Samples64.toast)
                      (Some [Samples64.toastDay; Samples64.driftedDay]) = Some ds'
    /\ planPrinted ds' (Planner64.overallTotals ds').
Proof.
  destruct (Planner64.newDays 1 (Some "breakfast") (Some Samples64.toast)
                              (Some [Samples64.toastDay; Samples64.driftedDay]))
    as [ds'|] eqn:H; [|vm_compute in H; discriminate H].
  exists ds'. split; [reflexivity|].
  exact (proj2 (proj1 totals_are_sums_after_replacement _ _ _ _ _ H)).
Defined.

(** A day of one meal of 380.25 kcal, its total 380.25, and the meal
    replaced by one of 380.25 kcal: the new total is 380.3, the double
    nearest to the print, which lies more than 0.05 above the sum.  And day
    2, which arrived with 999 kcal for a meal of 650 kcal, keeps its
    total. *)
Lemma totals_differ_from_the_sums :
  Planner64.newDays 1 (Some "breakfast") (Some Samples64.toast)
                    (Some [Samples64.toastDay; Samples64.driftedDay])
  = Some [Planner64.Day.mk 1 (Some [Samples64.toast])
                           (Some (Planner64.Totals.mk 380.3 12 50 14));
          Samples64.driftedDay]
  /\ total (map (fun mm => counted (Planner64.Meal.calories mm)) [Samples64.toast])
     = 380.25%float
  /\ (exists t s, Value.real 380.3 = Some t /\ Value.real 380.25 = Some s
                  /\ (5 # 100 < t - s)%Q)
  /\ dayField Planner64.Totals.calories Samples64.driftedDay = 999%float
  /\ total (map (fun mm => counted (Planner64.Meal.calories mm)) [Samples64.soup])
     = 650%float.
Proof.
  split; [vm_compute; reflexivity|]. split; [vm_compute; reflexivity|].
  split; [|split; vm_compute; reflexivity].
  eexists. eexists. split; [vm_compute; reflexivity|].
  split; [vm_compute; reflexivity|]. vm_compute. reflexivity.
Qed.

Example one_decimal_prints :
  Double.toFixed1 8.45 = 8.4%float
  /\ Double.toFixed1 0.35 = 0.3%float
  /\ Double.toFixed1 380.25 = 380.3%float
  /\ Double.toFixed1 (-0.25) = (-0.3)%float.
Proof. vm_compute. repeat split. Qed.

Example meal_plan_totals_sample :
  map MealPlan64.DayFromAPI.day_totals
      (MealPlan64.newPlan 1 1 Samples64.eggs
         [MealPlan64.DayFromAPI.mk 1 [Samples64.porridge]
                                   (MealPlan64.MacroTotals.mk 400.1 12.2 8 60)])
  = [MealPlan64.MacroTotals.mk 380.2 24 28 4].
Proof. vm_compute. reflexivity. Qed.

End TotalsDoubles.

(* ===================================================================== *)
(** * Good replies, with and without a meal *)
(* ===================================================================== *)

Section GoodReplies.
Import JS Api Props.

Lemma updateDay_with_meal (activeDay : Z) (slot : option string) (m : Planner.Meal.t)
      (d : Planner.Day.t) :
  exists d', Planner.updateDay activeDay slot (Some m) d = Some d'.
Proof.
  unfold Planner.updateDay.
  destruct (negb (Planner.Day.day d =? activeDay)); [eexists; reflexivity|].
  assert (D : exists ms,
             Planner.definedMeals
               (map (fun mm => if strictEq (Planner.slotKey mm) slot then Some m else Some mm)
                    (nullish (Planner.Day.meals d) []))
             = Some ms).
  { induction (nullish (Planner.Day.meals d) []) as [|x l [ms IH]];
      [exists []; reflexivity|].
    simpl. rewrite IH. destruct (strictEq (Planner.slotKey x) slot); eexists; reflexivity. }
  destruct D as [ms ->]. eexists. reflexivity.
Qed.

Lemma mapThrowing_total {A B : Type} (f : A -> option B) (l : list A) :
  (forall x, exists y, f x = Some y) -> exists l', Planner.mapThrowing f l = Some l'.
Proof.
  intros T. induction l as [|x l [l' IH]]; [exists []; reflexivity|].
  destruct (T x) as [y Fx]. exists (y :: l'). simpl. rewrite Fx, IH. reflexivity.
Qed.

Lemma filled_slot_throws {R : Type} (st : Planner.State.t) (slot : option string)
      (target : Q) (excludeIds : list Z) (out : Outcome (ReplaceBody Planner.Meal.t R))
      (p : Planner.Plan.t) :
  planOfState st = Some p ->
  replyFails out = false ->
  replyMeal out = None ->
  Frame.slotIsFilled (Planner.State.activeDay st) slot (Frame.daysIn p) ->
  Planner.State.error (Planner.handleReplace st slot target excludeIds out) <> None
  /\ Planner.State.result (Planner.handleReplace st slot target excludeIds out)
     = Planner.State.result st.
Proof.
  intros Hp Ok Hnm [d [m [Hd [Ea [Hm Ek]]]]].
  change (Frame.daysIn p) with (daysOf p) in Hd.
  change (Frame.mealsIn d) with (mealsOf d) in Hm.
  change (Frame.keyOf m) with (Planner.slotKey m) in Ek.
  pose proof (handleReplace_after_good_reply st slot target excludeIds out p Hp Ok) as H.
  destruct (Planner.mapThrowing _ _) as [newDays|] eqn:M;
    [exfalso | destruct H as [E Same]; split; [congruence | exact Same]].
  apply mapThrowing_Forall2 in M.
  destruct (In_nth_error _ _ Hd) as [i Hi].
  pose proof (Forall2_nth_error _ _ _ M i) as Fi. rewrite Hi in Fi.
  destruct (nth_error newDays i) as [d'|]; [|contradiction].
  apply updateDay_frame in Fi. destruct Fi as [Fr _].
  unfold dayFrame in Fr. rewrite Ea, Z.eqb_refl in Fr. destruct Fr as [_ Fm].
  destruct (In_nth_error _ _ Hm) as [j Hj].
  pose proof (Forall2_nth_error _ _ _ Fm j) as Fj. rewrite Hj in Fj.
  destruct (nth_error (mealsOf d') j) as [m'|]; [|contradiction].
  unfold mealFrame in Fj. rewrite Ek, strictEq_refl, Hnm in Fj. discriminate Fj.
Qed.

Lemma empty_slot_passes {R : Type} (st : Planner.State.t) (slot : option string)
      (target : Q) (excludeIds : list Z) (out : Outcome (ReplaceBody Planner.Meal.t R))
      (p : Planner.Plan.t) :
  planOfState st = Some p ->
  replyFails out = false ->
  ~ Frame.slotIsFilled (Planner.State.activeDay st) slot (Frame.daysIn p) ->
  Planner.State.error (Planner.handleReplace st slot target excludeIds out) = None
  /\ exists p',
       planOfState (Planner.handleReplace st slot target excludeIds out) = Some p'
       /\ map Frame.mealsIn (Frame.daysIn p') = map Frame.mealsIn (Frame.daysIn p).
Proof.
  intros Hp Ok Hno.
  assert (Hno' : forall d m, In d (daysOf p) ->
                   Planner.Day.day d = Planner.State.activeDay st ->
                   In m (mealsOf d) -> Planner.slotKey m <> slot).
  { intros d m Hd Ea Hm Ek. apply Hno. exists d, m. repeat split; assumption. }
  clear Hno.
  pose proof (handleReplace_after_good_reply st slot target excludeIds out p Hp Ok) as H.
  assert (M : exists newDays,
             Planner.mapThrowing
               (Planner.updateDay (Planner.State.activeDay st) slot (replyMeal out))
               (daysOf p) = Some newDays
             /\ map mealsOf newDays = map mealsOf (daysOf p)).
  { clear H. induction (daysOf p) as [|d ds IH]; [exists []; split; reflexivity|].
    destruct (unmatched_day (Planner.State.activeDay st) slot (replyMeal out) d)
      as [d' [U Em]]; [intros Ea m Hm; apply (Hno' d m (or_introl eq_refl) Ea Hm)|].
    destruct IH as [ds' [M Ems]]; [intros x m Hx; apply Hno'; right; exact Hx|].
    exists (d' :: ds'). simpl. rewrite U, M, Em, Ems. split; reflexivity. }
  destruct M as [newDays [M Em]]. rewrite M in H. destruct H as [E Hp'].
  split; [exact E|]. eexists. split; [exact Hp'|]. exact Em.
Qed.

Lemma reply_with_meal_passes {R : Type} (st : Planner.State.t) (slot : option string)
      (target : Q) (excludeIds : list Z) (out : Outcome (ReplaceBody Planner.Meal.t R))
      (p : Planner.Plan.t) (m : Planner.Meal.t) :
  planOfState st = Some p ->
  replyFails out = false ->
  replyMeal out = Some m ->
  Planner.State.error (Planner.handleReplace st slot target excludeIds out) = None
  /\ exists p',
       planOfState (Planner.handleReplace st slot target excludeIds out) = Some p'
       /\ forall d' m', In d' (Frame.daysIn p') -> In m' (Frame.mealsIn d') ->
            m' = m \/ exists d, In d (Frame.daysIn p) /\ In m' (Frame.mealsIn d).
Proof.
  intros Hp Ok Hm.
  pose proof (handleReplace_after_good_reply st slot target excludeIds out p Hp Ok) as H.
  rewrite Hm in H.
  destruct (mapThrowing_total
              (Planner.updateDay (Planner.State.activeDay st) slot (Some m)) (daysOf p)
              (updateDay_with_meal _ _ _)) as [newDays M].
  rewrite M in H. destruct H as [E Hp'].
  split; [exact E|]. eexists. split; [exact Hp'|].
  cbn [Frame.daysIn Planner.Plan.days].
  intros d' m' Hd' Hm'.
  apply mapThrowing_Forall2 in M.
  assert (Fr : Forall2 (dayFrame (Planner.State.activeDay st) slot (Some m))
                       (daysOf p) newDays).
  { eapply Forall2_impl; [|exact M]. intros d x U. apply updateDay_frame, U. }
  destruct (frame_meals_origin _ _ _ _ _ Fr d' m' Hd' Hm') as [E1 | Old].
  - left. congruence.
  - right. exact Old.
Qed.

Lemma meal_plan_error {M : Type} (st : MealPlan.State.t) (meal_number : Z)
      (out : Outcome (ReplaceBody M MealPlan.Replacement.t))
      (prev : MealPlan.MealPlanResponseOK.t) (msg : string) :
  planOfData st = Some prev ->
  MealPlan.replaceOutcome out = inl msg ->
  MealPlan.State.err (MealPlan.handleReplaceMeal st meal_number out) = Some msg
  /\ MealPlan.State.data (MealPlan.handleReplaceMeal st meal_number out)
     = MealPlan.State.data st.
Proof.
  intros Hp E.
  destruct (handleReplaceMeal_cases st meal_number out prev Hp)
    as [[msg' [E' [Er Same]]] | [rep [E' _]]]; [|congruence].
  split; [congruence | exact Same].
Qed.

End GoodReplies.

(* ===================================================================== *)
(** * What a replacement keeps, click and reply apart *)
(* ===================================================================== *)

Section FrameFacts.
Import JS Api Props.

(** With nothing in between, the two halves are [handleReplace]. *)
Lemma handleReplace_click_settle {R : Type} (st : Planner.State.t) (slot : option string)
      (target : Q) (excludeIds : list Z) (out : Outcome (ReplaceBody Planner.Meal.t R)) :
  Planner.handleReplace st slot target excludeIds out
  = PlannerAsync.settle st (PlannerAsync.click st) slot out.
Proof.
  unfold Planner.handleReplace, PlannerAsync.settle, PlannerAsync.click.
  destruct (Planner.State.result st) as [r|]; [|reflexivity].
  destruct (Planner.Result.plan r) as [p|]; [|reflexivity].
  destruct (Planner.replaceOutcome st r p slot out); reflexivity.
Qed.

Lemma handleReplaceMeal_click_settle {M : Type} (st : MealPlan.State.t) (meal_number : Z)
      (out : Outcome (ReplaceBody M MealPlan.Replacement.t)) :
  MealPlan.handleReplaceMeal st meal_number out
  = MealPlanAsync.settle st (MealPlanAsync.click st meal_number) meal_number out.
Proof.
  unfold MealPlan.handleReplaceMeal, MealPlanAsync.settle, MealPlanAsync.click.
  destruct (MealPlan.State.data st) as [[prev|m]|]; reflexivity.
Qed.


Lemma settle_without_plan {R : Type} (clicked held : Planner.State.t)
      (slot : option string) (out : Outcome (ReplaceBody Planner.Meal.t R)) :
  planOfState clicked = None -> PlannerAsync.settle clicked held slot out = held.
Proof.
  unfold planOfState, PlannerAsync.settle.
  destruct (Planner.State.result clicked) as [r|]; [|reflexivity].
  intros ->. reflexivity.
Qed.

Lemma failed_reply_is_an_error {R : Type} (st : Planner.State.t) (slot : option string)
      (target : Q) (excludeIds : list Z) (out : Outcome (ReplaceBody Planner.Meal.t R))
      (p : Planner.Plan.t) :
  planOfState st = Some p ->
  replyFails out = true ->
  Planner.State.error (Planner.handleReplace st slot target excludeIds out) <> None.
Proof.
  intros Hp F.
  destruct (handleReplace_cases st slot target excludeIds out p Hp)
    as [[msg [E _]] | [newDays [Ok _]]]; congruence.
Qed.



Lemma replyReplacement_outcome {M : Type}
      (out : Outcome (ReplaceBody M MealPlan.Replacement.t)) :
  match Frame.replyReplacement out with
  | Some rep => MealPlan.replaceOutcome out = inr rep
  | None => exists msg, MealPlan.replaceOutcome out = inl msg
  end.
Proof.
  unfold Frame.replyReplacement, MealPlan.replaceOutcome.
  destruct out as [m | ok code [m | data] | ok code]; try (eexists; reflexivity).
  - destruct ok; simpl; eexists; reflexivity.
  - destruct ok; simpl; [|eexists; reflexivity].
    unfold isOk. destruct (status data) as [s|]; [|eexists; reflexivity].
    destruct (String.eqb s "ok"); [|eexists; reflexivity].
    destruct (replacement data); [reflexivity | eexists; reflexivity].
Qed.




(** Two calls in flight.  Breakfast and lunch of day 1 are asked to be
    replaced from the same render; the reply for breakfast arrives first and
    the omelette is put in; the reply for lunch then sets the plan held at
    the click with the new lunch, and the breakfast is the oatmeal again. *)
Example second_reply_takes_back_the_first :
  let first :=
    PlannerAsync.settle Samples.twoDays (PlannerAsync.click Samples.twoDays)
                        (Some "breakfast")
                        (@Samples.okReply MealPlan.Replacement.t Samples.omelette) in
  let second :=
    PlannerAsync.settle Samples.twoDays first (Some "lunch")
                        (@Samples.okReply MealPlan.Replacement.t Samples.almonds) in
  map (fun d => map Planner.Meal.name (Frame.mealsIn d)) (PlannerView.days first)
  = [["Omelette"; "Chickpea curry"]; ["Chickpea curry"; "Oatmeal"]]
  /\ map (fun d => map Planner.Meal.name (Frame.mealsIn d)) (PlannerView.days second)
     = [["Oatmeal"; "Almonds"]; ["Chickpea curry"; "Oatmeal"]].
Proof.
  split; vm_compute; reflexivity.
Qed.

End FrameFacts.

(* ===================================================================== *)
(** * Which replies the pages take for a success *)
(* ===================================================================== *)

Section ReplyFacts.
Import JS Api Props.

(** C6, as the code has it. The planner page takes a reply for a success
    only when it comes with a good HTTP status and a body with status "ok".
    It then reads the new meal under the key meal, in the shape of a meal of
    the plan: every meal of the new plan is that meal or a meal held before.
    When such a reply has no meal, the call succeeds and changes no meal if
    no meal of a day with the selected number sits in the slot asked for, and
    it fails, keeping the plan, if one sits in the slot named.  Any other
    reply is a failure that keeps the plan; with a body it shows detail, else
    "Replace failed".  The meal-plan page succeeds exactly on a reply with a
    good HTTP status, status "ok" and the key replacement, which it puts in
    the place of the meals with the number asked for, whatever the key meal
    holds; any other reply keeps the plan and shows, with a good HTTP status,
    message, else "No replacement returned", with a bad one detail, else
    message, else the status code, and for a body that is the JSON value null
    the text of the TypeError. *)
Theorem replace_reply_contract :
  (forall (R : Type) (st : Planner.State.t) (slot : option string) (target : Q)
          (excludeIds : list Z) (out : Outcome (ReplaceBody Planner.Meal.t R))
          (p : Planner.Plan.t),
      planOfState st = Some p ->
      (Planner.State.error (Planner.handleReplace st slot target excludeIds out) = None ->
       replyFails out = false)
      /\ (replyFails out = true ->
          Planner.State.error (Planner.handleReplace st slot target excludeIds out) <> None
          /\ Planner.State.result (Planner.handleReplace st slot target excludeIds out)
             = Planner.State.result st)
      /\ (forall ok code data,
             out = Responded ok code (inr data) ->
             ok = false \/ status data <> Some "ok" ->
             Planner.State.error (Planner.handleReplace st slot target excludeIds out)
             = Some (match detail data with Some d => d | None => "Replace failed" end))
      /\ (forall m,
             replyFails out = false ->
             replyMeal out = Some m ->
             Planner.State.error (Planner.handleReplace st slot target excludeIds out) = None
             /\ exists p',
                  planOfState (Planner.handleReplace st slot target excludeIds out) = Some p'
                  /\ forall d' m', In d' (Frame.daysIn p') -> In m' (Frame.mealsIn d') ->
                       m' = m \/ exists d, In d (Frame.daysIn p) /\ In m' (Frame.mealsIn d))
      /\ (replyFails out = false ->
          replyMeal out = None ->
          (forall s, slot = Some s ->
                     Frame.slotIsFilled (Planner.State.activeDay st) slot (Frame.daysIn p) ->
                     Planner.State.error (Planner.handleReplace st slot target excludeIds out)
                     <> None
                     /\ Planner.State.result
                          (Planner.handleReplace st slot target excludeIds out)
                        = Planner.State.result st)
          /\ (~ Frame.slotIsFilled (Planner.State.activeDay st) slot (Frame.daysIn p) ->
              Planner.State.error (Planner.handleReplace st slot target excludeIds out) = None
              /\ exists p',
                   planOfState (Planner.handleReplace st slot target excludeIds out)
                   = Some p'
                   /\ map Frame.mealsIn (Frame.daysIn p')
                      = map Frame.mealsIn (Frame.daysIn p))))
  /\ (forall (M : Type) (st : MealPlan.State.t) (meal_number : Z)
             (out : Outcome (ReplaceBody M MealPlan.Replacement.t))
             (prev : MealPlan.MealPlanResponseOK.t),
         planOfData st = Some prev ->
         (MealPlan.State.err (MealPlan.handleReplaceMeal st meal_number out) = None <->
          Frame.replyReplacement out <> None)
         /\ (forall rep,
                Frame.replyReplacement out = Some rep ->
                exists next,
                  planOfData (MealPlan.handleReplaceMeal st meal_number out) = Some next
                  /\ Forall2 (dayFromAPIFrame (MealPlan.State.activeDay st) meal_number rep)
                             (MealPlan.MealPlanResponseOK.plan prev)
                             (MealPlan.MealPlanResponseOK.plan next))
         /\ (Frame.replyReplacement out = None ->
             MealPlan.State.data (MealPlan.handleReplaceMeal st meal_number out)
             = MealPlan.State.data st)
         /\ (forall code j,
                out = Responded true code (inr j) ->
                Frame.replyReplacement out = None ->
                MealPlan.State.err (MealPlan.handleReplaceMeal st meal_number out)
                = Some (match message j with
                        | Some m => m
                        | None => "No replacement returned"
                        end))
         /\ (forall code j,
                out = Responded false code (inr j) ->
                MealPlan.State.err (MealPlan.handleReplaceMeal st meal_number out)
                = Some (match detail j, message j with
                        | Some d, _ => d
                        | None, Some m => m
                        | None, None => "Replace failed (HTTP " ++ code ++ ")"
                        end))
         /\ (forall code,
                (out = RespondedNull true code ->
                 MealPlan.State.err (MealPlan.handleReplaceMeal st meal_number out)
                 = Some "Cannot read properties of null (reading 'status')")
                /\ (out = RespondedNull false code ->
                    MealPlan.State.err (MealPlan.handleReplaceMeal st meal_number out)
                    = Some "Cannot read properties of null (reading 'message')"))).
Proof.
  split.
  - intros R st slot target excludeIds out p Hp.
    split; [|split; [|split; [|split]]].
    + intros E. destruct (replyFails out) eqn:F; [|reflexivity].
      elim (failed_reply_is_an_error st slot target excludeIds out p Hp F E).
    + intros F. split; [apply (failed_reply_is_an_error st slot target excludeIds out p Hp F)|].
      destruct (handleReplace_cases st slot target excludeIds out p Hp)
        as [[msg [_ Same]] | [newDays [Ok _]]]; [exact Same | congruence].
    + intros ok code data -> Bad.
      assert (B : negb ok || negb (isOk (status data)) = true).
      { destruct Bad as [->|Ns]; [reflexivity|].
        destruct (isOk (status data)) eqn:I; [|apply orb_true_r].
        apply isOk_status in I. contradiction. }
      unfold planOfState in Hp. unfold Planner.handleReplace.
      destruct (Planner.State.result st) as [r|]; [|discriminate].
      rewrite Hp. unfold Planner.replaceOutcome. rewrite B. reflexivity.
    + intros m Ok Hm. apply reply_with_meal_passes; assumption.
    + intros Ok Hnm. split.
      * intros s _ Filled. apply filled_slot_throws with (p := p); assumption.
      * intros Hno. apply empty_slot_passes; assumption.
  - intros M st n out prev Hp.
    pose proof (replyReplacement_outcome out) as RO.
    split; [|split; [|split; [|split; [|split]]]].
    + destruct (Frame.replyReplacement out) as [rep|].
      * destruct (handleReplaceMeal_cases st n out prev Hp)
          as [[msg [E' _]] | [rep' [_ [Er _]]]]; [congruence|].
        split; [discriminate | intros _; exact Er].
      * destruct RO as [msg E].
        destruct (meal_plan_error st n out prev msg Hp E) as [Er _].
        split; [congruence | intros C; elim C; reflexivity].
    + intros rep Hr. rewrite Hr in RO.
      destruct (handleReplaceMeal_cases st n out prev Hp)
        as [[msg [E' _]] | [rep' [E' [_ Hp']]]]; [congruence|].
      assert (rep' = rep) by congruence. subst rep'.
      eexists. split; [exact Hp'|]. apply updateDayFromAPI_frame.
    + intros Hr. rewrite Hr in RO. destruct RO as [msg E].
      apply (meal_plan_error st n out prev msg Hp E).
    + intros code j -> Hr.
      refine (proj1 (meal_plan_error st n _ prev _ Hp _)).
      unfold Frame.replyReplacement in Hr. unfold MealPlan.replaceOutcome. simpl.
      unfold isOk. destruct (status j) as [s|]; [|reflexivity].
      destruct (String.eqb s "ok"); [|reflexivity].
      rewrite Hr. reflexivity.
    + intros code j ->.
      refine (proj1 (meal_plan_error st n _ prev _ Hp _)).
      unfold MealPlan.replaceOutcome. simpl.
      destruct (detail j), (message j); reflexivity.
    + intros code. split; intros ->;
        refine (proj1 (meal_plan_error st n _ prev _ Hp _)); reflexivity.
Qed.

Lemma replace_reply_witness :
  Planner.State.error
    (Planner.handleReplace Samples.twoDays (Some "breakfast") 600 [7]
       (@Samples.errorReply MealPlan.Replacement.t "No alternative"))
  = Some "No alternative"
  /\ Planner.State.error
       (Planner.handleReplace Samples.twoDays (Some "breakfast") 600 [7] Samples.mealReply)
     = None
  /\ MealPlan.State.err
       (MealPlan.handleReplaceMeal Samples.mealPlanState 1
          (@RespondedNull (ReplaceBody Planner.Meal.t MealPlan.Replacement.t) true "200"))
     = Some "Cannot read properties of null (reading 'status')".
Proof.
  split; [|split].
  - refine (proj1 (proj2 (proj2 (proj1 replace_reply_contract
              MealPlan.Replacement.t Samples.twoDays (Some "breakfast") 600%Q [7]
              _ _ eq_refl))) false "404" _ eq_refl _).
    left. reflexivity.
  - refine (proj1 (proj1 (proj2 (proj2 (proj2 (proj1 replace_reply_contract
              MealPlan.Replacement.t Samples.twoDays (Some "breakfast") 600%Q [7]
              Samples.mealReply _ eq_refl)))) Samples.omelette eq_refl eq_refl)).
  - refine (proj1 (proj2 (proj2 (proj2 (proj2 (proj2 (proj2 replace_reply_contract
              Planner.Meal.t Samples.mealPlanState 1 _ _ eq_refl))))) "200") eq_refl).
Defined.

End ReplyFacts.
